(** * Analytics core of the DevOps hub: sprint health, workload dashboard,
      issue-text classifier and release-note categoriser

    Shallow embedding of [src/src/ai-analytics.ts] (class [AIAnalytics]) and
    of the parts of [src/src/jira-client.ts] it relies on.

    Conventions of the embedding.
    - A JavaScript string is the sequence of its UTF-16 code units.  The model
      covers the strings whose code units are all below 256, written as
      Rocq's [string] (one [ascii] per code unit).  On that range
      [toLowerCase] and the regular-expression class [\s] are as ECMAScript
      defines them.
    - An [async] method that may throw is a computation in the [result]
      monad; [try { ... } catch { ... }] is [tryCatch].
    - The Jira client is a collaborator: a record of functions.
    - Counts are [nat]; the health score is an integer-valued double and is
      kept in [Z]; the two places of the sprint analysis that go through
      fractional doubles ([done / total * 100] and [length * 0.4]) are
      computed with binary64 primitives; the statistics of the workload
      dashboard (mean, variance, square root) are taken over the reals. *)

From Stdlib Require Import ZArith List String Ascii Bool Arith Lia.
From Stdlib Require Import DecimalString Permutation Sorted.
From Stdlib Require DecimalFacts DecimalNat.
From Stdlib Require Import Floats.
From Stdlib Require Import Reals Lra.
Import ListNotations.

Open Scope list_scope.
Open Scope string_scope.

(** ** JavaScript strings *)

(** [String.prototype.toLowerCase] on one code unit below 256: the letters
    A-Z and the Latin-1 capitals U+00C0-U+00DE (without the multiplication
    sign U+00D7) move up by 32. *)
Definition toLowerCaseUnit (c : ascii) : ascii :=
  let n := N_of_ascii c in
  if (((65 <=? n) && (n <=? 90))
      || ((192 <=? n) && (n <=? 222) && negb (n =? 215)))%N
  then ascii_of_N (n + 32)
  else c.

Fixpoint toLowerCase (s : string) : string :=
  match s with
  | EmptyString => EmptyString
  | String c r => String (toLowerCaseUnit c) (toLowerCase r)
  end.

(** [s.includes(k)]: [k] occurs in [s] as a contiguous substring. *)
Fixpoint includes (s k : string) : bool :=
  prefix k s ||
  match s with
  | EmptyString => false
  | String _ r => includes r k
  end.

(** [arr.includes(x)] on an array of strings: some element is equal to [x]. *)
Definition arrayIncludes (arr : list string) (x : string) : bool :=
  existsb (String.eqb x) arr.

(** [keywords.some(k => text.includes(k))]. *)
Definition someIncluded (text : string) (keywords : list string) : bool :=
  existsb (fun k => includes text k) keywords.

(** The class [\s] on code units below 256: TAB, LF, VT, FF, CR, SPACE and
    the no-break space U+00A0. *)
Definition isWhiteSpace (c : ascii) : bool :=
  let n := N_of_ascii c in
  (((9 <=? n) && (n <=? 13)) || (n =? 32) || (n =? 160))%N.

(** [s.split(/\s+/)]: the pieces between maximal runs of white space; a run
    at either end leaves an empty piece there. *)
Fixpoint splitWhiteSpaceFrom (cur : string) (afterSpace : bool) (s : string)
  : list string :=
  match s with
  | EmptyString => [cur]
  | String c r =>
      if isWhiteSpace c
      then (if afterSpace
            then splitWhiteSpaceFrom cur true r
            else cur :: splitWhiteSpaceFrom EmptyString true r)
      else splitWhiteSpaceFrom (cur ++ String c EmptyString) false r
  end.

Definition splitWhiteSpace (s : string) : list string :=
  splitWhiteSpaceFrom EmptyString false s.

(** [arr.push(x)]: the array with [x] added at its end. *)
Definition push {A : Type} (arr : list A) (x : A) : list A :=
  (arr ++ [x])%list.

(** [arr.join(sep)]. *)
Fixpoint join (sep : string) (arr : list string) : string :=
  match arr with
  | [] => EmptyString
  | [x] => x
  | x :: rest => x ++ sep ++ join sep rest
  end.

(** [s.substring(0, n)]. *)
Definition substring0 (n : nat) (s : string) : string := substring 0 n s.

(** Template-literal rendering of a count. *)
Definition natToString (n : nat) : string :=
  NilZero.string_of_uint (Nat.to_uint n).

(** Template-literal rendering of a number that holds a safe integer (one
    of absolute value below 2^53): its decimal digits.  Beyond that range a
    number is not every integer and, from 1e21 on, is rendered with an
    exponent; statements about the rendered text are made for safe integers
    only. *)
Definition intToString (z : Z) : string :=
  NilZero.string_of_int (Z.to_int z).

(** The double-quote character, for the query strings. *)
Definition dquote : string := String (ascii_of_nat 34) EmptyString.

(** ** Doubles *)

(** A count as a double (exact below 2^53; array lengths are below 2^32). *)
Definition floatOfNat (n : nat) : float :=
  PrimFloat.of_uint63 (Uint63.of_Z (Z.of_nat n)).

(** [Math.round] on a finite double: the integer [floor (x + 1/2)], computed
    exactly from the mantissa and exponent.  The source rounds only a finite
    quotient; the other classes are mapped to 0 here and never reached. *)
Definition Math_round (x : float) : Z :=
  match Prim2SF x with
  | S754_finite s m e =>
      let num := if s then Z.neg m else Z.pos m in
      if (0 <=? e)%Z
      then (num * 2 ^ e)%Z
      else ((2 * num + 2 ^ (- e)) / 2 ^ (1 - e))%Z
  | _ => 0%Z
  end.

(** The literal [0.4] as the double it denotes. *)
Definition float_0_4 : float := 0x1.999999999999ap-2%float.

(** ** Failing computations *)

Inductive result (A : Type) : Type :=
| Ok (a : A)
| Err (message : string).
Arguments Ok {A} a.
Arguments Err {A} message.

Definition bind {A B : Type} (c : result A) (k : A -> result B) : result B :=
  match c with
  | Ok a => k a
  | Err e => Err e
  end.

Declare Scope result_scope.
Delimit Scope result_scope with result.
Notation "x <- c ;; k" := (bind c (fun x => k))
  (at level 100, c at next level, right associativity) : result_scope.

(** [try { body } catch { handler }]. *)
Definition tryCatch {A : Type} (body : result A) (handler : string -> result A)
  : result A :=
  match body with
  | Ok a => Ok a
  | Err e => handler e
  end.

(** ** Data model ([jira-client.ts]) *)

Record JiraUserRef : Type := {
  displayName : string;
  emailAddress : string
}.

Record JiraIssueFields : Type := {
  summary : string;
  description : option string;      (* absent, null or not a string: None *)
  status_name : string;             (* status.name *)
  priority_name : option string;    (* priority?.name *)
  assignee : option JiraUserRef;
  reporter : option JiraUserRef;
  issuetype_name : string;          (* issuetype.name *)
  updated : string;
  labels : option (list string)
}.

Record JiraIssue : Type := {
  key : string;
  fields : JiraIssueFields
}.

Record Sprint : Type := {
  sprint_id : Z;
  sprint_name : string
}.

(** The methods of [JiraClient] the analytics call. *)
Record JiraClient : Type := {
  getSprintIssues : Z -> result (list JiraIssue);
  getSprints : Z -> result (list Sprint);
  searchIssues : string -> nat -> result (list JiraIssue)
}.

(** Truthiness of an optional number: present and not zero. *)
Definition truthy (n : option Z) : bool :=
  match n with
  | Some z => negb (z =? 0)%Z
  | None => false
  end.

Definition isSome {A : Type} (o : option A) : bool :=
  match o with
  | Some _ => true
  | None => false
  end.

(** ** Sprint health analyzer ([analyzeSprintHealth]) *)

Inductive HealthStatus : Type := excellent | good | at_risk | critical.
Inductive BurndownHealth : Type := on_track | ahead | behind.
Inductive VelocityTrend : Type := trend_up | trend_stable | trend_down.

Record IssueBreakdown : Type := {
  total : nat;
  done : nat;
  inProgress : nat;
  todo : nat;
  blocked : nat
}.

Record SprintMetrics : Type := {
  completionRate : Z;
  velocityTrend : VelocityTrend;
  scopeChange : Z;
  blockedIssues : nat;
  avgCycleTime : Z;
  burndownHealth : BurndownHealth
}.

Record SprintHealthMetrics : Type := {
  sprintName : string;
  sprintId : Z;
  healthScore : Z;
  healthStatus : HealthStatus;
  metrics : SprintMetrics;
  risks : list string;
  recommendations : list string;
  issueBreakdown : IssueBreakdown
}.

(** The mutable locals of the loop over the sprint's issues. *)
Record SprintLoop : Type := {
  loop_breakdown : IssueBreakdown;
  loop_blockedIssues : list string;
  loop_risks : list string
}.

Definition incDone (b : IssueBreakdown) : IssueBreakdown :=
  {| total := total b; done := S (done b); inProgress := inProgress b;
     todo := todo b; blocked := blocked b |}.
Definition incInProgress (b : IssueBreakdown) : IssueBreakdown :=
  {| total := total b; done := done b; inProgress := S (inProgress b);
     todo := todo b; blocked := blocked b |}.
Definition incTodo (b : IssueBreakdown) : IssueBreakdown :=
  {| total := total b; done := done b; inProgress := inProgress b;
     todo := S (todo b); blocked := blocked b |}.
Definition incBlocked (b : IssueBreakdown) : IssueBreakdown :=
  {| total := total b; done := done b; inProgress := inProgress b;
     todo := todo b; blocked := S (blocked b) |}.

(** One iteration of [for (const issue of issues)]. *)
Definition sprintLoopBody (st : SprintLoop) (issue : JiraIssue) : SprintLoop :=
  let status := toLowerCase (status_name (fields issue)) in
  let bd := loop_breakdown st in
  let st1 :=
    if (status =? "done") || (status =? "closed") || (status =? "resolved")
    then {| loop_breakdown := incDone bd;
            loop_blockedIssues := loop_blockedIssues st;
            loop_risks := loop_risks st |}
    else if (status =? "in progress") || (status =? "in review")
            || (status =? "code review")
    then {| loop_breakdown := incInProgress bd;
            loop_blockedIssues := loop_blockedIssues st;
            loop_risks := loop_risks st |}
    else if (status =? "blocked") || (status =? "impediment")
    then {| loop_breakdown := incBlocked bd;
            loop_blockedIssues :=
              push (loop_blockedIssues st)
                   (key issue ++ ": " ++ summary (fields issue));
            loop_risks := loop_risks st |}
    else {| loop_breakdown := incTodo bd;
            loop_blockedIssues := loop_blockedIssues st;
            loop_risks := loop_risks st |} in
  (* Check for unassigned issues *)
  let risks1 :=
    if negb (isSome (assignee (fields issue))) && negb (status =? "done")
    then push (loop_risks st1) ("Unassigned issue: " ++ key issue)
    else loop_risks st1 in
  (* Check for issues without priority *)
  let risks2 :=
    if negb (isSome (priority_name (fields issue))) && negb (status =? "done")
    then push risks1 ("No priority set: " ++ key issue)
    else risks1 in
  {| loop_breakdown := loop_breakdown st1;
     loop_blockedIssues := loop_blockedIssues st1;
     loop_risks := risks2 |}.

Definition sprintLoopInit (issues : list JiraIssue) : SprintLoop :=
  {| loop_breakdown :=
       {| total := List.length issues; done := 0; inProgress := 0;
          todo := 0; blocked := 0 |};
     loop_blockedIssues := [];
     loop_risks := [] |}.

Definition sprintLoop (issues : list JiraIssue) : SprintLoop :=
  fold_left sprintLoopBody issues (sprintLoopInit issues).

(** [total > 0 ? Math.round((done / total) * 100) : 0]. *)
Definition computeCompletionRate (b : IssueBreakdown) : Z :=
  if (0 <? total b)%nat
  then Math_round
         (PrimFloat.mul
            (PrimFloat.div (floatOfNat (done b)) (floatOfNat (total b)))
            (floatOfNat 100))
  else 0%Z.

(** [inProgress > n * 0.4]. *)
Definition wipOverload (inProgressCount n : nat) : bool :=
  PrimFloat.ltb (PrimFloat.mul (floatOfNat n) float_0_4)
                (floatOfNat inProgressCount).

Definition clampScore (h : Z) : Z := Z.max 0 (Z.min 100 h).

Definition healthStatusOf (score : Z) : HealthStatus :=
  if (80 <=? score)%Z then excellent
  else if (60 <=? score)%Z then good
  else if (40 <=? score)%Z then at_risk
  else critical.

Definition burndownHealthOf (rate : Z) (inProgressCount : nat)
  : BurndownHealth :=
  if (70 <? rate)%Z then ahead
  else if (rate <? 30)%Z && (inProgressCount <? 3)%nat then behind
  else on_track.

(** Everything after the sprint's issues and name are known. *)
Definition sprintHealthOf (name : string) (id : Z) (issues : list JiraIssue)
  : SprintHealthMetrics :=
  let st := sprintLoop issues in
  let bd := loop_breakdown st in
  let rate := computeCompletionRate bd in
  let h0 := 100%Z in
  (* Deduct for incomplete work *)
  let h1 := (h0 - Z.max 0 (50 - rate))%Z in
  (* Deduct for blocked issues *)
  let h2 := (h1 - Z.of_nat (blocked bd) * 5)%Z in
  (* Deduct for too many in-progress items *)
  let wip := wipOverload (inProgress bd) (List.length issues) in
  let h3 := if wip then (h2 - 10)%Z else h2 in
  let risks3 :=
    if wip
    then push (loop_risks st) "Too many issues in progress (WIP overload)"
    else loop_risks st in
  (* Deduct for unbalanced work *)
  let unbalanced := (done bd <? todo bd)%nat && (rate <? 50)%Z in
  let h4 := if unbalanced then (h3 - 10)%Z else h3 in
  let risks4 :=
    if unbalanced
    then push risks3 "More work remaining than completed"
    else risks3 in
  let score := clampScore h4 in
  let status := healthStatusOf score in
  let burndown := burndownHealthOf rate (inProgress bd) in
  let rec1 :=
    if (0 <? blocked bd)%nat
    then ["Address " ++ natToString (blocked bd)
            ++ " blocked issue(s) immediately"]
    else [] in
  let rec2 :=
    if wipOverload (inProgress bd) (total bd)
    then push rec1
           "Focus on completing in-progress work before starting new items"
    else rec1 in
  let rec3 :=
    if (0 <? List.length (filter (fun r => includes r "Unassigned") risks4))%nat
    then push rec2 "Assign owners to all remaining issues"
    else rec2 in
  let rec4 :=
    if (rate <? 50)%Z && (5 <? todo bd)%nat
    then push rec3 "Consider reducing sprint scope"
    else rec3 in
  let rec5 :=
    match status, rec4 with
    | excellent, [] => ["Sprint is progressing well - maintain current pace"]
    | _, _ => rec4
    end in
  {| sprintName := name;
     sprintId := id;
     healthScore := score;
     healthStatus := status;
     metrics :=
       {| completionRate := rate;
          velocityTrend := trend_stable;
          scopeChange := 0;
          blockedIssues := blocked bd;
          avgCycleTime := 0;
          burndownHealth := burndown |};
     risks := risks4;
     recommendations := rec5;
     issueBreakdown := bd |}.

(** The sprint's display name: the synthesized one unless a board is given
    and the lookup succeeds and finds the sprint. *)
Definition resolveSprintName (client : JiraClient) (id : Z)
           (boardId : option Z) : result string :=
  let synthesized := "Sprint " ++ intToString id in
  match boardId with
  | Some b =>
      if truthy boardId
      then tryCatch
             (sprints <- getSprints client b ;;
              match find (fun s => (sprint_id s =? id)%Z) sprints with
              | Some s => Ok (sprint_name s)
              | None => Ok synthesized
              end)%result
             (fun _ => Ok synthesized)
      else Ok synthesized
  | None => Ok synthesized
  end.

Definition analyzeSprintHealth (client : JiraClient) (id : Z)
           (boardId : option Z) : result SprintHealthMetrics :=
  (issues <- getSprintIssues client id ;;
   name <- resolveSprintName client id boardId ;;
   Ok (sprintHealthOf name id issues))%result.

(** ** Team workload dashboard ([generateWorkloadDashboard]) *)

(** The ambient [Date] API, as far as the analytics use it: [Date.now()],
    [new Date().toISOString()], the time value of [new Date(s)] ([None] for
    an invalid date, whose time value is NaN), and the two default dates of
    the release notes. *)
Record Clock : Type := {
  Date_now : Z;
  Date_nowISO : string;
  Date_getTime : string -> option Z;
  Date_today : string;
  Date_thirtyDaysAgo : string
}.

Inductive WorkloadStatus : Type :=
  underutilized | optimal | heavy | overloaded.

Definition WorkloadStatus_eqb (a b : WorkloadStatus) : bool :=
  match a, b with
  | underutilized, underutilized | optimal, optimal
  | heavy, heavy | overloaded, overloaded => true
  | _, _ => false
  end.

Record MemberMetrics : Type := {
  assignedIssues : nat;
  inProgressIssues : nat;
  completedThisWeek : nat;
  storyPointsAssigned : nat;
  storyPointsCompleted : nat;
  overdueTasks : nat;
  avgCompletionTime : nat
}.

(** Field [metrics] of the source is [memberMetrics] here ([metrics] is
    taken by the sprint record). *)
Record WorkloadMetrics : Type := {
  teamMember : string;
  userId : string;
  memberMetrics : MemberMetrics;
  workloadStatus : WorkloadStatus;
  riskFactors : list string
}.

(** Fields [sprintName] and [recommendations] of the source carry the prefix
    [dashboard] here. *)
Record TeamWorkloadDashboard : Type := {
  generatedAt : string;
  dashboardSprintName : option string;
  teamSize : nat;
  totalIssues : nat;
  averageWorkload : R;
  workloadDistribution : list WorkloadMetrics;
  balanceScore : Z;
  dashboardRecommendations : list string;
  bottlenecks : list string
}.

(** [Map<string, JiraIssue[]>]: entries in insertion order. *)
Definition AssigneeMap : Type := list (string * list JiraIssue).

Fixpoint mapHas (m : AssigneeMap) (k : string) : bool :=
  match m with
  | [] => false
  | (k', _) :: r => (k' =? k) || mapHas r k
  end.

(** [m.set(k, v)]: replaces the value of a present key in place, adds an
    absent key at the end. *)
Fixpoint mapSet (m : AssigneeMap) (k : string) (v : list JiraIssue)
  : AssigneeMap :=
  match m with
  | [] => [(k, v)]
  | (k', v') :: r =>
      if k' =? k then (k', v) :: r else (k', v') :: mapSet r k v
  end.

(** [m.get(k)!.push(issue)]: the array stored under [k] grows in place. *)
Fixpoint mapGetPush (m : AssigneeMap) (k : string) (issue : JiraIssue)
  : AssigneeMap :=
  match m with
  | [] => []
  | (k', v') :: r =>
      if k' =? k then (k', push v' issue) :: r
      else (k', v') :: mapGetPush r k issue
  end.

(** One iteration of the grouping loop. *)
Definition groupBody (m : AssigneeMap) (issue : JiraIssue) : AssigneeMap :=
  match assignee (fields issue) with
  | Some a =>
      let k := displayName a in
      let m1 := if negb (mapHas m k) then mapSet m k [] else m in
      mapGetPush m1 k issue
  | None => m
  end.

Definition groupByAssignee (issues : list JiraIssue) : AssigneeMap :=
  fold_left groupBody issues [].

Definition millisPerDay : Z := 1000 * 60 * 60 * 24.

(** [daysSinceUpdate > 14], where [daysSinceUpdate] is
    [(Date.now() - updatedDate.getTime()) / millisPerDay]: both time values
    are integers, so the test is [now - t > 14 * millisPerDay]; an invalid
    date compares false. *)
Definition staleFor14Days (clock : Clock) (issue : JiraIssue) : bool :=
  match Date_getTime clock (updated (fields issue)) with
  | Some t => (14 * millisPerDay <? Date_now clock - t)%Z
  | None => false
  end.

Definition memberMetricsInit (memberIssues : list JiraIssue) : MemberMetrics :=
  {| assignedIssues := List.length memberIssues;
     inProgressIssues := 0;
     completedThisWeek := 0;
     storyPointsAssigned := 0;
     storyPointsCompleted := 0;
     overdueTasks := 0;
     avgCompletionTime := 0 |}.

Definition incInProgressIssues (m : MemberMetrics) : MemberMetrics :=
  {| assignedIssues := assignedIssues m;
     inProgressIssues := S (inProgressIssues m);
     completedThisWeek := completedThisWeek m;
     storyPointsAssigned := storyPointsAssigned m;
     storyPointsCompleted := storyPointsCompleted m;
     overdueTasks := overdueTasks m;
     avgCompletionTime := avgCompletionTime m |}.

Definition incOverdueTasks (m : MemberMetrics) : MemberMetrics :=
  {| assignedIssues := assignedIssues m;
     inProgressIssues := inProgressIssues m;
     completedThisWeek := completedThisWeek m;
     storyPointsAssigned := storyPointsAssigned m;
     storyPointsCompleted := storyPointsCompleted m;
     overdueTasks := S (overdueTasks m);
     avgCompletionTime := avgCompletionTime m |}.

(** One iteration of [for (const issue of memberIssues)]. *)
Definition memberLoopBody (clock : Clock) (m : MemberMetrics)
           (issue : JiraIssue) : MemberMetrics :=
  let status := toLowerCase (status_name (fields issue)) in
  let m1 :=
    if includes status "progress" || includes status "review"
    then incInProgressIssues m
    else m in
  if staleFor14Days clock issue
     && negb (includes status "done") && negb (includes status "closed")
  then incOverdueTasks m1
  else m1.

Definition workloadStatusOf (assigned : nat) : WorkloadStatus :=
  if (assigned <=? 2)%nat then underutilized
  else if (assigned <=? 5)%nat then optimal
  else if (assigned <=? 8)%nat then heavy
  else overloaded.

(** The body of [for (const [displayName, memberIssues] of assigneeMap)], up
    to the two [push]es. *)
Definition memberEntry (clock : Clock) (entry : string * list JiraIssue)
  : WorkloadMetrics :=
  let (name, memberIssues) := entry in
  let m := fold_left (memberLoopBody clock) memberIssues
                     (memberMetricsInit memberIssues) in
  let status := workloadStatusOf (assignedIssues m) in
  let risk1 :=
    match status with
    | overloaded =>
        ["Has " ++ natToString (assignedIssues m) ++ " assigned issues"]
    | _ => []
    end in
  let risk2 :=
    if (3 <? inProgressIssues m)%nat
    then push risk1 "Too many items in progress simultaneously"
    else risk1 in
  let risk3 :=
    if (0 <? overdueTasks m)%nat
    then push risk2
           (natToString (overdueTasks m) ++ " potentially stale issue(s)")
    else risk2 in
  {| teamMember := name;
     userId := "";
     memberMetrics := m;
     workloadStatus := status;
     riskFactors := risk3 |}.

(** The loop over the map: both arrays grow by one element per member. *)
Definition memberLoop (clock : Clock) (m : AssigneeMap)
  : list WorkloadMetrics * list nat :=
  fold_left
    (fun acc entry =>
       let w := memberEntry clock entry in
       (push (fst acc) w, push (snd acc) (assignedIssues (memberMetrics w))))
    m ([], []).

Definition avgWorkloadOf (workloads : list nat) : R :=
  if (0 <? List.length workloads)%nat
  then (fold_left (fun a b => a + INR b) workloads 0
        / INR (List.length workloads))%R
  else 0%R.

Definition varianceOf (workloads : list nat) : R :=
  if (0 <? List.length workloads)%nat
  then (fold_left (fun sum w => sum + (INR w - avgWorkloadOf workloads) ^ 2)
                  workloads 0
        / INR (List.length workloads))%R
  else 0%R.

Definition stdDevOf (workloads : list nat) : R := sqrt (varianceOf workloads).

(** [Math.max(0, Math.min(100, 100 - (stdDev * 10)))]. *)
Definition balanceScoreOf (workloads : list nat) : R :=
  Rmax 0 (Rmin 100 (100 - stdDevOf workloads * 10)).

(** [Math.round] on a real: [floor (x + 1/2)]. *)
Definition roundR (x : R) : Z := Int_part (x + / 2).

Definition teamMembers (ws : list WorkloadMetrics) : string :=
  join ", " (map teamMember ws).

(** Everything after the issues are fetched. *)
Definition workloadDashboardOf (clock : Clock) (sprint : option Z)
           (issues : list JiraIssue) : TeamWorkloadDashboard :=
  let assigneeMap := groupByAssignee issues in
  let (distribution, workloads) := memberLoop clock assigneeMap in
  let avgWorkload := avgWorkloadOf workloads in
  let balance := balanceScoreOf workloads in
  let overloadedMembers :=
    filter (fun w => WorkloadStatus_eqb (workloadStatus w) overloaded)
           distribution in
  let underutilizedMembers :=
    filter (fun w => WorkloadStatus_eqb (workloadStatus w) underutilized)
           distribution in
  let rec1 :=
    if (0 <? List.length overloadedMembers)%nat
       && (0 <? List.length underutilizedMembers)%nat
    then ["Redistribute work from " ++ teamMembers overloadedMembers
            ++ " to " ++ teamMembers underutilizedMembers]
    else [] in
  let bottlenecks1 :=
    if (0 <? List.length overloadedMembers)%nat
    then map (fun w =>
                teamMember w ++ " is overloaded with "
                  ++ natToString (assignedIssues (memberMetrics w))
                  ++ " issues")
             overloadedMembers
    else [] in
  let highWIP :=
    filter (fun w => (3 <? inProgressIssues (memberMetrics w))%nat)
           distribution in
  let rec2 :=
    if (0 <? List.length highWIP)%nat
    then push rec1
           (teamMembers highWIP
              ++ " should focus on completing current work before starting new items")
    else rec1 in
  let rec3 :=
    if Rlt_dec balance 50
    then push rec2
           "Team workload is uneven - consider more balanced task distribution"
    else rec2 in
  {| generatedAt := Date_nowISO clock;
     dashboardSprintName :=
       match sprint with
       | Some id => if truthy sprint
                    then Some ("Sprint " ++ intToString id) else None
       | None => None
       end;
     teamSize := List.length assigneeMap;
     totalIssues := List.length issues;
     averageWorkload := (IZR (roundR (avgWorkload * 10)) / 10)%R;
     workloadDistribution := distribution;
     balanceScore := roundR balance;
     dashboardRecommendations := rec3;
     bottlenecks := bottlenecks1 |}.

(** The query: assigned issues, of the project when one is named, of the
    sprint when one is given and otherwise the open ones. *)
Definition workloadQuery (projectKey : option string) (sprint : option Z)
  : string :=
  let jql0 := "assignee is not EMPTY" in
  let jql1 :=
    match projectKey with
    | Some pk =>
        if (0 <? String.length pk)%nat
        then jql0 ++ " AND project = " ++ dquote ++ pk ++ dquote
        else jql0
    | None => jql0
    end in
  match sprint with
  | Some id =>
      if truthy sprint
      then jql1 ++ " AND sprint = " ++ intToString id
      else jql1 ++ " AND status != Done AND status != Closed"
  | None => jql1 ++ " AND status != Done AND status != Closed"
  end.

Definition generateWorkloadDashboard (clock : Clock) (client : JiraClient)
           (projectKey : option string) (sprint : option Z)
  : result TeamWorkloadDashboard :=
  (issues <- searchIssues client (workloadQuery projectKey sprint) 200 ;;
   Ok (workloadDashboardOf clock sprint issues))%result.

(** ** Smart issue creator ([analyzeIssueText]) *)

(** Fields [key] and [summary] of a similar issue carry the prefix
    [similar] here. *)
Record SimilarIssue : Type := {
  similarKey : string;
  similarSummary : string;
  similarity : float
}.

Record SmartIssueAnalysis : Type := {
  suggestedType : string;
  suggestedPriority : string;
  suggestedLabels : list string;
  suggestedComponents : list string;
  estimatedStoryPoints : nat;
  similarIssues : list SimilarIssue;
  suggestions : list string
}.

Definition bugKeywords : list string :=
  ["bug"; "error"; "crash"; "fail"; "broken"; "not working"; "issue";
   "problem"; "fix"].
Definition featureKeywords : list string :=
  ["feature"; "add"; "new"; "implement"; "create"; "develop"; "build"].
Definition storyKeywords : list string :=
  ["as a user"; "as an admin"; "i want"; "so that"; "user story"].
Definition epicKeywords : list string :=
  ["epic"; "initiative"; "large"; "multiple sprints"].
Definition improvementKeywords : list string :=
  ["improve"; "enhance"; "optimize"; "refactor"; "performance"].

Definition urgentKeywords : list string :=
  ["urgent"; "critical"; "blocker"; "asap"; "emergency"; "production down"].
Definition highKeywords : list string :=
  ["high priority"; "important"; "severe"; "major"].
Definition lowKeywords : list string :=
  ["low priority"; "minor"; "nice to have"; "when possible"].

(** [Object.entries(labelPatterns)], in the order the keys are written. *)
Definition labelPatterns : list (string * list string) :=
  [("frontend", ["ui"; "frontend"; "css"; "react"; "vue"; "angular"; "html";
                 "button"; "page"; "component"]);
   ("backend", ["api"; "backend"; "server"; "database"; "endpoint";
                "service"]);
   ("infrastructure", ["deploy"; "ci"; "cd"; "pipeline"; "docker";
                       "kubernetes"; "aws"; "cloud"]);
   ("security", ["security"; "auth"; "permission"; "vulnerability"; "ssl";
                 "encryption"]);
   ("performance", ["performance"; "slow"; "optimize"; "speed"; "memory";
                    "cpu"]);
   ("documentation", ["doc"; "readme"; "guide"; "tutorial"]);
   ("testing", ["test"; "qa"; "automation"; "e2e"; "unit test"])].

Definition simpleIndicators : list string :=
  ["simple"; "easy"; "quick"; "small"; "typo"; "config change"].
Definition complexIndicators : list string :=
  ["complex"; "large"; "multiple"; "refactor"; "architecture"; "rewrite"].
Definition hugeIndicators : list string :=
  ["entire"; "complete overhaul"; "from scratch"; "migration"].

Definition suggestTypeOf (textLower : string) : string :=
  if someIncluded textLower epicKeywords then "Epic"
  else if someIncluded textLower storyKeywords then "Story"
  else if someIncluded textLower bugKeywords then "Bug"
  else if someIncluded textLower featureKeywords then "Story"
  else if someIncluded textLower improvementKeywords then "Improvement"
  else "Task".

Definition suggestPriorityOf (textLower : string) : string :=
  if someIncluded textLower urgentKeywords then "Critical"
  else if someIncluded textLower highKeywords then "High"
  else if someIncluded textLower lowKeywords then "Low"
  else "Medium".

Definition suggestLabelsOf (textLower : string) : list string :=
  fold_left
    (fun acc entry =>
       if someIncluded textLower (snd entry) then push acc (fst entry)
       else acc)
    labelPatterns [].

Definition estimateStoryPointsOf (textLower : string) : nat :=
  if someIncluded textLower hugeIndicators then 13
  else if someIncluded textLower complexIndicators then 8
  else if someIncluded textLower simpleIndicators then 1
  else 3.

(** The literal [0.7] as the double it denotes. *)
Definition float_0_7 : float := 0x1.6666666666666p-1%float.

(** [words.slice(0, 3).join(' OR ')] of the words longer than 4. *)
Definition searchTermsOf (text : string) : string :=
  let words :=
    filter (fun w => (4 <? String.length w)%nat) (splitWhiteSpace text) in
  join " OR " (firstn 3 words).

Definition similarQuery (projectKey searchTerms : string) : string :=
  "project = " ++ dquote ++ projectKey ++ dquote
    ++ " AND text ~ " ++ dquote ++ searchTerms ++ dquote
    ++ " ORDER BY updated DESC".

(** The body of the [try] block: the similar issues it leaves in the array
    when it completes. *)
Definition searchSimilarIssues (client : JiraClient) (text projectKey : string)
  : result (list SimilarIssue) :=
  let searchTerms := searchTermsOf text in
  if (0 <? String.length searchTerms)%nat
  then (searchResult <-
          searchIssues client (similarQuery projectKey searchTerms) 5 ;;
        Ok (map (fun issue =>
                   {| similarKey := key issue;
                      similarSummary := summary (fields issue);
                      similarity := float_0_7 |})
                searchResult))%result
  else Ok [].

Definition analyzeIssueText (client : JiraClient) (text projectKey : string)
  : result SmartIssueAnalysis :=
  let textLower := toLowerCase text in
  let type := suggestTypeOf textLower in
  let priority := suggestPriorityOf textLower in
  let labelList := suggestLabelsOf textLower in
  let points := estimateStoryPointsOf textLower in
  (similar <- tryCatch (searchSimilarIssues client text projectKey)
                       (fun _ => Ok []) ;;
   let sug1 :=
     if (String.length text <? 50)%nat
     then ["Consider adding more detail to the description"]
     else [] in
   let sug2 :=
     if (type =? "Bug") && negb (includes textLower "reproduce")
     then push sug1 "Add steps to reproduce the bug"
     else sug1 in
   let sug3 :=
     if (type =? "Story") && negb (includes textLower "acceptance")
     then push sug2 "Consider adding acceptance criteria"
     else sug2 in
   let sug4 :=
     if (0 <? List.length similar)%nat
     then push sug3 ("Found " ++ natToString (List.length similar)
               ++ " potentially related issue(s) - check for duplicates")
     else sug3 in
   Ok {| suggestedType := type;
         suggestedPriority := priority;
         suggestedLabels := labelList;
         suggestedComponents := [];
         estimatedStoryPoints := points;
         similarIssues := similar;
         suggestions := sug4 |})%result.

(** ** Release notes generator ([generateReleaseNotes]) *)

(** Fields [key], [summary] and [description] of an entry carry the prefix
    [item] here. *)
Record ReleaseItem : Type := {
  itemKey : string;
  itemSummary : string;
  itemDescription : option string
}.

Record Categories : Type := {
  features : list ReleaseItem;
  improvements : list ReleaseItem;
  bugFixes : list ReleaseItem;
  breakingChanges : list ReleaseItem;
  deprecated : list ReleaseItem
}.

(** The result, without the source-control statistics, the highlights and
    the two rendered documents, which are not modelled. *)
Record ReleaseNotes : Type := {
  version : string;
  releaseDate : string;
  releaseSummary : string;
  categories : Categories;
  contributors : list string;
  statsTotalIssues : nat
}.

Record ReleaseOptions : Type := {
  optProjectKey : string;
  optVersion : string;
  optStartDate : option string;
  optEndDate : option string;
  optJqlFilter : option string
}.

(** [a || b] on an optional string: [a] unless it is absent or empty. *)
Definition orElse (a : option string) (b : string) : string :=
  match a with
  | Some s => if (0 <? String.length s)%nat then s else b
  | None => b
  end.

(** [set.add(x)] on a [Set<string>] kept in insertion order. *)
Definition setAdd (s : list string) (x : string) : list string :=
  if arrayIncludes s x then s else push s x.

Definition releaseItemOf (issue : JiraIssue) : ReleaseItem :=
  {| itemKey := key issue;
     itemSummary := summary (fields issue);
     itemDescription :=
       match description (fields issue) with
       | Some d => Some (substring0 200 d)
       | None => None
       end |}.

Definition lowerLabels (issue : JiraIssue) : list string :=
  match labels (fields issue) with
  | Some ls => map toLowerCase ls
  | None => []
  end.

Definition pushFeature (c : Categories) (i : ReleaseItem) : Categories :=
  {| features := push (features c) i; improvements := improvements c;
     bugFixes := bugFixes c; breakingChanges := breakingChanges c;
     deprecated := deprecated c |}.
Definition pushImprovement (c : Categories) (i : ReleaseItem) : Categories :=
  {| features := features c; improvements := push (improvements c) i;
     bugFixes := bugFixes c; breakingChanges := breakingChanges c;
     deprecated := deprecated c |}.
Definition pushBugFix (c : Categories) (i : ReleaseItem) : Categories :=
  {| features := features c; improvements := improvements c;
     bugFixes := push (bugFixes c) i; breakingChanges := breakingChanges c;
     deprecated := deprecated c |}.
Definition pushBreakingChange (c : Categories) (i : ReleaseItem) : Categories :=
  {| features := features c; improvements := improvements c;
     bugFixes := bugFixes c; breakingChanges := push (breakingChanges c) i;
     deprecated := deprecated c |}.
Definition pushDeprecated (c : Categories) (i : ReleaseItem) : Categories :=
  {| features := features c; improvements := improvements c;
     bugFixes := bugFixes c; breakingChanges := breakingChanges c;
     deprecated := push (deprecated c) i |}.

(** The [if]-chain that files one entry. *)
Definition categorize (c : Categories) (issue : JiraIssue) : Categories :=
  let type := toLowerCase (issuetype_name (fields issue)) in
  let labelList := lowerLabels issue in
  let item := releaseItemOf issue in
  if arrayIncludes labelList "breaking-change"
     || arrayIncludes labelList "breaking"
  then pushBreakingChange c item
  else if arrayIncludes labelList "deprecated"
  then pushDeprecated c item
  else if (type =? "bug") || (type =? "defect")
  then pushBugFix c item
  else if (type =? "story") || (type =? "feature") || (type =? "new feature")
  then pushFeature c item
  else pushImprovement c item.

(** One iteration of [for (const issue of issues)]. *)
Definition releaseLoopBody (st : Categories * list string) (issue : JiraIssue)
  : Categories * list string :=
  let (c, contributorSet) := st in
  let set1 :=
    match assignee (fields issue) with
    | Some a => setAdd contributorSet (displayName a)
    | None => contributorSet
    end in
  let set2 :=
    match reporter (fields issue) with
    | Some r => setAdd set1 (displayName r)
    | None => set1
    end in
  (categorize c issue, set2).

Definition emptyCategories : Categories :=
  {| features := []; improvements := []; bugFixes := [];
     breakingChanges := []; deprecated := [] |}.

Definition releaseLoop (issues : list JiraIssue) : Categories * list string :=
  fold_left releaseLoopBody issues (emptyCategories, []).

Definition releaseQuery (clock : Clock) (options : ReleaseOptions) : string :=
  let endDate := orElse (optEndDate options) (Date_today clock) in
  let startDate :=
    orElse (optStartDate options) (Date_thirtyDaysAgo clock) in
  orElse (optJqlFilter options)
    ("project = " ++ dquote ++ optProjectKey options ++ dquote
       ++ " AND status IN (Done, Closed, Resolved) AND resolved >= "
       ++ dquote ++ startDate ++ dquote
       ++ " AND resolved <= " ++ dquote ++ endDate ++ dquote).

Definition releaseNotesOf (clock : Clock) (options : ReleaseOptions)
           (issues : list JiraIssue) : ReleaseNotes :=
  let (c, contributorSet) := releaseLoop issues in
  {| version := optVersion options;
     releaseDate := orElse (optEndDate options) (Date_today clock);
     releaseSummary :=
       "Release " ++ optVersion options ++ " includes "
         ++ natToString (List.length issues) ++ " changes: "
         ++ natToString (List.length (features c)) ++ " new features, "
         ++ natToString (List.length (improvements c)) ++ " improvements, "
         ++ "and " ++ natToString (List.length (bugFixes c)) ++ " bug fixes.";
     categories := c;
     contributors := contributorSet;
     statsTotalIssues := List.length issues |}.

Definition generateReleaseNotes (clock : Clock) (client : JiraClient)
           (options : ReleaseOptions) : result ReleaseNotes :=
  (issues <- searchIssues client (releaseQuery clock options) 200 ;;
   Ok (releaseNotesOf clock options issues))%result.

(** ** Time tracking ([formatTime], [getIssueWorklog], [getTeamWorklogs]) *)

(** An issue as the worklog functions see it: the fields of the data model
    and the three time-tracking fields read through a cast, each a whole
    number of seconds, absent or null when nothing is recorded. *)
Record TrackedIssue : Type := {
  trackedIssue : JiraIssue;
  timespent : option nat;
  timeoriginalestimate : option nat;
  timeestimate : option nat
}.

(** The two client methods of the worklog functions, at that type. *)
Record WorklogClient : Type := {
  getIssue : string -> result TrackedIssue;
  searchTrackedIssues : string -> nat -> result (list TrackedIssue)
}.

(** [x || 0] on an optional count. *)
Definition orZero (x : option nat) : nat :=
  match x with
  | Some n => n
  | None => 0
  end.

Definition formatTime (seconds : nat) : string :=
  if (seconds =? 0)%nat then "0m"
  else
    let hours := (seconds / 3600)%nat in
    let minutes := ((seconds mod 3600) / 60)%nat in
    if (0 <? hours)%nat && (0 <? minutes)%nat
    then natToString hours ++ "h " ++ natToString minutes ++ "m"
    else if (0 <? hours)%nat
    then natToString hours ++ "h"
    else natToString minutes ++ "m".

Record WorklogEntry : Type := {
  worklogAuthor : string;
  worklogTimeSpent : string;
  worklogTimeSpentSeconds : nat;
  worklogStarted : string;
  worklogComment : option string
}.

Record WorklogSummary : Type := {
  issueKey : string;
  issueSummary : string;
  totalTimeSpent : nat;
  totalTimeSpentFormatted : string;
  worklogs : list WorklogEntry;
  timeEstimate : nat;
  remainingEstimate : nat;
  progress : Z
}.

(** [timeEstimate > 0 ? Math.min(100, Math.round((timeSpent / timeEstimate)
    * 100)) : 0]. *)
Definition progressOf (spent estimate : nat) : Z :=
  if (0 <? estimate)%nat
  then Z.min 100
         (Math_round
            (PrimFloat.mul
               (PrimFloat.div (floatOfNat spent) (floatOfNat estimate))
               (floatOfNat 100)))
  else 0%Z.

Definition getIssueWorklog (client : WorklogClient) (key : string)
  : result WorklogSummary :=
  (issue <- getIssue client key ;;
   let spent := orZero (timespent issue) in
   let estimate := orZero (timeoriginalestimate issue) in
   let remaining := orZero (timeestimate issue) in
   Ok {| issueKey := key;
         issueSummary := summary (fields (trackedIssue issue));
         totalTimeSpent := spent;
         totalTimeSpentFormatted := formatTime spent;
         worklogs := [];
         timeEstimate := estimate;
         remainingEstimate := remaining;
         progress := progressOf spent estimate |})%result.

Record IssueTime : Type := {
  issueTimeKey : string;
  issueTimeSummary : string;
  issueTimeSpent : nat;
  issueTimeSpentFormatted : string
}.

Record UserTime : Type := {
  user : string;
  userTimeSpent : nat;
  userTimeSpentFormatted : string
}.

Record TeamWorklogs : Type := {
  totalTimeLogged : nat;
  totalTimeLoggedFormatted : string;
  worklogIssueBreakdown : list IssueTime;
  userBreakdown : list UserTime
}.

Record TeamWorklogOptions : Type := {
  worklogProjectKey : option string;
  worklogSprintId : option Z;
  worklogStartDate : option string;
  worklogEndDate : option string
}.

(** Truthiness of an optional string: present and not empty. *)
Definition truthyString (s : option string) : bool :=
  match s with
  | Some v => (0 <? String.length v)%nat
  | None => false
  end.

Definition teamWorklogQuery (options : TeamWorklogOptions) : string :=
  let jql0 := "timespent > 0" in
  let jql1 :=
    match worklogProjectKey options with
    | Some pk =>
        if truthyString (Some pk)
        then jql0 ++ " AND project = " ++ dquote ++ pk ++ dquote
        else jql0
    | None => jql0
    end in
  let jql2 :=
    match worklogSprintId options with
    | Some id =>
        if truthy (Some id)
        then jql1 ++ " AND sprint = " ++ intToString id
        else jql1
    | None => jql1
    end in
  let jql3 :=
    match worklogStartDate options with
    | Some d =>
        if truthyString (Some d)
        then jql2 ++ " AND worklogDate >= " ++ dquote ++ d ++ dquote
        else jql2
    | None => jql2
    end in
  match worklogEndDate options with
  | Some d =>
      if truthyString (Some d)
      then jql3 ++ " AND worklogDate <= " ++ dquote ++ d ++ dquote
      else jql3
  | None => jql3
  end.

(** [Map<string, number>]: entries in insertion order. *)
Definition TimeMap : Type := list (string * nat).

Fixpoint timeMapGet (m : TimeMap) (k : string) : option nat :=
  match m with
  | [] => None
  | (k', v) :: r => if k' =? k then Some v else timeMapGet r k
  end.

Fixpoint timeMapSet (m : TimeMap) (k : string) (v : nat) : TimeMap :=
  match m with
  | [] => [(k, v)]
  | (k', v') :: r =>
      if k' =? k then (k', v) :: r else (k', v') :: timeMapSet r k v
  end.

(** [issue.fields.assignee?.displayName || 'Unassigned']. *)
Definition assigneeOrUnassigned (issue : JiraIssue) : string :=
  match assignee (fields issue) with
  | Some a =>
      if (0 <? String.length (displayName a))%nat then displayName a
      else "Unassigned"
  | None => "Unassigned"
  end.

(** The mutable locals of the loop over the issues with logged time. *)
Record WorklogLoop : Type := {
  loopIssueBreakdown : list IssueTime;
  loopUserTimeMap : TimeMap;
  loopTotalTimeLogged : nat
}.

(** One iteration of [for (const issue of issues)]. *)
Definition worklogLoopBody (st : WorklogLoop) (issue : TrackedIssue)
  : WorklogLoop :=
  let spent := orZero (timespent issue) in
  let who := assigneeOrUnassigned (trackedIssue issue) in
  {| loopIssueBreakdown :=
       push (loopIssueBreakdown st)
            {| issueTimeKey := key (trackedIssue issue);
               issueTimeSummary := summary (fields (trackedIssue issue));
               issueTimeSpent := spent;
               issueTimeSpentFormatted := formatTime spent |};
     loopUserTimeMap :=
       timeMapSet (loopUserTimeMap st) who
                  (orZero (timeMapGet (loopUserTimeMap st) who) + spent);
     loopTotalTimeLogged := loopTotalTimeLogged st + spent |}.

Definition worklogLoop (issues : list TrackedIssue) : WorklogLoop :=
  fold_left worklogLoopBody issues
    {| loopIssueBreakdown := []; loopUserTimeMap := [];
       loopTotalTimeLogged := 0 |}.

(** [arr.sort((a, b) => time(b) - time(a))]: the stable sort by decreasing
    time (the sort of an array is stable since ECMAScript 2019).  An element
    goes in front of the first one whose time is not greater than its
    own. *)
Fixpoint insertByTimeDesc {A : Type} (time : A -> nat) (x : A) (l : list A)
  : list A :=
  match l with
  | [] => [x]
  | y :: r =>
      if (time x <? time y)%nat then y :: insertByTimeDesc time x r
      else x :: y :: r
  end.

Definition sortByTimeDesc {A : Type} (time : A -> nat) (l : list A) : list A :=
  fold_right (insertByTimeDesc time) [] l.

Definition userTimeOf (entry : string * nat) : UserTime :=
  {| user := fst entry;
     userTimeSpent := snd entry;
     userTimeSpentFormatted := formatTime (snd entry) |}.

Definition teamWorklogsOf (issues : list TrackedIssue) : TeamWorklogs :=
  let st := worklogLoop issues in
  {| totalTimeLogged := loopTotalTimeLogged st;
     totalTimeLoggedFormatted := formatTime (loopTotalTimeLogged st);
     worklogIssueBreakdown :=
       sortByTimeDesc issueTimeSpent (loopIssueBreakdown st);
     userBreakdown :=
       sortByTimeDesc userTimeSpent (map userTimeOf (loopUserTimeMap st)) |}.

Definition getTeamWorklogs (client : WorklogClient)
           (options : TeamWorklogOptions) : result TeamWorklogs :=
  (issues <- searchTrackedIssues client (teamWorklogQuery options) 100 ;;
   Ok (teamWorklogsOf issues))%result.

(** ** Smart issue creation ([createSmartIssue]) *)

(** Fields of [CreateIssuePayload], with the prefix [payload]. *)
Record CreateIssuePayload : Type := {
  payloadProjectKey : string;
  payloadSummary : string;
  payloadDescription : option string;
  payloadIssueType : string;
  payloadPriority : option string;
  payloadAssigneeId : option string;
  payloadLabels : option (list string)
}.

(** [JiraClient.createIssue], answering with the key of the new issue. *)
Record IssueWriter : Type := {
  createIssue : CreateIssuePayload -> result string
}.

Record SmartIssueOverrides : Type := {
  overrideType : option string;
  overridePriority : option string;
  overrideLabels : option (list string);
  overrideAssignee : option string
}.

Definition isSentenceEnd (c : ascii) : bool :=
  let n := N_of_ascii c in ((n =? 46) || (n =? 33) || (n =? 63))%N.

(** [text.split(/[.!?]/)[0]]: the text up to its first full stop,
    exclamation mark or question mark. *)
Fixpoint firstSentenceOf (text : string) : string :=
  match text with
  | EmptyString => EmptyString
  | String c r =>
      if isSentenceEnd c then EmptyString else String c (firstSentenceOf r)
  end.

Definition smartSummaryOf (text : string) : string :=
  let firstSentence := firstSentenceOf text in
  if (100 <? String.length firstSentence)%nat
  then substring 0 97 firstSentence ++ "..."
  else firstSentence.

Definition smartIssuePayload (text projectKey : string)
           (overrides : SmartIssueOverrides) (analysis : SmartIssueAnalysis)
  : CreateIssuePayload :=
  {| payloadProjectKey := projectKey;
     payloadSummary := smartSummaryOf text;
     payloadDescription := Some text;
     payloadIssueType :=
       orElse (overrideType overrides) (suggestedType analysis);
     payloadPriority :=
       Some (orElse (overridePriority overrides)
                    (suggestedPriority analysis));
     payloadAssigneeId := overrideAssignee overrides;
     payloadLabels :=
       Some match overrideLabels overrides with
            | Some ls => ls
            | None => suggestedLabels analysis
            end |}.

Definition createSmartIssue (client : JiraClient) (writer : IssueWriter)
           (text projectKey : string) (overrides : SmartIssueOverrides)
  : result (string * SmartIssueAnalysis) :=
  (analysis <- analyzeIssueText client text projectKey ;;
   newKey <- createIssue writer
               (smartIssuePayload text projectKey overrides analysis) ;;
   Ok (newKey, analysis))%result.

(** ** Cross-platform sync ([createIssuesFromGitHub]) *)

Record GitHubPullRequest : Type := {
  pr_number : nat;
  pr_title : string;
  pr_body : option string;
  pr_html_url : string
}.

Record GitHubCommit : Type := {
  commit_sha : string;
  commit_message : string;            (* commit.message *)
  commit_html_url : string
}.

(** The two methods of [GitHubClient] the sync calls. *)
Record GitHubClient : Type := {
  getPullRequests : string -> string -> string -> result (list GitHubPullRequest);
  getCommits :
    string -> string -> option string -> option string -> nat ->
    result (list GitHubCommit)
}.

Record GitHubSyncOptions : Type := {
  fromPRs : bool;
  fromCommits : bool;
  syncBranch : option string;
  syncSince : option string;
  labelFilter : option string
}.

Record CreatedIssue : Type := {
  createdSource : string;
  jiraKey : string;
  createdTitle : string
}.

Definition isUpperLetter (c : ascii) : bool :=
  let n := N_of_ascii c in ((65 <=? n) && (n <=? 90))%N.

Definition isDigit (c : ascii) : bool :=
  let n := N_of_ascii c in ((48 <=? n) && (n <=? 57))%N.

Definition isHyphen (c : ascii) : bool := (N_of_ascii c =? 45)%N.

(** [s.match(/[A-Z]+-\d+/)] as a truth value: the pattern matches exactly
    when some capital letter is directly followed by a hyphen and a digit. *)
Fixpoint hasJiraKey (s : string) : bool :=
  match s with
  | EmptyString => false
  | String a r =>
      (isUpperLetter a
       && match r with
          | String b (String c _) => isHyphen b && isDigit c
          | _ => false
          end)
      || hasJiraKey r
  end.

Definition newline : string := String (ascii_of_nat 10) EmptyString.

(** [s.split('\n')[0]]: the first line. *)
Fixpoint firstLineOf (s : string) : string :=
  match s with
  | EmptyString => EmptyString
  | String c r =>
      if (N_of_ascii c =? 10)%N then EmptyString
      else String c (firstLineOf r)
  end.

(** [a || b] on an optional string. *)
Definition bodyOr (body : option string) (fallback : string) : string :=
  orElse body fallback.

Definition pullRequestPayload (projectKey : string) (pr : GitHubPullRequest)
           (analysis : SmartIssueAnalysis) : CreateIssuePayload :=
  {| payloadProjectKey := projectKey;
     payloadSummary := "[GitHub PR] " ++ pr_title pr;
     payloadDescription :=
       Some ("GitHub Pull Request: " ++ pr_html_url pr ++ newline ++ newline
               ++ bodyOr (pr_body pr) "");
     payloadIssueType := suggestedType analysis;
     payloadPriority := None;
     payloadAssigneeId := None;
     payloadLabels := Some ("github-pr" :: suggestedLabels analysis) |}.

(** The loop over the open pull requests; a failing call ends it. *)
Fixpoint createFromPullRequests (client : JiraClient) (writer : IssueWriter)
         (projectKey : string) (prs : list GitHubPullRequest)
         (created : list CreatedIssue) : result (list CreatedIssue) :=
  match prs with
  | [] => Ok created
  | pr :: rest =>
      if hasJiraKey (pr_title pr)
      then createFromPullRequests client writer projectKey rest created
      else
        (analysis <- analyzeIssueText client
                       (bodyOr (pr_body pr) (pr_title pr)) projectKey ;;
         newKey <- createIssue writer
                     (pullRequestPayload projectKey pr analysis) ;;
         createFromPullRequests client writer projectKey rest
           (push created
                 {| createdSource := "PR #" ++ natToString (pr_number pr);
                    jiraKey := newKey;
                    createdTitle := pr_title pr |}))%result
  end.

Definition commitSummaryOf (commit : GitHubCommit) : string :=
  substring 0 100 (firstLineOf (commit_message commit)).

Definition commitPayload (projectKey : string) (commit : GitHubCommit)
  : CreateIssuePayload :=
  {| payloadProjectKey := projectKey;
     payloadSummary := "[GitHub Commit] " ++ commitSummaryOf commit;
     payloadDescription :=
       Some ("GitHub Commit: " ++ commit_html_url commit ++ newline ++ newline
               ++ "Full message:" ++ newline ++ commit_message commit);
     payloadIssueType := "Task";
     payloadPriority := None;
     payloadAssigneeId := None;
     payloadLabels := Some ["github-commit"] |}.

(** A commit the loop passes over: already linked, or a merge. *)
Definition skipsCommit (commit : GitHubCommit) : bool :=
  hasJiraKey (commit_message commit) || prefix "Merge" (commit_message commit).

(** The loop over the commits; a failing call ends it. *)
Fixpoint createFromCommits (writer : IssueWriter) (projectKey : string)
         (commits : list GitHubCommit) (created : list CreatedIssue)
  : result (list CreatedIssue) :=
  match commits with
  | [] => Ok created
  | commit :: rest =>
      if hasJiraKey (commit_message commit)
      then createFromCommits writer projectKey rest created
      else if prefix "Merge" (commit_message commit)
      then createFromCommits writer projectKey rest created
      else
        (newKey <- createIssue writer (commitPayload projectKey commit) ;;
         createFromCommits writer projectKey rest
           (push created
                 {| createdSource := substring 0 7 (commit_sha commit);
                    jiraKey := newKey;
                    createdTitle := commitSummaryOf commit |}))%result
  end.

Definition createIssuesFromGitHub (client : JiraClient) (writer : IssueWriter)
           (githubClient : option GitHubClient)
           (owner repo projectKey : string) (options : GitHubSyncOptions)
  : result (list CreatedIssue) :=
  match githubClient with
  | None => Err "GitHub client not configured"
  | Some github =>
      (created1 <-
         (if fromPRs options
          then (prs <- getPullRequests github owner repo "open" ;;
                createFromPullRequests client writer projectKey prs [])
          else Ok []) ;;
       if fromCommits options
       then (commits <- getCommits github owner repo (syncBranch options)
                                   (syncSince options) 50 ;;
             createFromCommits writer projectKey commits created1)
       else Ok created1)%result
  end.

(** ** Publishing release notes ([publishReleaseNotesToConfluence]) *)

(** [s.replace(/\./g, '-')]. *)
Fixpoint replaceDots (s : string) : string :=
  match s with
  | EmptyString => EmptyString
  | String c r =>
      String (if (N_of_ascii c =? 46)%N then ascii_of_nat 45 else c)
             (replaceDots r)
  end.

Definition releasePageTitle (notes : ReleaseNotes) : string :=
  "Release Notes - v" ++ version notes ++ " (" ++ releaseDate notes ++ ")".

Definition releasePageLabels (notes : ReleaseNotes) : list string :=
  ["release-notes"; "version-" ++ replaceDots (version notes)].

(** ** Specification-side vocabulary

    The definitions below follow the words of the specification; the
    theorems compare them with the code above. *)

(** The four buckets of the classification rule. *)
Inductive Bucket : Type := BDone | BInProgress | BBlocked | BTodo.

Definition Bucket_eqb (a b : Bucket) : bool :=
  match a, b with
  | BDone, BDone | BInProgress, BInProgress
  | BBlocked, BBlocked | BTodo, BTodo => true
  | _, _ => false
  end.

(** The lower-cased status name of an issue. *)
Definition statusOf (issue : JiraIssue) : string :=
  toLowerCase (status_name (fields issue)).

(** done/closed/resolved -> done; in progress/in review/code review ->
    inProgress; blocked/impediment -> blocked; otherwise todo. *)
Definition bucketOf (status : string) : Bucket :=
  if arrayIncludes ["done"; "closed"; "resolved"] status then BDone
  else if arrayIncludes ["in progress"; "in review"; "code review"] status
  then BInProgress
  else if arrayIncludes ["blocked"; "impediment"] status then BBlocked
  else BTodo.

Definition countBucket (b : Bucket) (issues : list JiraIssue) : nat :=
  List.length
    (filter (fun i => Bucket_eqb (bucketOf (statusOf i)) b) issues).

(** The risks one issue contributes, in the order they are appended. *)
Definition issueRisks (issue : JiraIssue) : list string :=
  app
    (if negb (isSome (assignee (fields issue)))
        && negb (statusOf issue =? "done")
     then ["Unassigned issue: " ++ key issue] else [])
    (if negb (isSome (priority_name (fields issue)))
        && negb (statusOf issue =? "done")
     then ["No priority set: " ++ key issue] else []).

(** The status test of the dashboard's in-progress counter. *)
Definition inProgressLike (status : string) : bool :=
  includes status "progress" || includes status "review".

(** The five release-note categories. *)
Inductive Category : Type :=
  CBreakingChange | CDeprecated | CBugFix | CFeature | CImprovement.

Definition Category_eqb (a b : Category) : bool :=
  match a, b with
  | CBreakingChange, CBreakingChange | CDeprecated, CDeprecated
  | CBugFix, CBugFix | CFeature, CFeature
  | CImprovement, CImprovement => true
  | _, _ => false
  end.

(** First match wins: a label "breaking-change" or "breaking"; a label
    "deprecated"; type bug/defect; type story/feature/new feature;
    otherwise improvement.  Labels and type are compared in lower case, a
    label as a whole. *)
Definition categoryOf (issue : JiraIssue) : Category :=
  let type := toLowerCase (issuetype_name (fields issue)) in
  if existsb (fun l => (l =? "breaking-change") || (l =? "breaking"))
             (lowerLabels issue)
  then CBreakingChange
  else if existsb (fun l => l =? "deprecated") (lowerLabels issue)
  then CDeprecated
  else if arrayIncludes ["bug"; "defect"] type then CBugFix
  else if arrayIncludes ["story"; "feature"; "new feature"] type then CFeature
  else CImprovement.

(** [Number.isSafeInteger]: an integer of absolute value below 2^53. *)
Definition safeInteger (z : Z) : Prop := (- 2 ^ 53 < z < 2 ^ 53)%Z.

(** The categorization in the words of the specification, where the first
    test reads "a label containing breaking-change or breaking". *)
Definition categoryByContainment (issue : JiraIssue) : Category :=
  let type := toLowerCase (issuetype_name (fields issue)) in
  if existsb (fun l => includes l "breaking-change" || includes l "breaking")
             (lowerLabels issue)
  then CBreakingChange
  else if existsb (fun l => l =? "deprecated") (lowerLabels issue)
  then CDeprecated
  else if arrayIncludes ["bug"; "defect"] type then CBugFix
  else if arrayIncludes ["story"; "feature"; "new feature"] type then CFeature
  else CImprovement.

Definition itemsOf (c : Category) (issues : list JiraIssue)
  : list ReleaseItem :=
  map releaseItemOf (filter (fun i => Category_eqb (categoryOf i) c) issues).

Definition hasAssignee (issue : JiraIssue) : bool :=
  isSome (assignee (fields issue)).

(** [issue] is assigned to the member called [name]. *)
Definition assignedTo (name : string) (issue : JiraIssue) : bool :=
  match assignee (fields issue) with
  | Some a => displayName a =? name
  | None => false
  end.

(** The state of the grouping loop after the issues [seen]: the keys are
    distinct, every group holds the issues seen so far that are assigned to
    its key, in order, and no issue seen so far is assigned to an absent
    key. *)
Definition groupsOf (seen : list JiraIssue) (m : AssigneeMap) : Prop :=
  NoDup (map fst m)
  /\ Forall (fun entry => snd entry = filter (assignedTo (fst entry)) seen) m
  /\ (forall name, mapHas m name = false ->
                   filter (assignedTo name) seen = []).

(** Population mean, variance and standard deviation of a list of counts. *)
Fixpoint sumR (xs : list R) : R :=
  match xs with
  | [] => 0%R
  | x :: r => (x + sumR r)%R
  end.

Definition mean (ws : list nat) : R :=
  (sumR (map INR ws) / INR (List.length ws))%R.

Definition populationVariance (ws : list nat) : R :=
  (sumR (map (fun w => (INR w - mean ws) ^ 2) ws) / INR (List.length ws))%R.

Definition populationStdDev (ws : list nat) : R :=
  sqrt (populationVariance ws).

(** [clamp x lo hi]. *)
Definition clamp (x lo hi : R) : R := Rmax lo (Rmin hi x).

(** The assigned-issue counts of a dashboard, member by member. *)
Definition workloadsOf (d : TeamWorkloadDashboard) : list nat :=
  map (fun w => assignedIssues (memberMetrics w)) (workloadDistribution d).

(** The text for a duration of [hours] hours and [minutes] minutes. *)
Definition timeText (hours minutes : nat) : string :=
  if (0 <? hours)%nat && (0 <? minutes)%nat
  then natToString hours ++ "h " ++ natToString minutes ++ "m"
  else if (0 <? hours)%nat then natToString hours ++ "h"
  else natToString minutes ++ "m".

(** The entry of one issue in the issue breakdown of the team worklogs. *)
Definition issueTimeOf (issue : TrackedIssue) : IssueTime :=
  {| issueTimeKey := key (trackedIssue issue);
     issueTimeSummary := summary (fields (trackedIssue issue));
     issueTimeSpent := orZero (timespent issue);
     issueTimeSpentFormatted := formatTime (orZero (timespent issue)) |}.

(** The time of [issue] is booked under [name]. *)
Definition bookedUnder (name : string) (issue : TrackedIssue) : bool :=
  assigneeOrUnassigned (trackedIssue issue) =? name.

(** The seconds logged on the issues booked under [name]. *)
Definition timeBookedUnder (name : string) (issues : list TrackedIssue) : nat :=
  list_sum (map (fun i => orZero (timespent i))
                (filter (bookedUnder name) issues)).

(** [a] may stand before [b] in an array sorted by decreasing time. *)
Definition notLessTime {A : Type} (time : A -> nat) (a b : A) : Prop :=
  time b <= time a.

(** The state of the per-user map after the issues [seen]: the users are
    distinct, every user's total is the time logged on the issues seen so
    far that are booked under that user, of which there is at least one,
    and no issue seen so far is booked under an absent user. *)
Definition userTimesOf (seen : list TrackedIssue) (m : TimeMap) : Prop :=
  NoDup (map fst m)
  /\ Forall (fun entry =>
               snd entry = timeBookedUnder (fst entry) seen
               /\ exists issue,
                    In issue seen /\ bookedUnder (fst entry) issue = true)
            m
  /\ (forall name, timeMapGet m name = None ->
                   filter (bookedUnder name) seen = []).

(** A double that is not a negative finite number. *)
Definition notNegative (f : spec_float) : Prop :=
  forall s m e, f = S754_finite s m e -> s = false.

(** The code units of [w] include no white space. *)
Definition noWhiteSpace (w : string) : Prop :=
  forallb (fun c => negb (isWhiteSpace c)) (list_ascii_of_string w) = true.

(** The four fields the analysis infers from the text alone. *)
Definition inferredFields (r : SmartIssueAnalysis)
  : string * string * list string * nat :=
  (suggestedType r, suggestedPriority r, suggestedLabels r,
   estimatedStoryPoints r).

(** [name] is the display name of the assignee or of the reporter of
    [issue]. *)
Definition contributesTo (name : string) (issue : JiraIssue) : Prop :=
  (exists a, assignee (fields issue) = Some a /\ displayName a = name)
  \/ (exists r, reporter (fields issue) = Some r /\ displayName r = name).

(** All the entries of the release notes, category after category. *)
Definition allEntries (c : Categories) : list ReleaseItem :=
  (breakingChanges c ++ deprecated c ++ bugFixes c ++ features c
     ++ improvements c)%list.


(** The bottleneck line of a member. *)
Definition bottleneckLine (w : WorkloadMetrics) : string :=
  teamMember w ++ " is overloaded with "
    ++ natToString (assignedIssues (memberMetrics w)) ++ " issues".

(** The member has more than 8 assigned issues. *)
Definition moreThanEight (w : WorkloadMetrics) : bool :=
  (8 <? assignedIssues (memberMetrics w))%nat.

(** The issue the sync files for a pull request: the type and the labels
    are the ones inferred from the body, or from the title when the body is
    absent or empty. *)
Definition pullRequestIssue (projectKey : string) (pr : GitHubPullRequest)
  : CreateIssuePayload :=
  let text := toLowerCase (bodyOr (pr_body pr) (pr_title pr)) in
  {| payloadProjectKey := projectKey;
     payloadSummary := "[GitHub PR] " ++ pr_title pr;
     payloadDescription :=
       Some ("GitHub Pull Request: " ++ pr_html_url pr ++ newline ++ newline
               ++ bodyOr (pr_body pr) "");
     payloadIssueType := suggestTypeOf text;
     payloadPriority := None;
     payloadAssigneeId := None;
     payloadLabels := Some ("github-pr" :: suggestLabelsOf text) |}.

(** The key Jira answers with for [payload]; empty when it refuses. *)
Definition keyFor (writer : IssueWriter) (payload : CreateIssuePayload)
  : string :=
  match createIssue writer payload with
  | Ok newKey => newKey
  | Err _ => ""
  end.

(** Jira refuses [payload]. *)
Definition refuses (writer : IssueWriter) (payload : CreateIssuePayload)
  : Prop :=
  exists e, createIssue writer payload = Err e.

(** The entries reported for a pull request and for a commit. *)
Definition pullRequestEntry (writer : IssueWriter) (projectKey : string)
           (pr : GitHubPullRequest) : CreatedIssue :=
  {| createdSource := "PR #" ++ natToString (pr_number pr);
     jiraKey := keyFor writer (pullRequestIssue projectKey pr);
     createdTitle := pr_title pr |}.

Definition commitEntry (writer : IssueWriter) (projectKey : string)
           (commit : GitHubCommit) : CreatedIssue :=
  {| createdSource := substring 0 7 (commit_sha commit);
     jiraKey := keyFor writer (commitPayload projectKey commit);
     createdTitle := commitSummaryOf commit |}.

(** A pull request whose title names no Jira key, and a commit that is
    neither linked nor a merge. *)
Definition unlinked (pr : GitHubPullRequest) : bool :=
  negb (hasJiraKey (pr_title pr)).

Definition synced (commit : GitHubCommit) : bool :=
  negb (skipsCommit commit).

(** [s] holds the pattern of a Jira key: capital letters, a hyphen and
    digits, one or more of each. *)
Definition holdsJiraKey (s : string) : Prop :=
  exists before letters digits rest,
    s = before ++ letters ++ "-" ++ digits ++ rest
    /\ letters <> "" /\ digits <> ""
    /\ Forall (fun c => isUpperLetter c = true) (list_ascii_of_string letters)
    /\ Forall (fun c => isDigit c = true) (list_ascii_of_string digits).

(** [s] holds no line break and no full stop, respectively. *)
Definition singleLine (s : string) : Prop :=
  Forall (fun c => N_of_ascii c <> 10%N) (list_ascii_of_string s).

Definition noFullStop (s : string) : Prop :=
  Forall (fun c => N_of_ascii c <> 46%N) (list_ascii_of_string s).

(** ** Sample data *)

Definition sampleClock : Clock :=
  {| Date_now := 1767139200000;
     Date_nowISO := "2025-12-31T00:00:00.000Z";
     Date_getTime := fun _ => Some 1764547200000%Z;
     Date_today := "2025-12-31";
     Date_thirtyDaysAgo := "2025-12-01" |}.

Definition sampleIssue (k status : string) (owner : option string)
           (prio : option string) (type : string)
           (labelList : option (list string)) : JiraIssue :=
  {| key := k;
     fields :=
       {| summary := "Summary of " ++ k;
          description := None;
          status_name := status;
          priority_name := prio;
          assignee :=
            match owner with
            | Some n => Some {| displayName := n; emailAddress := "" |}
            | None => None
            end;
          reporter := None;
          issuetype_name := type;
          updated := "2025-12-01T00:00:00.000Z";
          labels := labelList |} |}.

(** A client whose three methods answer with fixed results. *)
Definition fixedClient (sprintIssues : result (list JiraIssue))
           (sprints : result (list Sprint))
           (found : result (list JiraIssue)) : JiraClient :=
  {| getSprintIssues := fun _ => sprintIssues;
     getSprints := fun _ => sprints;
     searchIssues := fun _ _ => found |}.

Definition sampleSprint : list JiraIssue :=
  [sampleIssue "NX-1" "Done" (Some "Asha") (Some "High") "Story" None;
   sampleIssue "NX-2" "In Progress" (Some "Asha") (Some "Low") "Bug" None;
   sampleIssue "NX-3" "Blocked" (Some "Ben") None "Task" None;
   sampleIssue "NX-4" "To Do" None (Some "High") "Task" None].

(** Ten issues: six done, two in progress, one blocked, one to do. *)
Definition tenIssueSprint : list JiraIssue :=
  [sampleIssue "NX-51" "Done" (Some "Asha") (Some "High") "Story" None;
   sampleIssue "NX-52" "Done" (Some "Asha") (Some "High") "Story" None;
   sampleIssue "NX-53" "Closed" (Some "Asha") (Some "High") "Story" None;
   sampleIssue "NX-54" "Resolved" (Some "Ben") (Some "High") "Bug" None;
   sampleIssue "NX-55" "DONE" (Some "Ben") (Some "High") "Bug" None;
   sampleIssue "NX-56" "done" (Some "Ben") (Some "High") "Bug" None;
   sampleIssue "NX-57" "In Progress" (Some "Asha") (Some "Low") "Task" None;
   sampleIssue "NX-58" "Code Review" (Some "Ben") (Some "Low") "Task" None;
   sampleIssue "NX-59" "Blocked" (Some "Ben") (Some "Low") "Task" None;
   sampleIssue "NX-60" "To Do" (Some "Asha") (Some "Low") "Task" None].

(** The assigned counts of the seven members of the team report kept in
    the repository. *)
Definition reportedWorkloads : list nat := [14; 4; 3; 3; 3; 2; 1].

(** A closed issue with neither assignee nor priority. *)
Definition closedOrphan : JiraIssue :=
  sampleIssue "NX-9" "Closed" None None "Task" None.

Definition offline {A : Type} : result A := Err "offline".

(** Two members with one issue each and one issue without an assignee. *)
Definition teamOfTwo : list JiraIssue :=
  [sampleIssue "NX-11" "Peer Review" (Some "Asha") (Some "High") "Task" None;
   sampleIssue "NX-12" "Open" (Some "Ben") (Some "High") "Task" None;
   sampleIssue "NX-13" "Open" None (Some "High") "Task" None].

(** Resolved issues, one for each release-note category. *)
Definition releaseSample : list JiraIssue :=
  [sampleIssue "NX-31" "Done" (Some "Asha") None "Bug" (Some ["Breaking"]);
   sampleIssue "NX-32" "Done" (Some "Ben") None "Story" (Some ["deprecated"]);
   sampleIssue "NX-33" "Done" None None "Defect" None;
   sampleIssue "NX-34" "Done" None None "New Feature" (Some ["non-breaking"]);
   sampleIssue "NX-35" "Done" None None "Task" (Some [])].

(** A new feature labelled as not breaking. *)
Definition nonBreakingIssue : JiraIssue :=
  sampleIssue "NX-34" "Done" None None "New Feature" (Some ["non-breaking"]).

Definition releaseOptions : ReleaseOptions :=
  {| optProjectKey := "NX"; optVersion := "2.0.0";
     optStartDate := None; optEndDate := None; optJqlFilter := None |}.

(** A report of an outage. *)
Definition outageText : string :=
  "URGENT: production database connection pooling is broken, causing crashes".

(** One member with three issues and one with a single issue. *)
Definition unevenTeam : list JiraIssue :=
  [sampleIssue "NX-41" "Open" (Some "Asha") (Some "High") "Task" None;
   sampleIssue "NX-42" "Open" (Some "Ben") (Some "High") "Task" None;
   sampleIssue "NX-43" "Open" (Some "Asha") (Some "High") "Task" None;
   sampleIssue "NX-44" "Open" (Some "Asha") (Some "High") "Task" None].

(** One issue in peer review and one that is progressing. *)
Definition peerReviewIssue : JiraIssue :=
  sampleIssue "NX-21" "Peer Review" (Some "Asha") (Some "High") "Task" None.
Definition progressingIssue : JiraIssue :=
  sampleIssue "NX-22" "Progressing" (Some "Asha") (Some "High") "Task" None.

(** An open issue nobody is assigned to. *)
Definition openOrphan : JiraIssue :=
  sampleIssue "NX-8" "Open" None (Some "High") "Task" None.

(** An issue with logged time. *)
Definition trackedSampleIssue (k : string) (owner : option string)
           (spent : option nat) : TrackedIssue :=
  {| trackedIssue := sampleIssue k "In Progress" owner (Some "High") "Task" None;
     timespent := spent;
     timeoriginalestimate := Some 3600;
     timeestimate := None |}.

(** Four issues with logged time: two of Asha's, one of Ben's and one
    nobody is assigned to. *)
Definition trackedSample : list TrackedIssue :=
  [trackedSampleIssue "NX-61" (Some "Asha") (Some 1800);
   trackedSampleIssue "NX-62" (Some "Ben") (Some 3600);
   trackedSampleIssue "NX-63" None (Some 1800);
   trackedSampleIssue "NX-64" (Some "Asha") (Some 2700)].

(** A worklog client whose two methods answer with fixed results. *)
Definition fixedWorklogClient (one : result TrackedIssue)
           (found : result (list TrackedIssue)) : WorklogClient :=
  {| getIssue := fun _ => one;
     searchTrackedIssues := fun _ _ => found |}.

Definition noWorklogOptions : TeamWorklogOptions :=
  {| worklogProjectKey := None; worklogSprintId := None;
     worklogStartDate := None; worklogEndDate := None |}.

(** A sprint of twenty blocked issues. *)
Definition twentyBlocked : list JiraIssue :=
  repeat (sampleIssue "NX-70" "Blocked" (Some "Ben") (Some "High") "Task" None)
         20.

(** A writer that files every issue under one key, and one that refuses. *)
Definition acceptingWriter (newKey : string) : IssueWriter :=
  {| createIssue := fun _ => Ok newKey |}.

Definition refusingWriter (message : string) : IssueWriter :=
  {| createIssue := fun _ => Err message |}.

Definition noOverrides : SmartIssueOverrides :=
  {| overrideType := None; overridePriority := None;
     overrideLabels := None; overrideAssignee := None |}.

(** A sentence of 25 words, 124 characters long, before its full stop. *)
Definition longSentence : string :=
  "alpha bravo charlie delta echo alpha bravo charlie delta echo "
    ++ "alpha bravo charlie delta echo alpha bravo charlie delta echo "
    ++ ". Tail".

(** A resolved story whose description is 260 characters long. *)
Definition describedIssue : JiraIssue :=
  {| key := "NX-36";
     fields :=
       {| summary := "Describe the rollout";
          description := Some (longSentence ++ longSentence);
          status_name := "Done";
          priority_name := None;
          assignee := None;
          reporter := None;
          issuetype_name := "Story";
          updated := "2025-12-01T00:00:00.000Z";
          labels := None |} |}.

(** Nine issues of one member and one of another. *)
Definition nineAndOne : list JiraIssue :=
  repeat (sampleIssue "NX-70" "To Do" (Some "Asha") (Some "High") "Task" None) 9
  ++ [sampleIssue "NX-79" "To Do" (Some "Ben") (Some "High") "Task" None].

(** The sprints of a board. *)
Definition boardSprints : list Sprint :=
  [{| sprint_id := 6; sprint_name := "Foundations" |};
   {| sprint_id := 7; sprint_name := "Hardening" |}].

(** Open pull requests and recent commits of a repository. *)
Definition samplePullRequests : list GitHubPullRequest :=
  [{| pr_number := 12; pr_title := "Fix login crash";
      pr_body := Some "The login page has a crash bug";
      pr_html_url := "https://github.example/pull/12" |};
   {| pr_number := 13; pr_title := "NX-7 rename the settings module";
      pr_body := None;
      pr_html_url := "https://github.example/pull/13" |}].

Definition sampleCommits : list GitHubCommit :=
  [{| commit_sha := "0123456789abcdef";
      commit_message := "Tidy the build scripts";
      commit_html_url := "https://github.example/commit/0123456" |};
   {| commit_sha := "89abcdef01234567";
      commit_message := "Merge branch main";
      commit_html_url := "https://github.example/commit/89abcde" |};
   {| commit_sha := "fedcba9876543210";
      commit_message := "NX-8 add the audit log";
      commit_html_url := "https://github.example/commit/fedcba9" |}].

Definition fixedGitHub (prs : result (list GitHubPullRequest))
           (commits : result (list GitHubCommit)) : GitHubClient :=
  {| getPullRequests := fun _ _ _ => prs;
     getCommits := fun _ _ _ _ _ => commits |}.

Definition syncEverything : GitHubSyncOptions :=
  {| fromPRs := true; fromCommits := true; syncBranch := None;
     syncSince := None; labelFilter := None |}.

(** * Verification *)

(** ** Arrays and loops *)

Lemma push_length {A : Type} (arr : list A) (x : A) :
  List.length (push arr x) = S (List.length arr).
Proof. unfold push. rewrite length_app. simpl. lia. Qed.

(** ** Failing computations *)

(** A [try] whose handler cannot fail always completes. *)
Lemma tryCatch_total {A : Type} (body : result A) (fallback : A) :
  exists a, tryCatch body (fun _ => Ok fallback) = Ok a.
Proof. destruct body as [a|e]; simpl; eauto. Qed.

(** ** Sprint health *)

Section SprintHealth.

Variable client : JiraClient.
Variable id : Z.
Variable boardId : option Z.

(** The name lookup is best effort: it always yields a name. *)
Lemma resolveSprintName_total :
  exists name, resolveSprintName client id boardId = Ok name.
Proof.
  unfold resolveSprintName.
  destruct boardId as [b|]; [|eauto].
  destruct (truthy (Some b)); [|eauto].
  unfold tryCatch, bind.
  destruct (getSprints client b) as [sprints|e]; [|eauto].
  destruct (find _ sprints); eauto.
Qed.

(** Once the sprint's issues are fetched the analysis completes, with the
    metrics [sprintHealthOf] computes. *)
Lemma analyzeSprintHealth_fetched (issues : list JiraIssue) :
  getSprintIssues client id = Ok issues ->
  exists name,
    analyzeSprintHealth client id boardId = Ok (sprintHealthOf name id issues).
Proof.
  intros Hfetch. unfold analyzeSprintHealth. rewrite Hfetch. simpl.
  destruct resolveSprintName_total as [name Hname].
  exists name. now rewrite Hname.
Qed.

End SprintHealth.

(** The bucket an iteration increments is the one [bucketOf] names. *)
Lemma sprintLoopBody_breakdown (st : SprintLoop) (issue : JiraIssue) :
  loop_breakdown (sprintLoopBody st issue) =
  match bucketOf (statusOf issue) with
  | BDone => incDone (loop_breakdown st)
  | BInProgress => incInProgress (loop_breakdown st)
  | BBlocked => incBlocked (loop_breakdown st)
  | BTodo => incTodo (loop_breakdown st)
  end.
Proof.
  unfold sprintLoopBody, bucketOf, statusOf, arrayIncludes. simpl.
  set (s := toLowerCase (status_name (fields issue))).
  rewrite !orb_false_r.
  rewrite !orb_assoc.
  destruct ((s =? "done") || (s =? "closed") || (s =? "resolved"));
    [reflexivity|].
  destruct ((s =? "in progress") || (s =? "in review") || (s =? "code review"));
    [reflexivity|].
  destruct ((s =? "blocked") || (s =? "impediment")); reflexivity.
Qed.

Lemma sprintLoopBody_risks (st : SprintLoop) (issue : JiraIssue) :
  loop_risks (sprintLoopBody st issue) =
  (loop_risks st ++ issueRisks issue)%list.
Proof.
  unfold sprintLoopBody, issueRisks, statusOf, push.
  set (s := toLowerCase (status_name (fields issue))).
  destruct ((s =? "done") || (s =? "closed") || (s =? "resolved"));
    [| destruct ((s =? "in progress") || (s =? "in review")
                 || (s =? "code review"));
       [| destruct ((s =? "blocked") || (s =? "impediment")) ] ];
    cbn [loop_risks];
    destruct (negb (isSome (assignee (fields issue))) && negb (s =? "done"));
    destruct (negb (isSome (priority_name (fields issue)))
              && negb (s =? "done"));
    simpl; rewrite <- ?app_assoc, ?app_nil_r; reflexivity.
Qed.

(** The loop as a whole: counts per bucket and the risks in issue order. *)
Lemma sprintLoop_from (issues : list JiraIssue) :
  forall st : SprintLoop,
    let st' := fold_left sprintLoopBody issues st in
    total (loop_breakdown st') = total (loop_breakdown st)
    /\ done (loop_breakdown st')
       = done (loop_breakdown st) + countBucket BDone issues
    /\ inProgress (loop_breakdown st')
       = inProgress (loop_breakdown st) + countBucket BInProgress issues
    /\ blocked (loop_breakdown st')
       = blocked (loop_breakdown st) + countBucket BBlocked issues
    /\ todo (loop_breakdown st')
       = todo (loop_breakdown st) + countBucket BTodo issues
    /\ loop_risks st'
       = (loop_risks st ++ flat_map issueRisks issues)%list.
Proof.
  induction issues as [|issue issues IH]; intros st;
    cbn [fold_left flat_map]; cbv zeta.
  - unfold countBucket. simpl. rewrite app_nil_r.
    repeat split; try lia; reflexivity.
  - specialize (IH (sprintLoopBody st issue)). cbv zeta in IH.
    destruct IH as (Ht & Hd & Hp & Hb & Ho & Hr).
    rewrite Ht, Hd, Hp, Hb, Ho, Hr.
    rewrite sprintLoopBody_risks, sprintLoopBody_breakdown.
    unfold countBucket. cbn [filter].
    rewrite <- app_assoc.
    destruct (bucketOf (statusOf issue)); simpl;
      repeat split; try lia; reflexivity.
Qed.

(** Every issue is in exactly one bucket. *)
Lemma countBucket_partition (issues : list JiraIssue) :
  countBucket BDone issues + countBucket BInProgress issues
    + countBucket BTodo issues + countBucket BBlocked issues
  = List.length issues.
Proof.
  unfold countBucket.
  induction issues as [|issue issues IH]; simpl; [reflexivity|].
  destruct (bucketOf (statusOf issue)); simpl; lia.
Qed.

Arguments sprintLoopBody : simpl never.

(** The breakdown and the risks of the finished loop. *)
Lemma sprintLoop_spec (issues : list JiraIssue) :
  let bd := loop_breakdown (sprintLoop issues) in
  total bd = List.length issues
  /\ done bd = countBucket BDone issues
  /\ inProgress bd = countBucket BInProgress issues
  /\ blocked bd = countBucket BBlocked issues
  /\ todo bd = countBucket BTodo issues
  /\ loop_risks (sprintLoop issues) = flat_map issueRisks issues.
Proof.
  unfold sprintLoop.
  destruct (sprintLoop_from issues (sprintLoopInit issues))
    as (Ht & Hd & Hp & Hb & Ho & Hr).
  cbv zeta. rewrite Ht, Hd, Hp, Hb, Ho, Hr. repeat split.
Qed.

(** C1. For every issue collection the sprint analysis receives, the
    breakdown it returns counts every issue in exactly one bucket: [total]
    is the number of issues, each of [done], [inProgress], [blocked] and
    [todo] is the number of issues whose lower-cased status the
    classification rule sends to that bucket, and
    [done + inProgress + todo + blocked = total]. *)
Theorem analyzeSprintHealth_breakdown_partition
        (client : JiraClient) (id : Z) (boardId : option Z)
        (issues : list JiraIssue) :
  getSprintIssues client id = Ok issues ->
  exists m,
    analyzeSprintHealth client id boardId = Ok m
    /\ total (issueBreakdown m) = List.length issues
    /\ done (issueBreakdown m) = countBucket BDone issues
    /\ inProgress (issueBreakdown m) = countBucket BInProgress issues
    /\ blocked (issueBreakdown m) = countBucket BBlocked issues
    /\ todo (issueBreakdown m) = countBucket BTodo issues
    /\ done (issueBreakdown m) + inProgress (issueBreakdown m)
         + todo (issueBreakdown m) + blocked (issueBreakdown m)
       = total (issueBreakdown m).
Proof.
  intros Hfetch.
  destruct (analyzeSprintHealth_fetched client id boardId issues Hfetch)
    as [name Hrun].
  exists (sprintHealthOf name id issues). split; [exact Hrun|].
  destruct (sprintLoop_spec issues) as (Ht & Hd & Hp & Hb & Ho & _).
  cbn [issueBreakdown sprintHealthOf].
  rewrite Ht, Hd, Hp, Hb, Ho.
  repeat split. apply countBucket_partition.
Qed.

Lemma analyzeSprintHealth_breakdown_partition_witness :
  getSprintIssues (fixedClient (Ok sampleSprint) offline offline) 7
    = Ok sampleSprint
  /\ exists m,
       analyzeSprintHealth (fixedClient (Ok sampleSprint) offline offline)
                           7 (Some 3%Z) = Ok m
       /\ done (issueBreakdown m) + inProgress (issueBreakdown m)
            + todo (issueBreakdown m) + blocked (issueBreakdown m)
          = total (issueBreakdown m).
Proof.
  split; [reflexivity|].
  destruct (analyzeSprintHealth_breakdown_partition
              (fixedClient (Ok sampleSprint) offline offline) 7 (Some 3%Z)
              sampleSprint eq_refl)
    as (m & Hrun & _ & _ & _ & _ & _ & Hsum).
  exists m. split; assumption.
Defined.

(** C2. For every issue collection the health score is the clamp into
    [0,100] of 100 minus [max(0, 50 - completionRate)], minus 5 per blocked
    issue, minus 10 for WIP overload, minus 10 for more remaining than
    completed; so it lies in [0,100] whatever the size of the collection and
    the number of blocked issues. *)
Theorem analyzeSprintHealth_score_clamped
        (client : JiraClient) (id : Z) (boardId : option Z)
        (issues : list JiraIssue) :
  getSprintIssues client id = Ok issues ->
  exists m,
    analyzeSprintHealth client id boardId = Ok m
    /\ healthScore m =
       Z.max 0
         (Z.min 100
            (100
             - Z.max 0 (50 - completionRate (metrics m))
             - 5 * Z.of_nat (blocked (issueBreakdown m))
             - (if wipOverload (inProgress (issueBreakdown m))
                               (List.length issues)
                then 10 else 0)
             - (if (done (issueBreakdown m) <? todo (issueBreakdown m))%nat
                   && (completionRate (metrics m) <? 50)%Z
                then 10 else 0)))
    /\ (0 <= healthScore m <= 100)%Z.
Proof.
  intros Hfetch.
  destruct (analyzeSprintHealth_fetched client id boardId issues Hfetch)
    as [name Hrun].
  exists (sprintHealthOf name id issues). split; [exact Hrun|].
  split.
  - cbn [healthScore sprintHealthOf metrics completionRate issueBreakdown].
    unfold clampScore. f_equal. f_equal.
    destruct (wipOverload _ _);
      destruct ((done _ <? todo _)%nat && (_ <? 50)%Z); lia.
  - cbn [healthScore sprintHealthOf]. unfold clampScore. lia.
Qed.

Lemma analyzeSprintHealth_score_clamped_witness :
  getSprintIssues (fixedClient (Ok sampleSprint) offline offline) 7
    = Ok sampleSprint
  /\ exists m,
       analyzeSprintHealth (fixedClient (Ok sampleSprint) offline offline)
                           7 None = Ok m
       /\ (0 <= healthScore m <= 100)%Z.
Proof.
  split; [reflexivity|].
  destruct (analyzeSprintHealth_score_clamped
              (fixedClient (Ok sampleSprint) offline offline) 7 None
              sampleSprint eq_refl)
    as (m & Hrun & _ & Hrange).
  exists m. split; assumption.
Defined.

(** C8. For the empty issue collection: the completion rate of a breakdown
    whose total is 0 is 0 (no quotient is formed), and the analysis returns
    total 0, completion rate 0, health score 100 - 50 - 0 - 0 - 0 = 50 and
    health status at-risk. *)
Theorem analyzeSprintHealth_empty_sprint
        (client : JiraClient) (id : Z) (boardId : option Z) :
  (forall b : IssueBreakdown, total b = 0 -> computeCompletionRate b = 0%Z)
  /\ (getSprintIssues client id = Ok [] ->
      exists m,
        analyzeSprintHealth client id boardId = Ok m
        /\ total (issueBreakdown m) = 0
        /\ completionRate (metrics m) = 0%Z
        /\ healthScore m = (100 - 50 - 0 - 0 - 0)%Z
        /\ healthScore m = 50%Z
        /\ healthStatus m = at_risk).
Proof.
  split.
  - intros b Hb. unfold computeCompletionRate. now rewrite Hb.
  - intros Hfetch.
    destruct (analyzeSprintHealth_fetched client id boardId [] Hfetch)
      as [name Hrun].
    exists (sprintHealthOf name id []). split; [exact Hrun|].
    repeat split.
Qed.

Lemma analyzeSprintHealth_empty_sprint_witness :
  getSprintIssues (fixedClient (Ok []) offline offline) 7 = Ok []
  /\ exists m,
       analyzeSprintHealth (fixedClient (Ok []) offline offline) 7 None = Ok m
       /\ healthScore m = 50%Z
       /\ healthStatus m = at_risk.
Proof.
  split; [reflexivity|].
  destruct (proj2 (analyzeSprintHealth_empty_sprint
                     (fixedClient (Ok []) offline offline) 7 None) eq_refl)
    as (m & Hrun & _ & _ & _ & Hscore & Hstatus).
  exists m. repeat split; assumption.
Defined.

(** The risks of a sprint: those of its issues, in issue order, then the
    two sprint-wide ones. *)
Lemma sprintHealthOf_risks (name : string) (id : Z) (issues : list JiraIssue) :
  exists sprintWide,
    risks (sprintHealthOf name id issues)
    = (flat_map issueRisks issues ++ sprintWide)%list
    /\ incl sprintWide
            ["Too many issues in progress (WIP overload)";
             "More work remaining than completed"].
Proof.
  destruct (sprintLoop_spec issues) as (_ & _ & _ & _ & _ & Hr).
  cbn [risks sprintHealthOf]. rewrite Hr. unfold push.
  set (w := wipOverload _ _).
  set (u := (_ <? _)%nat && (_ <? 50)%Z).
  exists ((if w then ["Too many issues in progress (WIP overload)"] else [])
          ++ (if u then ["More work remaining than completed"] else []))%list.
  destruct w; destruct u;
    (split;
     [ simpl; rewrite ?app_nil_r, <- ?app_assoc; reflexivity
     | intros x Hx; simpl in *; tauto ]).
Qed.

(** An issue outside the done bucket that lacks an assignee is flagged. *)
Lemma unassigned_open_issue_flagged
      (name : string) (id : Z) (issues : list JiraIssue) (issue : JiraIssue) :
  In issue issues ->
  assignee (fields issue) = None ->
  bucketOf (statusOf issue) <> BDone ->
  In ("Unassigned issue: " ++ key issue) (risks (sprintHealthOf name id issues)).
Proof.
  intros Hin Hnone Hopen.
  destruct (sprintHealthOf_risks name id issues) as (extra & Hr & _).
  rewrite Hr. apply in_or_app. left.
  apply in_flat_map. exists issue. split; [exact Hin|].
  unfold issueRisks. rewrite Hnone.
  destruct (statusOf issue =? "done") eqn:Hs.
  - exfalso. apply Hopen. apply String.eqb_eq in Hs. now rewrite Hs.
  - simpl. now left.
Qed.

(** An issue outside the done bucket that lacks a priority is flagged. *)
Lemma unprioritized_open_issue_flagged
      (name : string) (id : Z) (issues : list JiraIssue) (issue : JiraIssue) :
  In issue issues ->
  priority_name (fields issue) = None ->
  bucketOf (statusOf issue) <> BDone ->
  In ("No priority set: " ++ key issue) (risks (sprintHealthOf name id issues)).
Proof.
  intros Hin Hnone Hopen.
  destruct (sprintHealthOf_risks name id issues) as (extra & Hr & _).
  rewrite Hr. apply in_or_app. left.
  apply in_flat_map. exists issue. split; [exact Hin|].
  unfold issueRisks. rewrite Hnone.
  destruct (statusOf issue =? "done") eqn:Hs.
  - exfalso. apply Hopen. apply String.eqb_eq in Hs. now rewrite Hs.
  - apply in_or_app. right. simpl. now left.
Qed.

(** An issue whose status is literally done contributes no risk. *)
Lemma literally_done_issue_not_flagged (issue : JiraIssue) :
  statusOf issue = "done" -> issueRisks issue = [].
Proof.
  intros Hs. unfold issueRisks. rewrite Hs. simpl.
  now rewrite !andb_false_r.
Qed.

(** C6 (the code departs from the claim). A sprint whose only issue is
    closed, so counted in the done bucket, and has neither assignee nor
    priority: the analysis still appends both risks for it, because the two
    checks compare the status with "done" alone. *)
Theorem analyzeSprintHealth_flags_closed_issue :
  bucketOf (statusOf closedOrphan) = BDone
  /\ exists m,
       analyzeSprintHealth (fixedClient (Ok [closedOrphan]) offline offline)
                           7 None = Ok m
       /\ done (issueBreakdown m) = 1
       /\ risks m = ["Unassigned issue: NX-9"; "No priority set: NX-9"].
Proof.
  split; [reflexivity|].
  eexists. split; [reflexivity|]. split; reflexivity.
Qed.

(** ** Workload dashboard *)

Arguments memberLoopBody : simpl never.
Arguments memberEntry : simpl never.
Arguments groupBody : simpl never.

Section MemberLoop.

Variable clock : Clock.

(** The inner loop leaves the assigned count alone and counts the issues
    whose status passes the substring test. *)
Lemma memberLoopBody_fold (memberIssues : list JiraIssue) :
  forall m : MemberMetrics,
    let m' := fold_left (memberLoopBody clock) memberIssues m in
    assignedIssues m' = assignedIssues m
    /\ inProgressIssues m'
       = inProgressIssues m
         + List.length
             (filter (fun i => inProgressLike (statusOf i)) memberIssues).
Proof.
  induction memberIssues as [|issue rest IH]; intros m; cbn [fold_left filter].
  - cbv zeta. simpl. split; lia.
  - specialize (IH (memberLoopBody clock m issue)). cbv zeta in IH.
    destruct IH as [Ha Hp]. cbv zeta. rewrite Ha, Hp.
    unfold memberLoopBody, inProgressLike, statusOf.
    set (s := toLowerCase (status_name (fields issue))).
    destruct (includes s "progress" || includes s "review");
      destruct (staleFor14Days clock issue && negb (includes s "done")
                && negb (includes s "closed"));
      simpl; split; lia.
Qed.

Lemma memberEntry_name (name : string) (memberIssues : list JiraIssue) :
  teamMember (memberEntry clock (name, memberIssues)) = name.
Proof. reflexivity. Qed.

Lemma memberEntry_assigned (name : string) (memberIssues : list JiraIssue) :
  assignedIssues (memberMetrics (memberEntry clock (name, memberIssues)))
  = List.length memberIssues.
Proof.
  unfold memberEntry. cbn [memberMetrics].
  destruct (memberLoopBody_fold memberIssues (memberMetricsInit memberIssues))
    as [Ha _].
  cbv zeta in Ha. now rewrite Ha.
Qed.

Lemma memberEntry_inProgress (name : string) (memberIssues : list JiraIssue) :
  inProgressIssues (memberMetrics (memberEntry clock (name, memberIssues)))
  = List.length (filter (fun i => inProgressLike (statusOf i)) memberIssues).
Proof.
  unfold memberEntry. cbn [memberMetrics].
  destruct (memberLoopBody_fold memberIssues (memberMetricsInit memberIssues))
    as [_ Hp].
  cbv zeta in Hp. now rewrite Hp.
Qed.

Lemma memberEntry_status (entry : string * list JiraIssue) :
  workloadStatus (memberEntry clock entry)
  = workloadStatusOf (assignedIssues (memberMetrics (memberEntry clock entry))).
Proof. destruct entry as [name memberIssues]. reflexivity. Qed.

(** The outer loop: one entry and one workload per member, in map order. *)
Lemma memberLoop_from (m : AssigneeMap) :
  forall acc : list WorkloadMetrics * list nat,
    fold_left
      (fun acc entry =>
         let w := memberEntry clock entry in
         (push (fst acc) w, push (snd acc) (assignedIssues (memberMetrics w))))
      m acc
    = ((fst acc ++ map (memberEntry clock) m)%list,
       (snd acc ++ map (fun e => List.length (snd e)) m)%list).
Proof.
  induction m as [|[name memberIssues] m IH]; intros [ws ns];
    cbn [fold_left map fst snd].
  - now rewrite !app_nil_r.
  - rewrite IH. cbn [fst snd]. unfold push.
    rewrite memberEntry_assigned, <- !app_assoc. reflexivity.
Qed.

Lemma memberLoop_spec (m : AssigneeMap) :
  memberLoop clock m
  = (map (memberEntry clock) m, map (fun e => List.length (snd e)) m).
Proof. unfold memberLoop. now rewrite memberLoop_from. Qed.

Variable sprint : option Z.
Variable issues : list JiraIssue.

Lemma workloadDashboardOf_distribution :
  workloadDistribution (workloadDashboardOf clock sprint issues)
  = map (memberEntry clock) (groupByAssignee issues).
Proof.
  unfold workloadDashboardOf. rewrite memberLoop_spec. reflexivity.
Qed.

Lemma workloadDashboardOf_workloads :
  workloadsOf (workloadDashboardOf clock sprint issues)
  = map (fun e => List.length (snd e)) (groupByAssignee issues).
Proof.
  unfold workloadsOf. rewrite workloadDashboardOf_distribution, map_map.
  apply map_ext. intros [name memberIssues]. apply memberEntry_assigned.
Qed.


Lemma workloadDashboardOf_averageWorkload :
  averageWorkload (workloadDashboardOf clock sprint issues)
  = (IZR (roundR (avgWorkloadOf
                    (workloadsOf (workloadDashboardOf clock sprint issues))
                  * 10)) / 10)%R.
Proof.
  rewrite workloadDashboardOf_workloads.
  unfold workloadDashboardOf. rewrite memberLoop_spec. reflexivity.
Qed.

End MemberLoop.

(** Once the issues are fetched the dashboard is computed from them. *)
Lemma generateWorkloadDashboard_fetched
      (clock : Clock) (client : JiraClient) (projectKey : option string)
      (sprint : option Z) (issues : list JiraIssue) :
  searchIssues client (workloadQuery projectKey sprint) 200 = Ok issues ->
  generateWorkloadDashboard clock client projectKey sprint
  = Ok (workloadDashboardOf clock sprint issues).
Proof.
  intros Hfetch. unfold generateWorkloadDashboard. now rewrite Hfetch.
Qed.



(** *** Grouping by assignee *)

Lemma groupBody_unassigned (m : AssigneeMap) (issue : JiraIssue) :
  hasAssignee issue = false -> groupBody m issue = m.
Proof.
  unfold hasAssignee, groupBody.
  destruct (assignee (fields issue)); [discriminate|reflexivity].
Qed.

(** Issues without an assignee leave the map as it is. *)
Lemma groupBody_fold_filter (issues : list JiraIssue) :
  forall m : AssigneeMap,
    fold_left groupBody issues m
    = fold_left groupBody (filter hasAssignee issues) m.
Proof.
  induction issues as [|issue issues IH]; intros m; cbn [fold_left filter].
  - reflexivity.
  - destruct (hasAssignee issue) eqn:Hassigned; cbn [fold_left].
    + apply IH.
    + rewrite groupBody_unassigned by exact Hassigned. apply IH.
Qed.

Lemma groupByAssignee_filter (issues : list JiraIssue) :
  groupByAssignee issues = groupByAssignee (filter hasAssignee issues).
Proof. apply groupBody_fold_filter. Qed.

Lemma mapHas_In (m : AssigneeMap) (k : string) :
  mapHas m k = true <-> In k (map fst m).
Proof.
  induction m as [|[k' v'] m IH]; cbn [mapHas map fst In].
  - split; [discriminate|contradiction].
  - rewrite orb_true_iff, IH, String.eqb_eq. reflexivity.
Qed.

Lemma mapHas_absent (m : AssigneeMap) (k : string) :
  mapHas m k = false <-> ~ In k (map fst m).
Proof.
  rewrite <- mapHas_In. destruct (mapHas m k); split; intros H;
    try reflexivity; try discriminate; try (intros [=]); now elim H.
Qed.

(** [set] on an absent key adds the entry at the end. *)
Lemma mapSet_absent (m : AssigneeMap) (k : string) (v : list JiraIssue) :
  mapHas m k = false -> mapSet m k v = (m ++ [(k, v)])%list.
Proof.
  induction m as [|[k' v'] m IH]; cbn [mapHas mapSet app]; [reflexivity|].
  intros Habsent. apply orb_false_iff in Habsent.
  destruct Habsent as [Hk Hrest]. now rewrite Hk, IH.
Qed.

(** [get(k).push(issue)] leaves the keys as they are. *)
Lemma mapGetPush_keys (m : AssigneeMap) (k : string) (issue : JiraIssue) :
  map fst (mapGetPush m k issue) = map fst m.
Proof.
  induction m as [|[k' v'] m IH]; cbn [mapGetPush]; [reflexivity|].
  destruct (k' =? k); cbn [map fst]; [reflexivity|now rewrite IH].
Qed.

Lemma filter_push {A : Type} (p : A -> bool) (l : list A) (x : A) :
  filter p (l ++ [x]) = (filter p l ++ if p x then [x] else [])%list.
Proof. rewrite filter_app. cbn [filter]. now destruct (p x). Qed.

Lemma assignedTo_name (issue : JiraIssue) (a : JiraUserRef) (name : string) :
  assignee (fields issue) = Some a ->
  assignedTo name issue = (displayName a =? name).
Proof. intros Ha. unfold assignedTo. now rewrite Ha. Qed.

(** The groups after one more issue of the member [displayName a], whose
    key is present. *)
Lemma mapGetPush_groups (seen : list JiraIssue) (issue : JiraIssue)
      (a : JiraUserRef) (m : AssigneeMap) :
  assignee (fields issue) = Some a ->
  NoDup (map fst m) ->
  Forall (fun entry => snd entry = filter (assignedTo (fst entry)) seen) m ->
  Forall (fun entry =>
            snd entry = filter (assignedTo (fst entry)) (seen ++ [issue]))
         (mapGetPush m (displayName a) issue).
Proof.
  intros Ha.
  induction m as [|[k' v'] m IH]; intros Hkeys Hgroups; cbn [mapGetPush].
  - constructor.
  - cbn [map fst] in Hkeys.
    inversion Hkeys as [|? ? Hfresh Hrest]; subst.
    inversion Hgroups as [|? ? Hhead Htail]; subst.
    cbn [fst snd] in Hhead.
    destruct (k' =? displayName a) eqn:Hk.
    + apply String.eqb_eq in Hk. subst k'. constructor.
      * cbn [fst snd]. rewrite filter_push, (assignedTo_name _ a) by exact Ha.
        rewrite String.eqb_refl, Hhead. reflexivity.
      * apply Forall_forall. intros [k v] Hin.
        rewrite Forall_forall in Htail. specialize (Htail _ Hin).
        cbn [fst snd] in *.
        rewrite filter_push, (assignedTo_name _ a) by exact Ha.
        destruct (displayName a =? k) eqn:Hsame.
        { apply String.eqb_eq in Hsame. subst k. exfalso. apply Hfresh.
          apply in_map_iff. exists (displayName a, v). auto. }
        now rewrite app_nil_r.
    + constructor; [|apply IH; assumption].
      cbn [fst snd]. rewrite filter_push, (assignedTo_name _ a) by exact Ha.
      rewrite String.eqb_sym, Hk, app_nil_r. exact Hhead.
Qed.

(** One iteration of the grouping loop keeps the groups in step with the
    issues seen. *)
Lemma groupBody_groups (seen : list JiraIssue) (m : AssigneeMap)
      (issue : JiraIssue) :
  groupsOf seen m -> groupsOf (seen ++ [issue]) (groupBody m issue).
Proof.
  intros (Hkeys & Hgroups & Habsent). unfold groupBody.
  destruct (assignee (fields issue)) as [a|] eqn:Ha.
  - set (k := displayName a).
    assert (Hstep : exists m1,
      (if negb (mapHas m k) then mapSet m k [] else m) = m1
      /\ NoDup (map fst m1)
      /\ Forall (fun entry => snd entry = filter (assignedTo (fst entry)) seen)
                m1
      /\ (forall name, In name (map fst m1) <-> name = k \/ In name (map fst m))).
    { destruct (mapHas m k) eqn:Hhas; cbn [negb].
      - exists m. repeat split; auto.
        intros [->|Hin]; [now apply mapHas_In|exact Hin].
      - exists (m ++ [(k, [])])%list. split; [now apply mapSet_absent|].
        rewrite map_app. cbn [map fst]. split; [|split].
        + apply NoDup_app; [exact Hkeys|repeat constructor; intros []|].
          intros x Hx [<-|[]]. now apply mapHas_absent in Hhas.
        + apply Forall_app. split; [exact Hgroups|].
          constructor; [|constructor]. cbn [fst snd].
          symmetry. now apply Habsent.
        + intros name. rewrite in_app_iff. cbn [In]. intuition. }
    destruct Hstep as (m1 & -> & Hkeys1 & Hgroups1 & Hnames1).
    split; [|split].
    + now rewrite mapGetPush_keys.
    + now apply (mapGetPush_groups seen issue a).
    + intros name Hname. apply mapHas_absent in Hname.
      rewrite mapGetPush_keys, Hnames1 in Hname.
      rewrite filter_push, (assignedTo_name _ a) by exact Ha.
      fold k. destruct (k =? name) eqn:Hsame.
      { apply String.eqb_eq in Hsame. exfalso. apply Hname. now left. }
      rewrite app_nil_r. apply Habsent, mapHas_absent. tauto.
  - split; [exact Hkeys|]. split.
    + apply Forall_forall. intros entry Hin.
      rewrite Forall_forall in Hgroups. rewrite (Hgroups _ Hin) at 1.
      rewrite filter_push. unfold assignedTo at 3. rewrite Ha.
      now rewrite app_nil_r.
    + intros name Hname. rewrite filter_push. unfold assignedTo at 2.
      rewrite Ha, app_nil_r. now apply Habsent.
Qed.

(** Grouping partitions the fetched issues by assignee display name. *)
Lemma groupByAssignee_groups (issues : list JiraIssue) :
  groupsOf issues (groupByAssignee issues).
Proof.
  unfold groupByAssignee.
  assert (Hgen : forall seen m,
    groupsOf seen m ->
    groupsOf (seen ++ issues) (fold_left groupBody issues m)).
  { induction issues as [|issue issues IH]; intros seen m Hm; cbn [fold_left].
    - now rewrite app_nil_r.
    - replace (seen ++ issue :: issues)%list
        with ((seen ++ [issue]) ++ issues)%list
        by (now rewrite <- app_assoc).
      apply IH, groupBody_groups, Hm. }
  apply (Hgen [] []). repeat split; [constructor|constructor].
Qed.

Lemma list_sum_cons (x : nat) (l : list nat) :
  list_sum (x :: l) = x + list_sum l.
Proof. reflexivity. Qed.

(** The number of issues held by the groups of a map. *)
Lemma mapSet_empty_absent (m : AssigneeMap) (k : string) :
  mapHas m k = false ->
  mapHas (mapSet m k []) k = true
  /\ list_sum (map (fun e => List.length (snd e)) (mapSet m k []))
     = list_sum (map (fun e => List.length (snd e)) m).
Proof.
  induction m as [|[k' v'] m IH]; cbn [mapHas mapSet].
  - intros _. cbn. rewrite String.eqb_refl. auto.
  - intros Habsent. apply orb_false_iff in Habsent.
    destruct Habsent as [Hk Hrest]. rewrite Hk.
    destruct (IH Hrest) as [Hhas Hsum].
    cbn [mapHas map snd]. rewrite !list_sum_cons, Hk, Hhas, Hsum. auto.
Qed.

Lemma mapGetPush_present (m : AssigneeMap) (k : string) (issue : JiraIssue) :
  mapHas m k = true ->
  list_sum (map (fun e => List.length (snd e)) (mapGetPush m k issue))
  = S (list_sum (map (fun e => List.length (snd e)) m)).
Proof.
  induction m as [|[k' v'] m IH]; cbn [mapHas mapGetPush].
  - discriminate.
  - intros Hhas. destruct (k' =? k); cbn [map snd orb] in *;
      rewrite !list_sum_cons.
    + rewrite push_length. lia.
    + rewrite IH by exact Hhas. lia.
Qed.

Lemma groupBody_count (m : AssigneeMap) (issue : JiraIssue) :
  list_sum (map (fun e => List.length (snd e)) (groupBody m issue))
  = (if hasAssignee issue then 1 else 0)
    + list_sum (map (fun e => List.length (snd e)) m).
Proof.
  unfold groupBody, hasAssignee.
  destruct (assignee (fields issue)) as [a|]; [|reflexivity].
  cbn [isSome].
  destruct (mapHas m (displayName a)) eqn:Hhas; cbn [negb].
  - now rewrite mapGetPush_present.
  - destruct (mapSet_empty_absent m (displayName a) Hhas) as [Hhas' Hsum].
    rewrite mapGetPush_present by exact Hhas'. now rewrite Hsum.
Qed.

(** The groups hold the assigned issues, each once. *)
Lemma groupByAssignee_count (issues : list JiraIssue) :
  list_sum (map (fun e => List.length (snd e)) (groupByAssignee issues))
  = List.length (filter hasAssignee issues).
Proof.
  unfold groupByAssignee.
  assert (Hgen : forall m,
    list_sum (map (fun e => List.length (snd e)) (fold_left groupBody issues m))
    = List.length (filter hasAssignee issues)
      + list_sum (map (fun e => List.length (snd e)) m)).
  { induction issues as [|issue issues IH]; intros m; cbn [fold_left filter].
    - reflexivity.
    - rewrite IH, groupBody_count.
      destruct (hasAssignee issue); cbn [List.length]; lia. }
  rewrite Hgen. cbn. lia.
Qed.

(** The dashboard of a collection and that of its assigned issues agree on
    every field but the issue total. *)
Lemma workloadDashboardOf_filter
      (clock : Clock) (sprint : option Z) (issues : list JiraIssue) :
  let d := workloadDashboardOf clock sprint issues in
  let d' := workloadDashboardOf clock sprint (filter hasAssignee issues) in
  workloadDistribution d = workloadDistribution d'
  /\ teamSize d = teamSize d'
  /\ averageWorkload d = averageWorkload d'
  /\ balanceScore d = balanceScore d'
  /\ dashboardRecommendations d = dashboardRecommendations d'
  /\ bottlenecks d = bottlenecks d'.
Proof.
  cbv zeta. unfold workloadDashboardOf.
  rewrite <- (groupByAssignee_filter issues).
  destruct (memberLoop clock (groupByAssignee issues)) as [ws ns].
  repeat split.
Qed.

(** C7 (counterexample to the claim as stated). A fetched collection whose
    only issue has no assignee: no member is reported, yet the dashboard's
    issue total is 1. *)
Lemma workloadDashboard_total_counts_unassigned :
  hasAssignee openOrphan = false
  /\ exists d,
       generateWorkloadDashboard
         sampleClock (fixedClient offline offline (Ok [openOrphan])) None None
       = Ok d
       /\ workloadDistribution d = []
       /\ totalIssues d = 1.
Proof.
  split; [reflexivity|].
  eexists. split; [reflexivity|]. split; reflexivity.
Qed.

(** Every member entry is computed from the issues assigned to that
    member, and the members are distinct. *)
Lemma workloadDashboardOf_members
      (clock : Clock) (sprint : option Z) (issues : list JiraIssue) :
  let d := workloadDashboardOf clock sprint issues in
  NoDup (map teamMember (workloadDistribution d))
  /\ Forall (fun w =>
               w = memberEntry clock
                     (teamMember w,
                      filter (assignedTo (teamMember w)) issues))
            (workloadDistribution d).
Proof.
  cbv zeta. rewrite workloadDashboardOf_distribution.
  destruct (groupByAssignee_groups issues) as (Hkeys & Hgroups & _).
  split.
  - rewrite map_map.
    erewrite map_ext; [exact Hkeys|].
    intros [name memberIssues]. apply memberEntry_name.
  - apply Forall_forall. intros w Hw.
    apply in_map_iff in Hw. destruct Hw as ([name memberIssues] & <- & Hin).
    rewrite Forall_forall in Hgroups. specialize (Hgroups _ Hin).
    cbn [fst snd] in Hgroups.
    now rewrite memberEntry_name, <- Hgroups.
Qed.

(** C7 (amended). For every fetched issue collection, an issue without an
    assignee contributes to no member's metrics: it is assigned to no name,
    the members are distinct, each member's entry is computed from exactly
    the fetched issues assigned to that member, the members' counts add up
    to the number of assigned issues, and the member entries, team size,
    average workload, balance score, recommendations and bottlenecks are
    those of the collection with the unassigned issues removed.  The
    dashboard's issue total is the size of the fetched collection,
    unassigned issues included. *)
Theorem workloadDashboard_unassigned_issues
        (clock : Clock) (client : JiraClient) (projectKey : option string)
        (sprint : option Z) (issues : list JiraIssue) :
  searchIssues client (workloadQuery projectKey sprint) 200 = Ok issues ->
  exists d,
    generateWorkloadDashboard clock client projectKey sprint = Ok d
    /\ (forall issue name,
          hasAssignee issue = false -> assignedTo name issue = false)
    /\ NoDup (map teamMember (workloadDistribution d))
    /\ Forall (fun w =>
                 w = memberEntry clock
                       (teamMember w,
                        filter (assignedTo (teamMember w)) issues))
              (workloadDistribution d)
    /\ list_sum (workloadsOf d) = List.length (filter hasAssignee issues)
    /\ (let d' :=
          workloadDashboardOf clock sprint (filter hasAssignee issues) in
        workloadDistribution d = workloadDistribution d'
        /\ teamSize d = teamSize d'
        /\ averageWorkload d = averageWorkload d'
        /\ balanceScore d = balanceScore d'
        /\ dashboardRecommendations d = dashboardRecommendations d'
        /\ bottlenecks d = bottlenecks d')
    /\ totalIssues d = List.length issues.
Proof.
  intros Hfetch. eexists. split.
  { apply generateWorkloadDashboard_fetched, Hfetch. }
  split.
  { intros issue name. unfold hasAssignee, assignedTo.
    destruct (assignee (fields issue)); [discriminate|reflexivity]. }
  split; [apply workloadDashboardOf_members|].
  split; [apply workloadDashboardOf_members|].
  split.
  { rewrite workloadDashboardOf_workloads. apply groupByAssignee_count. }
  split; [apply workloadDashboardOf_filter|].
  unfold workloadDashboardOf.
  destruct (memberLoop clock (groupByAssignee issues)). reflexivity.
Qed.

Lemma workloadDashboard_unassigned_issues_witness :
  searchIssues (fixedClient offline offline (Ok teamOfTwo))
               (workloadQuery None None) 200 = Ok teamOfTwo
  /\ exists d,
       generateWorkloadDashboard
         sampleClock (fixedClient offline offline (Ok teamOfTwo)) None None
       = Ok d
       /\ list_sum (workloadsOf d) = 2
       /\ totalIssues d = 3.
Proof.
  split; [reflexivity|].
  destruct (workloadDashboard_unassigned_issues
              sampleClock (fixedClient offline offline (Ok teamOfTwo))
              None None teamOfTwo eq_refl)
    as (d & Hrun & _ & _ & _ & Hsum & _ & Htotal).
  exists d. split; [exact Hrun|]. split; [exact Hsum|exact Htotal].
Defined.

(** C10. In the dashboard an issue counts toward its assignee's in-progress
    total exactly when its lower-cased status contains "progress" or
    "review": each member's in-progress count is the number of such issues
    in the member's group.  The test accepts every status of the sprint
    analysis' in-progress bucket and more: a status "peer review" or
    "progressing" passes it while the sprint analysis files the issue under
    todo, as the two operations show on one and the same issue. *)
Theorem dashboard_inProgress_by_substring
        (clock : Clock) (client : JiraClient) (projectKey : option string)
        (sprint : option Z) (issues : list JiraIssue) :
  (searchIssues client (workloadQuery projectKey sprint) 200 = Ok issues ->
   exists d,
     generateWorkloadDashboard clock client projectKey sprint = Ok d
     /\ Forall2
          (fun w group =>
             teamMember w = fst group
             /\ inProgressIssues (memberMetrics w)
                = List.length
                    (filter (fun i => inProgressLike (statusOf i))
                            (snd group)))
          (workloadDistribution d) (groupByAssignee issues))
  /\ (forall status, bucketOf status = BInProgress ->
                     inProgressLike status = true)
  /\ (inProgressLike "peer review" = true /\ bucketOf "peer review" = BTodo)
  /\ (inProgressLike "progressing" = true /\ bucketOf "progressing" = BTodo)
  /\ (forall issue, In issue [peerReviewIssue; progressingIssue] ->
      exists m d,
        analyzeSprintHealth (fixedClient (Ok [issue]) offline offline) 7 None
        = Ok m
        /\ generateWorkloadDashboard
             sampleClock (fixedClient offline offline (Ok [issue])) None None
           = Ok d
        /\ inProgress (issueBreakdown m) = 0
        /\ todo (issueBreakdown m) = 1
        /\ map (fun w => inProgressIssues (memberMetrics w))
               (workloadDistribution d) = [1]).
Proof.
  split; [|split; [|split; [|split]]].
  - intros Hfetch. eexists. split.
    { apply generateWorkloadDashboard_fetched, Hfetch. }
    rewrite workloadDashboardOf_distribution.
    induction (groupByAssignee issues) as [|[name memberIssues] groups IH];
      cbn [map]; constructor; [|exact IH].
    split; [apply memberEntry_name|apply memberEntry_inProgress].
  - intros status. unfold bucketOf, arrayIncludes, inProgressLike.
    cbn [existsb]. rewrite !orb_false_r.
    destruct ((status =? "done") || ((status =? "closed")
              || (status =? "resolved"))); [discriminate|].
    destruct (status =? "in progress") eqn:H1.
    { apply String.eqb_eq in H1. now subst. }
    destruct (status =? "in review") eqn:H2.
    { apply String.eqb_eq in H2. now subst. }
    destruct (status =? "code review") eqn:H3.
    { apply String.eqb_eq in H3. now subst. }
    cbn [orb]. destruct ((status =? "blocked") || (status =? "impediment"));
      discriminate.
  - split; reflexivity.
  - split; reflexivity.
  - intros issue [<-|[<-|[]]];
      (eexists; eexists; split; [reflexivity|]; split; [reflexivity|];
       repeat split).
Qed.

Lemma dashboard_inProgress_by_substring_witness :
  searchIssues (fixedClient offline offline (Ok teamOfTwo))
               (workloadQuery None None) 200 = Ok teamOfTwo
  /\ bucketOf "code review" = BInProgress
  /\ (exists d,
        generateWorkloadDashboard
          sampleClock (fixedClient offline offline (Ok teamOfTwo)) None None
        = Ok d
        /\ map (fun w => inProgressIssues (memberMetrics w))
               (workloadDistribution d) = [1; 0])
  /\ inProgressLike "code review" = true.
Proof.
  pose proof (dashboard_inProgress_by_substring
                sampleClock (fixedClient offline offline (Ok teamOfTwo))
                None None teamOfTwo) as (Hrun & Hbroader & _).
  split; [reflexivity|]. split; [reflexivity|]. split.
  - destruct (Hrun eq_refl) as (d & Hd & _).
    exists d. split; [exact Hd|].
    injection Hd as <-. reflexivity.
  - apply Hbroader. reflexivity.
Defined.

(** ** Release notes *)

Arguments categorize : simpl never.
Arguments releaseItemOf : simpl never.

Lemma existsb_either (a b : string) (l : list string) :
  arrayIncludes l a || arrayIncludes l b
  = existsb (fun x => (x =? a) || (x =? b)) l.
Proof.
  unfold arrayIncludes.
  induction l as [|x l IH]; cbn [existsb]; [reflexivity|].
  rewrite <- IH, (String.eqb_sym a x), (String.eqb_sym b x).
  destruct (x =? a); destruct (x =? b); destruct (existsb (String.eqb a) l);
    reflexivity.
Qed.

Lemma existsb_one (a : string) (l : list string) :
  arrayIncludes l a = existsb (fun x => x =? a) l.
Proof.
  unfold arrayIncludes.
  induction l as [|x l IH]; cbn [existsb]; [reflexivity|].
  now rewrite IH, (String.eqb_sym a x).
Qed.

(** The [if]-chain files an entry under the category of its issue. *)
Lemma categorize_spec (c : Categories) (issue : JiraIssue) :
  categorize c issue =
  match categoryOf issue with
  | CBreakingChange => pushBreakingChange c (releaseItemOf issue)
  | CDeprecated => pushDeprecated c (releaseItemOf issue)
  | CBugFix => pushBugFix c (releaseItemOf issue)
  | CFeature => pushFeature c (releaseItemOf issue)
  | CImprovement => pushImprovement c (releaseItemOf issue)
  end.
Proof.
  unfold categorize, categoryOf.
  rewrite existsb_either, existsb_one.
  set (type := toLowerCase (issuetype_name (fields issue))).
  unfold arrayIncludes. cbn [existsb]. rewrite !orb_false_r, !orb_assoc.
  destruct (existsb _ (lowerLabels issue)); [reflexivity|].
  destruct (existsb _ (lowerLabels issue)); [reflexivity|].
  destruct ((type =? "bug") || (type =? "defect")); [reflexivity|].
  destruct ((type =? "story") || (type =? "feature") || (type =? "new feature"));
    reflexivity.
Qed.

Lemma releaseLoopBody_categories (st : Categories * list string)
      (issue : JiraIssue) :
  fst (releaseLoopBody st issue) = categorize (fst st) issue.
Proof. destruct st as [c names]. reflexivity. Qed.

Arguments releaseLoopBody : simpl never.

(** The five lists after the loop, from any starting lists. *)
Lemma releaseLoop_from (issues : list JiraIssue) :
  forall st : Categories * list string,
    let c := fst st in
    let c' := fst (fold_left releaseLoopBody issues st) in
    breakingChanges c'
    = (breakingChanges c ++ itemsOf CBreakingChange issues)%list
    /\ deprecated c' = (deprecated c ++ itemsOf CDeprecated issues)%list
    /\ bugFixes c' = (bugFixes c ++ itemsOf CBugFix issues)%list
    /\ features c' = (features c ++ itemsOf CFeature issues)%list
    /\ improvements c' = (improvements c ++ itemsOf CImprovement issues)%list.
Proof.
  induction issues as [|issue issues IH]; intros st; cbn [fold_left].
  - unfold itemsOf. cbn. now rewrite !app_nil_r.
  - specialize (IH (releaseLoopBody st issue)).
    cbv zeta in *. destruct IH as (Hb & Hd & Hg & Hf & Hi).
    rewrite Hb, Hd, Hg, Hf, Hi, releaseLoopBody_categories, categorize_spec.
    unfold itemsOf. cbn [filter].
    destruct (categoryOf issue); cbn; unfold push;
      rewrite <- ?app_assoc; repeat split.
Qed.

(** The categories partition the entries. *)
Lemma itemsOf_partition (issues : list JiraIssue) :
  Permutation
    (itemsOf CBreakingChange issues ++ itemsOf CDeprecated issues
       ++ itemsOf CBugFix issues ++ itemsOf CFeature issues
       ++ itemsOf CImprovement issues)%list
    (map releaseItemOf issues).
Proof.
  unfold itemsOf.
  induction issues as [|issue issues IH]; cbn [filter map].
  - constructor.
  - destruct (categoryOf issue); cbn [Category_eqb map].
    + cbn [app]. now constructor.
    + apply Permutation_sym, Permutation_cons_app. now symmetry.
    + apply Permutation_sym.
      rewrite app_assoc. apply Permutation_cons_app.
      rewrite <- app_assoc. now symmetry.
    + apply Permutation_sym.
      rewrite 2!app_assoc. apply Permutation_cons_app.
      rewrite <- 2!app_assoc. now symmetry.
    + apply Permutation_sym.
      rewrite 3!app_assoc. apply Permutation_cons_app.
      rewrite <- 3!app_assoc. now symmetry.
Qed.

(** C3 (counterexample to the claim as stated). A new feature whose only
    label is "non-breaking" has a label containing "breaking", so the claim
    files it under the breaking changes; the release notes file it under the
    features and list no breaking change. *)
Lemma generateReleaseNotes_label_containing_breaking :
  categoryByContainment nonBreakingIssue = CBreakingChange
  /\ exists notes,
       generateReleaseNotes
         sampleClock (fixedClient offline offline (Ok [nonBreakingIssue]))
         releaseOptions = Ok notes
       /\ breakingChanges (categories notes) = []
       /\ features (categories notes) = [releaseItemOf nonBreakingIssue].
Proof.
  split; [reflexivity|].
  eexists. split; [reflexivity|]. split; reflexivity.
Qed.



(** ** Issue text *)

(** The analysis of a text never fails, whatever the client does. *)
Lemma analyzeIssueText_total (client : JiraClient) (text projectKey : string) :
  exists r, analyzeIssueText client text projectKey = Ok r.
Proof.
  unfold analyzeIssueText.
  destruct (tryCatch_total (searchSimilarIssues client text projectKey) [])
    as [similar Hsimilar].
  rewrite Hsimilar. cbn [bind]. eauto.
Qed.

(** The four inferred fields do not depend on the client. *)
Lemma analyzeIssueText_inferred
      (client : JiraClient) (text projectKey : string)
      (r : SmartIssueAnalysis) :
  analyzeIssueText client text projectKey = Ok r ->
  suggestedType r = suggestTypeOf (toLowerCase text)
  /\ suggestedPriority r = suggestPriorityOf (toLowerCase text)
  /\ suggestedLabels r = suggestLabelsOf (toLowerCase text)
  /\ estimatedStoryPoints r = estimateStoryPointsOf (toLowerCase text).
Proof.
  unfold analyzeIssueText.
  destruct (tryCatch_total (searchSimilarIssues client text projectKey) [])
    as [similar Hsimilar].
  rewrite Hsimilar. cbn [bind]. intros [= <-]. repeat split.
Qed.

(** C9. When the similar-issue search fails, with whatever error, the
    analysis of the text still completes: its list of similar issues is
    empty and the suggested type, priority, labels and story points are the
    ones inferred from the text, the same as with a client whose search
    succeeds.  The search terms are the first three words longer than four
    characters, joined with OR. *)
Theorem analyzeIssueText_search_failure
        (client : JiraClient) (text projectKey : string) (e : string) :
  searchIssues client (similarQuery projectKey (searchTermsOf text)) 5
    = Err e ->
  searchTermsOf text
    = join " OR "
        (firstn 3 (filter (fun w => (4 <? String.length w)%nat)
                          (splitWhiteSpace text)))
  /\ exists r,
       analyzeIssueText client text projectKey = Ok r
       /\ similarIssues r = []
       /\ suggestedType r = suggestTypeOf (toLowerCase text)
       /\ suggestedPriority r = suggestPriorityOf (toLowerCase text)
       /\ suggestedLabels r = suggestLabelsOf (toLowerCase text)
       /\ estimatedStoryPoints r = estimateStoryPointsOf (toLowerCase text)
       /\ forall client' r',
            analyzeIssueText client' text projectKey = Ok r' ->
            suggestedType r' = suggestedType r
            /\ suggestedPriority r' = suggestedPriority r
            /\ suggestedLabels r' = suggestedLabels r
            /\ estimatedStoryPoints r' = estimatedStoryPoints r.
Proof.
  intros Hfail. split; [reflexivity|].
  destruct (analyzeIssueText_total client text projectKey) as [r Hr].
  exists r. split; [exact Hr|].
  destruct (analyzeIssueText_inferred client text projectKey r Hr)
    as (Ht & Hp & Hl & Hs).
  split.
  - revert Hr. unfold analyzeIssueText, searchSimilarIssues.
    destruct (0 <? String.length (searchTermsOf text))%nat.
    + rewrite Hfail. cbn [bind tryCatch]. now intros [= <-].
    + cbn [bind tryCatch]. now intros [= <-].
  - split; [exact Ht|]. split; [exact Hp|]. split; [exact Hl|].
    split; [exact Hs|].
    intros client' r' Hrun'.
    destruct (analyzeIssueText_inferred client' text projectKey r' Hrun')
      as (Ht' & Hp' & Hl' & Hs').
    repeat split; congruence.
Qed.

Lemma analyzeIssueText_search_failure_witness :
  searchIssues (fixedClient offline offline (Err "503 Service Unavailable"))
               (similarQuery "NX" (searchTermsOf outageText)) 5
    = Err "503 Service Unavailable"
  /\ searchTermsOf outageText = "URGENT: OR production OR database"
  /\ exists r,
       analyzeIssueText
         (fixedClient offline offline (Err "503 Service Unavailable"))
         outageText "NX" = Ok r
       /\ similarIssues r = []
       /\ suggestedType r = "Bug"
       /\ suggestedPriority r = "Critical"
       /\ suggestedLabels r = ["backend"]
       /\ estimatedStoryPoints r = 3.
Proof.
  split; [reflexivity|]. split; [reflexivity|].
  destruct (analyzeIssueText_search_failure
              (fixedClient offline offline (Err "503 Service Unavailable"))
              outageText "NX" "503 Service Unavailable" eq_refl)
    as (_ & r & Hrun & Hsimilar & Ht & Hp & Hl & Hs & _).
  exists r. split; [exact Hrun|]. split; [exact Hsimilar|].
  rewrite Ht, Hp, Hl, Hs. repeat split.
Defined.

(** ** Balance score *)

Section Statistics.

Local Open Scope R_scope.

Lemma fold_left_sumR (ws : list nat) :
  forall a : R,
    fold_left (fun a b => a + INR b) ws a = a + sumR (map INR ws).
Proof.
  induction ws as [|w ws IH]; intros a; cbn [fold_left map sumR].
  - ring.
  - rewrite IH. ring.
Qed.

Lemma fold_left_squares (mu : R) (ws : list nat) :
  forall a : R,
    fold_left (fun sum w => sum + (INR w - mu) ^ 2) ws a
    = a + sumR (map (fun w => (INR w - mu) ^ 2) ws).
Proof.
  induction ws as [|w ws IH]; intros a; cbn [fold_left map sumR].
  - ring.
  - rewrite IH. ring.
Qed.

(** The code's average is the mean; for no member both are 0. *)
Lemma avgWorkloadOf_mean (ws : list nat) : avgWorkloadOf ws = mean ws.
Proof.
  unfold avgWorkloadOf, mean. destruct ws as [|w ws].
  - cbn. unfold Rdiv. ring.
  - cbn [List.length Nat.ltb Nat.leb]. rewrite fold_left_sumR.
    now rewrite Rplus_0_l.
Qed.

Lemma varianceOf_populationVariance (ws : list nat) :
  varianceOf ws = populationVariance ws.
Proof.
  unfold varianceOf, populationVariance. rewrite avgWorkloadOf_mean.
  destruct ws as [|w ws].
  - cbn. unfold Rdiv. ring.
  - cbn [List.length Nat.ltb Nat.leb]. rewrite fold_left_squares.
    now rewrite Rplus_0_l.
Qed.

Lemma stdDevOf_populationStdDev (ws : list nat) :
  stdDevOf ws = populationStdDev ws.
Proof.
  unfold stdDevOf, populationStdDev.
  now rewrite varianceOf_populationVariance.
Qed.

Lemma balanceScoreOf_clamp (ws : list nat) :
  balanceScoreOf ws = clamp (100 - 10 * populationStdDev ws) 0 100.
Proof.
  unfold balanceScoreOf, clamp. rewrite stdDevOf_populationStdDev.
  now rewrite (Rmult_comm (populationStdDev ws) 10).
Qed.









Lemma populationStdDev_nonneg (ws : list nat) : 0 <= populationStdDev ws.
Proof. apply sqrt_pos. Qed.

End Statistics.






(** ** Scenarios *)

(** Ten issues, six of them done, one blocked: rate 60, score 95. *)
Example tenIssueSprint_health :
  let m := sprintHealthOf "Sprint 7" 7 tenIssueSprint in
  issueBreakdown m
  = {| total := 10; done := 6; inProgress := 2; todo := 1; blocked := 1 |}
  /\ completionRate (metrics m) = 60%Z
  /\ healthScore m = 95%Z
  /\ healthStatus m = excellent
  /\ risks m = []
  /\ recommendations m = ["Address 1 blocked issue(s) immediately"].
Proof. repeat split. Qed.

(** The completion rate follows the doubles: 29 of 200 is 14.5 percent as a
    fraction, but [29 / 200 * 100] is a double just below 14.5. *)
Example completionRate_29_of_200 :
  computeCompletionRate
    {| total := 200; done := 29; inProgress := 0; todo := 171; blocked := 0 |}
  = 14%Z.
Proof. reflexivity. Qed.

Lemma roundR_spec (x : R) (z : Z) :
  (IZR z - / 2 <= x < IZR z + / 2)%R -> roundR x = z.
Proof.
  intros Hx. unfold roundR. symmetry. apply Int_part_spec. lra.
Qed.

(** The team of the report: average 4.3 and balance score 59, the figures
    the report shows. *)
Lemma reportedWorkloads_scores :
  (IZR (roundR (avgWorkloadOf reportedWorkloads * 10)) / 10 = 43 / 10)%R
  /\ roundR (balanceScoreOf reportedWorkloads) = 59%Z
  /\ map workloadStatusOf reportedWorkloads
     = [overloaded; optimal; optimal; optimal; optimal;
        underutilized; underutilized].
Proof.
  assert (Hmean : (mean reportedWorkloads = 30 / 7)%R).
  { unfold mean, reportedWorkloads. cbn [map sumR List.length INR]. field. }
  assert (Hvar : (populationVariance reportedWorkloads = 808 / 49)%R).
  { unfold populationVariance. rewrite Hmean. unfold reportedWorkloads.
    cbn [map sumR List.length INR]. field. }
  split; [|split; [|reflexivity]].
  - rewrite avgWorkloadOf_mean, Hmean.
    rewrite (roundR_spec _ 43) by lra. reflexivity.
  - rewrite balanceScoreOf_clamp. unfold populationStdDev. rewrite Hvar.
    assert (Hlo : (405 / 100 < sqrt (808 / 49))%R).
    { rewrite <- (sqrt_square (405 / 100)) by lra.
      apply sqrt_lt_1; lra. }
    assert (Hhi : (sqrt (808 / 49) < 415 / 100)%R).
    { rewrite <- (sqrt_square (415 / 100)) by lra.
      apply sqrt_lt_1; lra. }
    apply roundR_spec. unfold clamp.
    rewrite Rmin_right by lra. rewrite Rmax_right by lra. lra.
Qed.

(** ** Time formatting *)

Section Decimal.

(** Decimal numerals: digits only, never empty, one per number. *)
Lemma string_of_uint_digits (d : Decimal.uint) :
  forallb isDigit (list_ascii_of_string (NilEmpty.string_of_uint d)) = true.
Proof. induction d; cbn; auto. Qed.

Lemma natToString_NilEmpty (n : nat) :
  natToString n = NilEmpty.string_of_uint (Nat.to_uint n).
Proof.
  unfold natToString, NilZero.string_of_uint.
  destruct (Nat.to_uint n) eqn:Hd; try reflexivity.
  exfalso. apply (DecimalFacts.unorm_nonnil (Nat.to_uint n)).
  now rewrite <- DecimalNat.Unsigned.to_of, DecimalNat.Unsigned.of_to.
Qed.

Lemma natToString_digits (n : nat) :
  forallb isDigit (list_ascii_of_string (natToString n)) = true.
Proof. rewrite natToString_NilEmpty. apply string_of_uint_digits. Qed.

Lemma natToString_inj (n n' : nat) :
  natToString n = natToString n' -> n = n'.
Proof.
  rewrite !natToString_NilEmpty. intros Heq.
  apply DecimalNat.Unsigned.to_uint_inj.
  apply (f_equal NilEmpty.uint_of_string) in Heq.
  rewrite !NilEmpty.usu in Heq. congruence.
Qed.

(** A numeral followed by a non-digit is read back in one way only. *)
Lemma digits_then_letter (d1 d2 r1 r2 : string) (c1 c2 : ascii) :
  forallb isDigit (list_ascii_of_string d1) = true ->
  forallb isDigit (list_ascii_of_string d2) = true ->
  isDigit c1 = false -> isDigit c2 = false ->
  d1 ++ String c1 r1 = d2 ++ String c2 r2 ->
  d1 = d2 /\ String c1 r1 = String c2 r2.
Proof.
  revert d2. induction d1 as [|a d1 IH]; intros [|b d2]; cbn;
    intros H1 H2 Hc1 Hc2 Heq.
  - auto.
  - injection Heq as -> _. apply andb_true_iff in H2. destruct H2. congruence.
  - injection Heq as -> _. apply andb_true_iff in H1. destruct H1. congruence.
  - injection Heq as -> Hrest.
    apply andb_true_iff in H1. apply andb_true_iff in H2.
    destruct (IH d2 (proj2 H1) (proj2 H2) Hc1 Hc2 Hrest) as [-> Hr].
    auto.
Qed.

End Decimal.

Section FormatTime.

(** Whole hours and the minutes left over. *)
Lemma hours_minutes (s : nat) :
  ((s mod 3600) / 60 < 60
   /\ s / 60 = 60 * (s / 3600) + (s mod 3600) / 60)%nat.
Proof.
  pose proof (Nat.div_mod_eq s 3600) as Hs.
  pose proof (Nat.mod_upper_bound s 3600 ltac:(discriminate)) as Hr.
  pose proof (Nat.div_mod_eq (s mod 3600) 60) as Hm.
  pose proof (Nat.mod_upper_bound (s mod 3600) 60 ltac:(discriminate)) as Hr'.
  split.
  - apply Nat.Div0.div_lt_upper_bound. lia.
  - symmetry. apply (Nat.div_unique s 60 _ ((s mod 3600) mod 60)); lia.
Qed.

(** The text in terms of the hours and minutes alone. *)
Lemma formatTime_hours_minutes (s : nat) :
  formatTime s =
  let hours := (s / 3600)%nat in
  let minutes := ((s mod 3600) / 60)%nat in
  if (0 <? hours)%nat && (0 <? minutes)%nat
  then natToString hours ++ "h " ++ natToString minutes ++ "m"
  else if (0 <? hours)%nat then natToString hours ++ "h"
  else natToString minutes ++ "m".
Proof.
  unfold formatTime. destruct (Nat.eqb_spec s 0) as [->|_]; reflexivity.
Qed.

End FormatTime.

Section FormatTimeReadBack.

Lemma numeral_then (n n' : nat) (c c' : ascii) (r r' : string) :
  isDigit c = false -> isDigit c' = false ->
  natToString n ++ String c r = natToString n' ++ String c' r' ->
  n = n' /\ String c r = String c' r'.
Proof.
  intros Hc Hc' Heq.
  destruct (digits_then_letter _ _ _ _ _ _
              (natToString_digits n) (natToString_digits n') Hc Hc' Heq)
    as [Hn Hr].
  split; [now apply natToString_inj|exact Hr].
Qed.

(** Hours and minutes can be read back from the text. *)
Lemma timeText_inj (h m h' m' : nat) :
  timeText h m = timeText h' m' -> h = h' /\ m = m'.
Proof.
  unfold timeText.
  destruct (Nat.ltb_spec 0 h) as [Hh|Hh]; destruct (Nat.ltb_spec 0 m) as [Hm|Hm];
    destruct (Nat.ltb_spec 0 h') as [Hh'|Hh'];
    destruct (Nat.ltb_spec 0 m') as [Hm'|Hm'];
    cbn [andb append]; intros Heq;
    apply numeral_then in Heq; try reflexivity;
    destruct Heq as [Hfirst Hrest]; try discriminate Hrest;
    try (injection Hrest as Hrest;
         apply numeral_then in Hrest; try reflexivity;
         destruct Hrest as [Hsecond _]);
    split; lia.
Qed.

Lemma formatTime_timeText (s : nat) :
  formatTime s = timeText (s / 3600) ((s mod 3600) / 60).
Proof. apply formatTime_hours_minutes. Qed.

End FormatTimeReadBack.

(** X1. A formatted time shows the whole minutes of the duration and nothing
    else: the seconds below the minute are dropped (anything under a minute
    reads "0m"), and two durations read the same exactly when they have the
    same number of whole minutes. *)
Theorem formatTime_whole_minutes (s s' : nat) :
  formatTime s = formatTime (60 * (s / 60))
  /\ formatTime (s mod 60) = "0m"
  /\ (formatTime s = formatTime s' <-> (s / 60 = s' / 60)%nat).
Proof.
  assert (Hiff : forall a b,
             formatTime a = formatTime b <-> (a / 60 = b / 60)%nat).
  { intros a b. rewrite !formatTime_timeText.
    destruct (hours_minutes a) as [_ Ha]. destruct (hours_minutes b) as [_ Hb].
    split.
    - intros Heq. apply timeText_inj in Heq. lia.
    - intros Heq.
      destruct (hours_minutes a) as [Hma _].
      destruct (hours_minutes b) as [Hmb _].
      assert (a / 3600 = b / 3600 /\ (a mod 3600) / 60 = (b mod 3600) / 60)%nat
        as [-> ->] by lia.
      reflexivity. }
  split; [|split].
  - apply Hiff. rewrite Nat.mul_comm, Nat.div_mul by discriminate. reflexivity.
  - apply (Hiff (s mod 60) 0).
    rewrite Nat.div_small by (apply Nat.mod_upper_bound; discriminate).
    reflexivity.
  - apply Hiff.
Qed.

Lemma formatTime_whole_minutes_witness :
  formatTime 3725 = formatTime 3720
  /\ formatTime 59 = "0m"
  /\ formatTime 3725 = "1h 2m".
Proof.
  destruct (formatTime_whole_minutes 3725 3720) as (_ & _ & Hiff).
  split; [apply Hiff; reflexivity|].
  split; [exact (proj1 (proj2 (formatTime_whole_minutes 59 0)))|].
  reflexivity.
Defined.

(** ** Team worklogs *)


Lemma list_sum_perm (l l' : list nat) :
  Permutation l l' -> list_sum l = list_sum l'.
Proof. induction 1; rewrite ?list_sum_cons; lia. Qed.

Section StableSort.

Context {A : Type} (time : A -> nat).

Lemma insertByTimeDesc_perm (x : A) (l : list A) :
  Permutation (insertByTimeDesc time x l) (x :: l).
Proof.
  induction l as [|y r IH]; cbn [insertByTimeDesc]; [reflexivity|].
  destruct (time x <? time y)%nat; [|reflexivity].
  rewrite IH. apply perm_swap.
Qed.

Lemma sortByTimeDesc_perm (l : list A) : Permutation (sortByTimeDesc time l) l.
Proof.
  unfold sortByTimeDesc.
  induction l as [|x l IH]; cbn [fold_right]; [reflexivity|].
  rewrite insertByTimeDesc_perm. now constructor.
Qed.

Lemma insertByTimeDesc_sorted (x : A) (l : list A) :
  Sorted (notLessTime time) l ->
  Sorted (notLessTime time) (insertByTimeDesc time x l).
Proof.
  induction l as [|y r IH]; intros Hsorted; cbn [insertByTimeDesc].
  - repeat constructor.
  - inversion Hsorted as [|? ? Hr Hhead]; subst.
    destruct (Nat.ltb_spec (time x) (time y)) as [Hlt|Hge].
    + constructor; [apply IH, Hr|].
      destruct r as [|z r']; cbn [insertByTimeDesc].
      * constructor. unfold notLessTime. lia.
      * inversion Hhead; subst.
        destruct (time x <? time z)%nat; constructor; auto.
        unfold notLessTime. lia.
    + constructor; [exact Hsorted|]. constructor. exact Hge.
Qed.

Lemma sortByTimeDesc_sorted (l : list A) :
  Sorted (notLessTime time) (sortByTimeDesc time l).
Proof.
  unfold sortByTimeDesc.
  induction l as [|x l IH]; cbn [fold_right]; [constructor|].
  now apply insertByTimeDesc_sorted.
Qed.

(** Elements of equal time keep their order. *)
Lemma insertByTimeDesc_stable (t : nat) (x : A) (l : list A) :
  filter (fun a => (time a =? t)%nat) (insertByTimeDesc time x l)
  = filter (fun a => (time a =? t)%nat) (x :: l).
Proof.
  induction l as [|y r IH]; cbn [insertByTimeDesc]; [reflexivity|].
  destruct (Nat.ltb_spec (time x) (time y)) as [Hlt|Hge]; [|reflexivity].
  cbn [filter] in *. rewrite IH.
  destruct (Nat.eqb_spec (time x) t) as [Hx|Hx];
    destruct (Nat.eqb_spec (time y) t) as [Hy|Hy]; try reflexivity.
  lia.
Qed.

Lemma sortByTimeDesc_stable (t : nat) (l : list A) :
  filter (fun a => (time a =? t)%nat) (sortByTimeDesc time l)
  = filter (fun a => (time a =? t)%nat) l.
Proof.
  unfold sortByTimeDesc.
  induction l as [|x l IH]; cbn [fold_right]; [reflexivity|].
  rewrite insertByTimeDesc_stable. cbn [filter]. now rewrite IH.
Qed.

Lemma sortByTimeDesc_sum (l : list A) :
  list_sum (map time (sortByTimeDesc time l)) = list_sum (map time l).
Proof.
  apply list_sum_perm, Permutation_map, sortByTimeDesc_perm.
Qed.

End StableSort.

Arguments worklogLoopBody : simpl never.
Arguments formatTime : simpl never.

Section WorklogLoop.

Lemma timeMapGet_In (m : TimeMap) (k : string) :
  timeMapGet m k = None <-> ~ In k (map fst m).
Proof.
  induction m as [|[k' v'] m IH]; cbn [timeMapGet map fst In].
  - tauto.
  - destruct (String.eqb_spec k' k) as [->|Hne].
    + split; [discriminate|]. intros H. elim H. now left.
    + rewrite IH. tauto.
Qed.

Lemma timeMapSet_absent (m : TimeMap) (k : string) (v : nat) :
  timeMapGet m k = None -> timeMapSet m k v = (m ++ [(k, v)])%list.
Proof.
  induction m as [|[k' v'] m IH]; cbn [timeMapGet timeMapSet app];
    [reflexivity|].
  destruct (k' =? k); [discriminate|]. intros Habsent. now rewrite IH.
Qed.

Lemma timeMapSet_keys (m : TimeMap) (k : string) (v v0 : nat) :
  timeMapGet m k = Some v0 -> map fst (timeMapSet m k v) = map fst m.
Proof.
  induction m as [|[k' v'] m IH]; cbn [timeMapGet timeMapSet]; [discriminate|].
  destruct (k' =? k); cbn [map fst]; [reflexivity|].
  intros Hget. now rewrite IH.
Qed.

(** Adding to a user's total adds as much to the sum of all totals. *)
Lemma timeMapSet_sum (m : TimeMap) (k : string) (x : nat) :
  list_sum (map snd (timeMapSet m k (orZero (timeMapGet m k) + x)))
  = list_sum (map snd m) + x.
Proof.
  induction m as [|[k' v'] m IH]; cbn [timeMapGet timeMapSet].
  - cbn. lia.
  - destruct (k' =? k); cbn [map snd orZero]; rewrite !list_sum_cons.
    + lia.
    + rewrite IH. lia.
Qed.

Lemma bookedUnder_owner (name : string) (issue : TrackedIssue) :
  bookedUnder name issue
  = (assigneeOrUnassigned (trackedIssue issue) =? name).
Proof. reflexivity. Qed.

Lemma timeBookedUnder_push (name : string) (seen : list TrackedIssue)
      (issue : TrackedIssue) :
  timeBookedUnder name (seen ++ [issue])
  = timeBookedUnder name seen
    + (if bookedUnder name issue then orZero (timespent issue) else 0).
Proof.
  unfold timeBookedUnder. rewrite filter_push, map_app, list_sum_app.
  destruct (bookedUnder name issue); cbn; lia.
Qed.

(** The totals after one more issue of a user already in the map. *)
Lemma timeMapSet_present (seen : list TrackedIssue) (issue : TrackedIssue)
      (m : TimeMap) :
  let who := assigneeOrUnassigned (trackedIssue issue) in
  In who (map fst m) ->
  NoDup (map fst m) ->
  Forall (fun entry =>
            snd entry = timeBookedUnder (fst entry) seen
            /\ exists i, In i seen /\ bookedUnder (fst entry) i = true) m ->
  Forall (fun entry =>
            snd entry = timeBookedUnder (fst entry) (seen ++ [issue])
            /\ exists i, In i (seen ++ [issue])
                         /\ bookedUnder (fst entry) i = true)
         (timeMapSet m who (orZero (timeMapGet m who)
                            + orZero (timespent issue))).
Proof.
  intros who.
  assert (Hother : forall k v,
    k <> who ->
    (v = timeBookedUnder k seen
     /\ exists i, In i seen /\ bookedUnder k i = true) ->
    v = timeBookedUnder k (seen ++ [issue])
    /\ exists i, In i (seen ++ [issue]) /\ bookedUnder k i = true).
  { intros k v Hk [Hv (i & Hi & Hb)]. split.
    - rewrite timeBookedUnder_push. rewrite bookedUnder_owner. fold who.
      destruct (String.eqb_spec who k); [congruence|]. lia.
    - exists i. split; [apply in_or_app; now left|exact Hb]. }
  induction m as [|[k' v'] m IH]; intros Hin Hkeys Hall;
    cbn [timeMapGet timeMapSet]; [contradiction|].
  cbn [map fst] in Hkeys, Hin.
  inversion Hkeys as [|? ? Hfresh Hrest]; subst.
  inversion Hall as [|? ? Hhead Htail]; subst. cbn [fst snd] in Hhead.
  destruct (String.eqb_spec k' who) as [->|Hne].
  - constructor.
    + cbn [fst snd orZero]. split.
      * rewrite timeBookedUnder_push. rewrite bookedUnder_owner. fold who.
        rewrite String.eqb_refl. destruct Hhead as [-> _]. reflexivity.
      * exists issue. split; [apply in_or_app; right; now left|].
        unfold bookedUnder. fold who. apply String.eqb_refl.
    + apply Forall_forall. intros [k v] Hentry.
      rewrite Forall_forall in Htail. cbn [fst snd].
      apply Hother; [|exact (Htail _ Hentry)].
      intros ->. apply Hfresh. apply in_map_iff. exists (who, v). auto.
  - constructor.
    + cbn [fst snd]. now apply Hother.
    + apply IH; [|exact Hrest|exact Htail].
      destruct Hin as [Hin|Hin]; [congruence|exact Hin].
Qed.

(** One iteration keeps the per-user map in step with the issues seen. *)
Lemma worklogLoopBody_users (seen : list TrackedIssue) (st : WorklogLoop)
      (issue : TrackedIssue) :
  userTimesOf seen (loopUserTimeMap st) ->
  userTimesOf (seen ++ [issue])
              (loopUserTimeMap (worklogLoopBody st issue)).
Proof.
  intros (Hkeys & Hall & Habsent).
  unfold worklogLoopBody. cbn [loopUserTimeMap].
  set (m := loopUserTimeMap st) in *.
  set (who := assigneeOrUnassigned (trackedIssue issue)).
  set (spent := orZero (timespent issue)).
  assert (Hstep : exists m1,
    timeMapSet m who (orZero (timeMapGet m who) + spent) = m1
    /\ NoDup (map fst m1)
    /\ Forall (fun entry =>
                 snd entry = timeBookedUnder (fst entry) (seen ++ [issue])
                 /\ exists i, In i (seen ++ [issue])
                              /\ bookedUnder (fst entry) i = true) m1
    /\ (forall name, In name (map fst m1)
                     <-> name = who \/ In name (map fst m))).
  { destruct (timeMapGet m who) as [v|] eqn:Hget.
    - eexists. split; [reflexivity|].
      assert (Hin : In who (map fst m)).
      { destruct (in_dec string_dec who (map fst m)) as [Hin|Hout];
          [exact Hin|].
        apply timeMapGet_In in Hout. congruence. }
      rewrite (timeMapSet_keys m who _ v Hget). split; [exact Hkeys|].
      split.
      + pose proof (timeMapSet_present seen issue m Hin Hkeys Hall) as Hp.
        cbv zeta in Hp. fold who in Hp. rewrite Hget in Hp. exact Hp.
      + intros name. split; [tauto|]. intros [->|H]; assumption.
    - exists (m ++ [(who, 0 + spent)])%list.
      split; [now apply timeMapSet_absent|].
      rewrite map_app. cbn [map fst]. split; [|split].
      + apply NoDup_app; [exact Hkeys|repeat constructor; intros []|].
        intros x Hx [<-|[]]. now apply timeMapGet_In in Hget.
      + apply Forall_app. split.
        * apply Forall_forall. intros [k v] Hentry.
          rewrite Forall_forall in Hall.
          destruct (Hall _ Hentry) as [Hv (i & Hi & Hb)]. cbn [fst snd] in *.
          assert (Hk : k <> who).
          { intros ->. apply timeMapGet_In in Hget. apply Hget.
            apply in_map_iff. exists (who, v). auto. }
          split.
          -- rewrite timeBookedUnder_push. rewrite bookedUnder_owner.
             fold who. destruct (String.eqb_spec who k); [congruence|]. lia.
          -- exists i. split; [apply in_or_app; now left|exact Hb].
        * constructor; [|constructor]. cbn [fst snd]. split.
          -- rewrite timeBookedUnder_push. unfold timeBookedUnder at 1.
             rewrite (Habsent who Hget), bookedUnder_owner. fold who.
             rewrite String.eqb_refl. reflexivity.
          -- exists issue. split; [apply in_or_app; right; now left|].
             unfold bookedUnder. fold who. apply String.eqb_refl.
      + intros name. rewrite in_app_iff. cbn [In]. intuition. }
  destruct Hstep as (m1 & -> & Hkeys1 & Hall1 & Hnames1).
  split; [exact Hkeys1|]. split; [exact Hall1|].
  intros name Hname. apply timeMapGet_In in Hname. rewrite Hnames1 in Hname.
  rewrite filter_push. rewrite bookedUnder_owner. fold who.
  destruct (String.eqb_spec who name) as [->|Hne]; [tauto|].
  rewrite app_nil_r. apply Habsent, timeMapGet_In. tauto.
Qed.

(** The loop as a whole, from any state. *)
Lemma worklogLoop_from (issues : list TrackedIssue) :
  forall (seen : list TrackedIssue) (st : WorklogLoop),
    userTimesOf seen (loopUserTimeMap st) ->
    let st' := fold_left worklogLoopBody issues st in
    loopIssueBreakdown st'
    = (loopIssueBreakdown st ++ map issueTimeOf issues)%list
    /\ loopTotalTimeLogged st'
       = loopTotalTimeLogged st
         + list_sum (map (fun i => orZero (timespent i)) issues)
    /\ list_sum (map snd (loopUserTimeMap st'))
       = list_sum (map snd (loopUserTimeMap st))
         + list_sum (map (fun i => orZero (timespent i)) issues)
    /\ userTimesOf (seen ++ issues) (loopUserTimeMap st').
Proof.
  induction issues as [|issue issues IH]; intros seen st Hst;
    cbn [fold_left map]; cbv zeta.
  - rewrite !app_nil_r. cbn. repeat split; try lia; apply Hst.
  - destruct (IH (seen ++ [issue])%list (worklogLoopBody st issue)
                (worklogLoopBody_users seen st issue Hst))
      as (Hb & Ht & Hs & Hu).
    cbv zeta in *. rewrite Hb, Ht, Hs, list_sum_cons.
    rewrite <- app_assoc in Hu. cbn [app] in Hu.
    unfold worklogLoopBody at 1 2 3.
    cbn [loopIssueBreakdown loopTotalTimeLogged loopUserTimeMap].
    rewrite timeMapSet_sum. unfold push. rewrite <- app_assoc.
    repeat split; try lia; apply Hu.
Qed.

Lemma worklogLoop_spec (issues : list TrackedIssue) :
  let st := worklogLoop issues in
  loopIssueBreakdown st = map issueTimeOf issues
  /\ loopTotalTimeLogged st
     = list_sum (map (fun i => orZero (timespent i)) issues)
  /\ list_sum (map snd (loopUserTimeMap st))
     = list_sum (map (fun i => orZero (timespent i)) issues)
  /\ userTimesOf issues (loopUserTimeMap st).
Proof.
  unfold worklogLoop.
  refine (worklogLoop_from issues [] _ _).
  cbn [loopUserTimeMap]. repeat split; constructor.
Qed.

End WorklogLoop.

Lemma getTeamWorklogs_fetched (client : WorklogClient)
      (options : TeamWorklogOptions) (issues : list TrackedIssue) :
  searchTrackedIssues client (teamWorklogQuery options) 100 = Ok issues ->
  getTeamWorklogs client options = Ok (teamWorklogsOf issues).
Proof. intros Hfetch. unfold getTeamWorklogs. now rewrite Hfetch. Qed.

(** X2. In the team worklogs the three totals agree: the total time logged
    is the sum of the time spent on the fetched issues (a missing time
    counts 0), the times of the issue breakdown add up to it, and so do the
    times of the user breakdown. *)
Theorem getTeamWorklogs_totals_agree
        (client : WorklogClient) (options : TeamWorklogOptions)
        (issues : list TrackedIssue) :
  searchTrackedIssues client (teamWorklogQuery options) 100 = Ok issues ->
  exists w,
    getTeamWorklogs client options = Ok w
    /\ totalTimeLogged w
       = list_sum (map (fun i => orZero (timespent i)) issues)
    /\ list_sum (map issueTimeSpent (worklogIssueBreakdown w))
       = totalTimeLogged w
    /\ list_sum (map userTimeSpent (userBreakdown w)) = totalTimeLogged w.
Proof.
  intros Hfetch. eexists. split; [apply getTeamWorklogs_fetched, Hfetch|].
  destruct (worklogLoop_spec issues) as (Hb & Ht & Hs & _). cbv zeta in *.
  unfold teamWorklogsOf.
  cbn [totalTimeLogged worklogIssueBreakdown userBreakdown].
  rewrite !sortByTimeDesc_sum, Hb, Ht, !map_map. cbn [issueTimeOf issueTimeSpent].
  repeat (split; [reflexivity|]).
  rewrite <- Hs. reflexivity.
Qed.

Lemma getTeamWorklogs_totals_agree_witness :
  searchTrackedIssues (fixedWorklogClient offline (Ok trackedSample))
                      (teamWorklogQuery noWorklogOptions) 100
    = Ok trackedSample
  /\ exists w,
       getTeamWorklogs (fixedWorklogClient offline (Ok trackedSample))
                       noWorklogOptions = Ok w
       /\ totalTimeLogged w = 1800 + 3600 + 1800 + 2700
       /\ list_sum (map userTimeSpent (userBreakdown w)) = totalTimeLogged w.
Proof.
  split; [reflexivity|].
  destruct (getTeamWorklogs_totals_agree
              (fixedWorklogClient offline (Ok trackedSample))
              noWorklogOptions trackedSample eq_refl)
    as (w & Hrun & Htotal & _ & Husers).
  exists w. split; [exact Hrun|]. split; [exact Htotal|exact Husers].
Defined.

(** X3. Both breakdowns of the team worklogs are in order of decreasing
    time, and the issue breakdown is a stable rearrangement of the entries
    of the fetched issues: every issue has its entry once, and entries of
    equal time keep the order in which the issues were fetched. *)
Theorem getTeamWorklogs_sorted
        (client : WorklogClient) (options : TeamWorklogOptions)
        (issues : list TrackedIssue) :
  searchTrackedIssues client (teamWorklogQuery options) 100 = Ok issues ->
  exists w,
    getTeamWorklogs client options = Ok w
    /\ Sorted (notLessTime issueTimeSpent) (worklogIssueBreakdown w)
    /\ Sorted (notLessTime userTimeSpent) (userBreakdown w)
    /\ Permutation (worklogIssueBreakdown w) (map issueTimeOf issues)
    /\ forall t,
         filter (fun e => (issueTimeSpent e =? t)%nat)
                (worklogIssueBreakdown w)
         = map issueTimeOf
               (filter (fun i => (orZero (timespent i) =? t)%nat) issues).
Proof.
  intros Hfetch. eexists. split; [apply getTeamWorklogs_fetched, Hfetch|].
  destruct (worklogLoop_spec issues) as (Hb & _). cbv zeta in *.
  unfold teamWorklogsOf. cbn [worklogIssueBreakdown userBreakdown].
  rewrite Hb.
  split; [apply sortByTimeDesc_sorted|].
  split; [apply sortByTimeDesc_sorted|].
  split; [apply sortByTimeDesc_perm|].
  intros t. rewrite sortByTimeDesc_stable. clear Hfetch Hb.
  induction issues as [|issue rest IH]; cbn [map filter]; [reflexivity|].
  cbn [issueTimeOf issueTimeSpent] in *.
  destruct (orZero (timespent issue) =? t)%nat; cbn [map];
    now rewrite IH.
Qed.

Lemma getTeamWorklogs_sorted_witness :
  searchTrackedIssues (fixedWorklogClient offline (Ok trackedSample))
                      (teamWorklogQuery noWorklogOptions) 100
    = Ok trackedSample
  /\ exists w,
       getTeamWorklogs (fixedWorklogClient offline (Ok trackedSample))
                       noWorklogOptions = Ok w
       /\ map issueTimeKey (worklogIssueBreakdown w)
          = ["NX-62"; "NX-64"; "NX-61"; "NX-63"]
       /\ Sorted (notLessTime issueTimeSpent) (worklogIssueBreakdown w).
Proof.
  split; [reflexivity|].
  destruct (getTeamWorklogs_sorted
              (fixedWorklogClient offline (Ok trackedSample))
              noWorklogOptions trackedSample eq_refl)
    as (w & Hrun & Hsorted & _).
  exists w. split; [exact Hrun|]. split; [|exact Hsorted].
  injection Hrun as <-. reflexivity.
Defined.



(** ** Doubles that are not negative *)

Section Signs.

Lemma binary_round_aux_notNegative (prec emax mx ex : Z) (lx : location) :
  notNegative (binary_round_aux prec emax false mx ex lx).
Proof.
  unfold notNegative, binary_round_aux. intros s m e.
  destruct (shr_fexp prec emax mx ex lx) as [mrs' e'].
  destruct (shr_fexp prec emax _ e' loc_Exact) as [mrs'' e''].
  destruct (shr_m mrs''); [discriminate| |discriminate].
  destruct (e'' <=? emax - prec)%Z; [|discriminate].
  now intros [= <- _ _].
Qed.

Lemma SFmul_notNegative (prec emax : Z) (x y : spec_float) :
  notNegative x -> notNegative y -> notNegative (SFmul prec emax x y).
Proof.
  intros Hx Hy.
  destruct x as [sx|sx| |sx mx ex]; destruct y as [sy|sy| |sy my ey];
    try (intros s m e; discriminate).
  rewrite (Hx sx mx ex eq_refl), (Hy sy my ey eq_refl).
  apply binary_round_aux_notNegative.
Qed.

Lemma SFdiv_notNegative (prec emax : Z) (x y : spec_float) :
  notNegative x -> notNegative y -> notNegative (SFdiv prec emax x y).
Proof.
  intros Hx Hy.
  destruct x as [sx|sx| |sx mx ex]; destruct y as [sy|sy| |sy my ey];
    try (intros s m e; discriminate).
  rewrite (Hx sx mx ex eq_refl), (Hy sy my ey eq_refl).
  unfold SFdiv.
  destruct (SFdiv_core_binary prec emax (Z.pos mx) ex (Z.pos my) ey)
    as [[mz ez] lz].
  apply binary_round_aux_notNegative.
Qed.

(** A count is converted to a double that is not negative. *)
Lemma floatOfNat_notNegative (n : nat) : notNegative (Prim2SF (floatOfNat n)).
Proof.
  unfold floatOfNat. rewrite of_uint63_spec.
  pose proof (Uint63.to_Z_bounded (Uint63.of_Z (Z.of_nat n))) as [Hlo _].
  unfold binary_normalize.
  destruct (Uint63.to_Z (Uint63.of_Z (Z.of_nat n))) as [|p|p];
    [intros s m e; discriminate| |lia].
  unfold binary_round.
  destruct (shl_align p 0 _) as [mz ez].
  apply binary_round_aux_notNegative.
Qed.

(** Rounding a double that is not negative gives no negative integer. *)
Lemma Math_round_notNegative (x : float) :
  notNegative (Prim2SF x) -> (0 <= Math_round x)%Z.
Proof.
  intros Hx. unfold Math_round.
  destruct (Prim2SF x) as [s|s| |s m e]; try reflexivity.
  rewrite (Hx s m e eq_refl).
  destruct (0 <=? e)%Z eqn:He.
  - apply Z.leb_le in He. apply Z.mul_nonneg_nonneg; [lia|].
    now apply Z.pow_nonneg.
  - apply Z.leb_gt in He. apply Z.div_pos.
    + pose proof (Z.pow_nonneg 2 (- e) ltac:(lia)). lia.
    + apply Z.pow_pos_nonneg; lia.
Qed.

(** The percentage [Math.round((a / b) * 100)] of two counts is never
    negative. *)
Lemma percentage_notNegative (a b : nat) :
  (0 <= Math_round
          (PrimFloat.mul (PrimFloat.div (floatOfNat a) (floatOfNat b))
                         (floatOfNat 100)))%Z.
Proof.
  apply Math_round_notNegative.
  rewrite mul_spec, div_spec.
  apply SFmul_notNegative; [apply SFdiv_notNegative|];
    apply floatOfNat_notNegative.
Qed.

End Signs.

(** ** Issue worklog *)

(** X5. The worklog summary of an issue reports a progress between 0 and
    100 percent whatever times are recorded, and 0 when the issue has no
    original estimate (absent or zero), without forming the quotient; the
    times are the recorded ones with a missing value read as 0, and no
    worklog entry is ever listed. *)
Theorem getIssueWorklog_progress
        (client : WorklogClient) (key : string) (issue : TrackedIssue) :
  getIssue client key = Ok issue ->
  exists w,
    getIssueWorklog client key = Ok w
    /\ (0 <= progress w <= 100)%Z
    /\ (orZero (timeoriginalestimate issue) = 0 -> progress w = 0%Z)
    /\ totalTimeSpent w = orZero (timespent issue)
    /\ totalTimeSpentFormatted w = formatTime (totalTimeSpent w)
    /\ timeEstimate w = orZero (timeoriginalestimate issue)
    /\ remainingEstimate w = orZero (timeestimate issue)
    /\ worklogs w = [].
Proof.
  intros Hfetch. unfold getIssueWorklog. rewrite Hfetch. cbn [bind].
  eexists. split; [reflexivity|].
  cbn [progress totalTimeSpent totalTimeSpentFormatted timeEstimate
       remainingEstimate worklogs].
  split; [|split; [|repeat split]].
  - unfold progressOf.
    destruct (0 <? orZero (timeoriginalestimate issue))%nat; [|lia].
    pose proof (percentage_notNegative
                  (orZero (timespent issue))
                  (orZero (timeoriginalestimate issue))).
    lia.
  - intros Hzero. unfold progressOf. now rewrite Hzero.
Qed.

Lemma getIssueWorklog_progress_witness :
  getIssue (fixedWorklogClient
              (Ok (trackedSampleIssue "NX-61" (Some "Asha") (Some 1800)))
              offline) "NX-61"
    = Ok (trackedSampleIssue "NX-61" (Some "Asha") (Some 1800))
  /\ orZero (timeoriginalestimate
               {| trackedIssue := closedOrphan; timespent := Some 1800;
                  timeoriginalestimate := None; timeestimate := None |}) = 0
  /\ exists w w',
       getIssueWorklog
         (fixedWorklogClient
            (Ok (trackedSampleIssue "NX-61" (Some "Asha") (Some 1800)))
            offline) "NX-61" = Ok w
       /\ progress w = 50%Z
       /\ (0 <= progress w <= 100)%Z
       /\ getIssueWorklog
            (fixedWorklogClient
               (Ok {| trackedIssue := closedOrphan; timespent := Some 1800;
                      timeoriginalestimate := None; timeestimate := None |})
               offline) "NX-9" = Ok w'
       /\ progress w' = 0%Z.
Proof.
  split; [reflexivity|]. split; [reflexivity|].
  destruct (getIssueWorklog_progress
              (fixedWorklogClient
                 (Ok (trackedSampleIssue "NX-61" (Some "Asha") (Some 1800)))
                 offline) "NX-61" _ eq_refl)
    as (w & Hrun & Hrange & _).
  destruct (getIssueWorklog_progress
              (fixedWorklogClient
                 (Ok {| trackedIssue := closedOrphan; timespent := Some 1800;
                        timeoriginalestimate := None; timeestimate := None |})
                 offline) "NX-9" _ eq_refl)
    as (w' & Hrun' & _ & Hzero & _).
  exists w, w'. split; [exact Hrun|]. split.
  { injection Hrun as <-. reflexivity. }
  split; [exact Hrange|]. split; [exact Hrun'|].
  apply Hzero. reflexivity.
Defined.

(** ** Bounds of the health score *)

(** The completion rate is never negative. *)
Lemma computeCompletionRate_notNegative (b : IssueBreakdown) :
  (0 <= computeCompletionRate b)%Z.
Proof.
  unfold computeCompletionRate.
  destruct (0 <? total b)%nat; [apply percentage_notNegative|lia].
Qed.

(** X6. The blocked issues bound the health score from both sides: with
    [b] blocked issues the score is at least [max(0, 30 - 5 b)] and at most
    [max(0, 100 - 5 b)].  So a sprint with 5 blocked issues is never
    excellent, one with 13 is critical, one with 20 scores 0, and a sprint
    without blocked issues never scores below 30. *)
Theorem analyzeSprintHealth_score_bounds
        (client : JiraClient) (id : Z) (boardId : option Z)
        (issues : list JiraIssue) :
  getSprintIssues client id = Ok issues ->
  exists m,
    analyzeSprintHealth client id boardId = Ok m
    /\ (Z.max 0 (30 - 5 * Z.of_nat (blocked (issueBreakdown m)))
        <= healthScore m
        <= Z.max 0 (100 - 5 * Z.of_nat (blocked (issueBreakdown m))))%Z
    /\ (5 <= blocked (issueBreakdown m) -> healthStatus m <> excellent)
    /\ (13 <= blocked (issueBreakdown m) -> healthStatus m = critical)
    /\ (20 <= blocked (issueBreakdown m) -> healthScore m = 0%Z)
    /\ (blocked (issueBreakdown m) = 0 -> (30 <= healthScore m)%Z).
Proof.
  intros Hfetch.
  destruct (analyzeSprintHealth_fetched client id boardId issues Hfetch)
    as [name Hrun].
  exists (sprintHealthOf name id issues). split; [exact Hrun|].
  cbn [healthScore healthStatus issueBreakdown sprintHealthOf].
  set (bd := loop_breakdown (sprintLoop issues)).
  pose proof (computeCompletionRate_notNegative bd) as Hrate.
  set (rate := computeCompletionRate bd) in *.
  set (score := clampScore _).
  assert (Hscore :
    (Z.max 0 (30 - 5 * Z.of_nat (blocked bd)) <= score
     <= Z.max 0 (100 - 5 * Z.of_nat (blocked bd)))%Z).
  { subst score. unfold clampScore.
    destruct (wipOverload _ _);
      destruct ((done bd <? todo bd)%nat && (rate <? 50)%Z); lia. }
  split; [exact Hscore|].
  unfold healthStatusOf.
  destruct (80 <=? score)%Z eqn:H80; [apply Z.leb_le in H80|apply Z.leb_gt in H80];
    (destruct (60 <=? score)%Z eqn:H60;
       [apply Z.leb_le in H60|apply Z.leb_gt in H60]);
    (destruct (40 <=? score)%Z eqn:H40;
       [apply Z.leb_le in H40|apply Z.leb_gt in H40]);
    repeat split; intros; try discriminate; try reflexivity; lia.
Qed.

Lemma analyzeSprintHealth_score_bounds_witness :
  getSprintIssues (fixedClient (Ok twentyBlocked) offline offline) 7
    = Ok twentyBlocked
  /\ getSprintIssues (fixedClient (Ok []) offline offline) 7 = Ok []
  /\ exists m m',
       analyzeSprintHealth (fixedClient (Ok twentyBlocked) offline offline)
                           7 None = Ok m
       /\ analyzeSprintHealth (fixedClient (Ok []) offline offline) 7 None
          = Ok m'
       /\ blocked (issueBreakdown m) = 20
       /\ healthStatus m <> excellent
       /\ healthStatus m = critical
       /\ healthScore m = 0%Z
       /\ blocked (issueBreakdown m') = 0
       /\ (30 <= healthScore m')%Z.
Proof.
  split; [reflexivity|]. split; [reflexivity|].
  destruct (analyzeSprintHealth_score_bounds
              (fixedClient (Ok twentyBlocked) offline offline) 7 None
              twentyBlocked eq_refl)
    as (m & Hrun & _ & Hfive & Hthirteen & Htwenty & _).
  destruct (analyzeSprintHealth_score_bounds
              (fixedClient (Ok []) offline offline) 7 None [] eq_refl)
    as (m' & Hrun' & _ & _ & _ & _ & Hnone).
  exists m, m'. split; [exact Hrun|]. split; [exact Hrun'|].
  assert (Hblocked : blocked (issueBreakdown m) = 20).
  { injection Hrun as <-. reflexivity. }
  assert (Hblocked' : blocked (issueBreakdown m') = 0).
  { injection Hrun' as <-. reflexivity. }
  split; [exact Hblocked|].
  split; [apply Hfive; rewrite Hblocked; repeat constructor|].
  split; [apply Hthirteen; rewrite Hblocked; repeat constructor|].
  split; [apply Htwenty; rewrite Hblocked; repeat constructor|].
  split; [exact Hblocked'|]. apply Hnone, Hblocked'.
Defined.

(** ** Strings: lengths and prefixes *)

Section Strings.

Lemma length_append (s t : string) :
  String.length (s ++ t) = String.length s + String.length t.
Proof. induction s as [|c s IH]; cbn; [reflexivity|now rewrite IH]. Qed.

Lemma length_substring0 (n : nat) (s : string) :
  String.length (substring 0 n s) = Nat.min n (String.length s).
Proof.
  revert s. induction n as [|n IH]; intros [|c s]; cbn; try reflexivity.
  now rewrite IH.
Qed.

Lemma substring0_prefix (n : nat) (s : string) :
  prefix (substring 0 n s) s = true.
Proof.
  revert s. induction n as [|n IH]; intros [|c s]; cbn; try reflexivity.
  destruct (ascii_dec c c); [apply IH|congruence].
Qed.

Lemma substring0_all (n : nat) (s : string) :
  String.length s <= n -> substring 0 n s = s.
Proof.
  revert s. induction n as [|n IH]; intros [|c s]; cbn; intros Hlen;
    try reflexivity; try lia.
  rewrite IH by lia. reflexivity.
Qed.


End Strings.

(** ** Smart issue creation *)

Section SmartSummary.



(** A text without sentence end is its own first sentence. *)
Lemma firstSentenceOf_whole (text : string) :
  forallb (fun c => negb (isSentenceEnd c)) (list_ascii_of_string text) = true ->
  firstSentenceOf text = text.
Proof.
  induction text as [|c text IH]; cbn; [reflexivity|].
  destruct (isSentenceEnd c); cbn; [discriminate|].
  intros Hrest. now rewrite IH.
Qed.

End SmartSummary.



(** X8. Creating a smart issue makes exactly one creation request and its
    outcome is that of this request: the text analysis never fails (a failed
    similar-issue search included), so the operation returns the new key
    with the analysis when the request succeeds and fails with the
    request's error otherwise.  In the request the description is the whole
    text, the type and priority are the overrides when these are present
    and not empty and the suggested ones otherwise, and the labels are the
    override list whenever one is given, even an empty one. *)
Theorem createSmartIssue_outcome
        (client : JiraClient) (writer : IssueWriter) (text projectKey : string)
        (overrides : SmartIssueOverrides) :
  exists analysis,
    analyzeIssueText client text projectKey = Ok analysis
    /\ createSmartIssue client writer text projectKey overrides
       = match createIssue writer
                 (smartIssuePayload text projectKey overrides analysis) with
         | Ok newKey => Ok (newKey, analysis)
         | Err e => Err e
         end
    /\ payloadDescription
         (smartIssuePayload text projectKey overrides analysis) = Some text
    /\ (forall t, overrideType overrides = Some t -> t <> "" ->
                  payloadIssueType
                    (smartIssuePayload text projectKey overrides analysis) = t)
    /\ (overrideType overrides = None \/ overrideType overrides = Some "" ->
        payloadIssueType
          (smartIssuePayload text projectKey overrides analysis)
        = suggestTypeOf (toLowerCase text))
    /\ (forall p, overridePriority overrides = Some p -> p <> "" ->
                  payloadPriority
                    (smartIssuePayload text projectKey overrides analysis)
                  = Some p)
    /\ (overridePriority overrides = None
        \/ overridePriority overrides = Some "" ->
        payloadPriority
          (smartIssuePayload text projectKey overrides analysis)
        = Some (suggestPriorityOf (toLowerCase text)))
    /\ (forall ls, overrideLabels overrides = Some ls ->
                   payloadLabels
                     (smartIssuePayload text projectKey overrides analysis)
                   = Some ls)
    /\ (overrideLabels overrides = None ->
        payloadLabels
          (smartIssuePayload text projectKey overrides analysis)
        = Some (suggestLabelsOf (toLowerCase text))).
Proof.
  destruct (analyzeIssueText_total client text projectKey) as [analysis Hrun].
  destruct (analyzeIssueText_inferred client text projectKey analysis Hrun)
    as (Ht & Hp & Hl & _).
  exists analysis. split; [exact Hrun|].
  split.
  { unfold createSmartIssue. rewrite Hrun. cbn [bind].
    destruct (createIssue writer _); reflexivity. }
  split; [reflexivity|].
  cbn [smartIssuePayload payloadIssueType payloadPriority payloadLabels].
  rewrite <- Ht, <- Hp, <- Hl.
  repeat split.
  - intros t -> Hne. destruct t; [congruence|reflexivity].
  - intros [->| ->]; reflexivity.
  - intros p -> Hne. destruct p; [congruence|reflexivity].
  - intros [->| ->]; reflexivity.
  - now intros ls ->.
  - now intros ->.
Qed.

Lemma createSmartIssue_outcome_witness :
  createSmartIssue (fixedClient offline offline offline)
                   (acceptingWriter "NX-100") outageText "NX"
                   {| overrideType := Some "Incident";
                      overridePriority := Some "";
                      overrideLabels := Some [];
                      overrideAssignee := None |}
  = Ok ("NX-100",
        {| suggestedType := "Bug"; suggestedPriority := "Critical";
           suggestedLabels := ["backend"]; suggestedComponents := [];
           estimatedStoryPoints := 3; similarIssues := [];
           suggestions := ["Add steps to reproduce the bug"] |})
  /\ createSmartIssue (fixedClient offline offline offline)
                      (refusingWriter "403 Forbidden") outageText "NX"
                      noOverrides
     = Err "403 Forbidden"
  /\ exists analysis,
       analyzeIssueText (fixedClient offline offline offline) outageText "NX"
       = Ok analysis
       /\ smartIssuePayload outageText "NX"
            {| overrideType := Some "Incident";
               overridePriority := Some "";
               overrideLabels := Some [];
               overrideAssignee := None |} analysis
          = {| payloadProjectKey := "NX";
               payloadSummary := outageText;
               payloadDescription := Some outageText;
               payloadIssueType := "Incident";
               payloadPriority := Some "Critical";
               payloadAssigneeId := None;
               payloadLabels := Some [] |}.
Proof.
  split; [reflexivity|]. split; [reflexivity|].
  destruct (createSmartIssue_outcome
              (fixedClient offline offline offline) (acceptingWriter "NX-100")
              outageText "NX"
              {| overrideType := Some "Incident";
                 overridePriority := Some "";
                 overrideLabels := Some [];
                 overrideAssignee := None |})
    as (analysis & Hrun & _ & _ & Htype & _ & _ & Hprio & Hlabels & _).
  exists analysis. split; [exact Hrun|].
  pose proof (Htype "Incident" eq_refl ltac:(discriminate)) as Ht.
  pose proof (Hprio (or_intror eq_refl)) as Hp.
  pose proof (Hlabels [] eq_refl) as Hl.
  cbn [smartIssuePayload payloadIssueType payloadPriority payloadLabels
       overrideType overridePriority overrideLabels overrideAssignee]
    in *.
  injection Hrun as <-. reflexivity.
Defined.

(** ** Text classification *)

Section Classifier.

(** A loop that pushes the chosen elements builds [filter]. *)
Lemma fold_left_push_filter {A B : Type} (keep : A -> bool) (f : A -> B)
      (l : list A) :
  forall acc : list B,
    fold_left (fun acc x => if keep x then push acc (f x) else acc) l acc
    = (acc ++ map f (filter keep l))%list.
Proof.
  induction l as [|x l IH]; intros acc; cbn [fold_left filter map].
  - now rewrite app_nil_r.
  - rewrite IH. destruct (keep x); [|reflexivity].
    unfold push. cbn [map]. now rewrite <- app_assoc.
Qed.

(** The suggested labels are the names of the matching patterns, in the
    order of the table. *)
Lemma suggestLabelsOf_filter (textLower : string) :
  suggestLabelsOf textLower
  = map fst (filter (fun entry => someIncluded textLower (snd entry))
                    labelPatterns).
Proof. unfold suggestLabelsOf. now rewrite fold_left_push_filter. Qed.

Lemma NoDup_map_filter {A B : Type} (f : A -> B) (keep : A -> bool)
      (l : list A) :
  NoDup (map f l) -> NoDup (map f (filter keep l)).
Proof.
  induction l as [|x l IH]; cbn [map filter]; [auto|].
  intros Hnodup. inversion Hnodup as [|? ? Hfresh Hrest]; subst.
  destruct (keep x); cbn [map]; [|auto].
  constructor; [|auto]. intros Hin. apply Hfresh.
  apply in_map_iff in Hin. destruct Hin as (y & Hy & Hin).
  apply filter_In in Hin. apply in_map_iff. exists y. tauto.
Qed.

Lemma toLowerCaseUnit_idempotent (c : ascii) :
  toLowerCaseUnit (toLowerCaseUnit c) = toLowerCaseUnit c.
Proof.
  destruct c as [[|] [|] [|] [|] [|] [|] [|] [|]]; reflexivity.
Qed.

Lemma toLowerCase_idempotent (s : string) :
  toLowerCase (toLowerCase s) = toLowerCase s.
Proof.
  induction s as [|c s IH]; cbn [toLowerCase]; [reflexivity|].
  now rewrite toLowerCaseUnit_idempotent, IH.
Qed.

Lemma toLowerCase_append (s t : string) :
  toLowerCase (s ++ t) = toLowerCase s ++ toLowerCase t.
Proof.
  induction s as [|c s IH]; cbn [toLowerCase append]; [reflexivity|].
  now rewrite IH.
Qed.

Lemma toLowerCase_length (s : string) :
  String.length (toLowerCase s) = String.length s.
Proof. induction s as [|c s IH]; cbn; [reflexivity|now rewrite IH]. Qed.

(** Containment survives text added in front and behind. *)
Lemma prefix_empty (s : string) : prefix "" s = true.
Proof. destruct s; reflexivity. Qed.

Lemma prefix_append (k s t : string) :
  prefix k s = true -> prefix k (s ++ t) = true.
Proof.
  revert k. induction s as [|c s IH]; intros [|a k]; cbn [append];
    intros Hp; try apply prefix_empty.
  - cbn in Hp. destruct (string_dec (String a k) ""); discriminate.
  - cbn in *. destruct (ascii_dec a c); [now apply IH|discriminate].
Qed.

Lemma includes_append_r (s t k : string) :
  includes s k = true -> includes (s ++ t) k = true.
Proof.
  induction s as [|c s IH]; cbn [includes append].
  - rewrite orb_false_r. intros Hp.
    assert (k = "") as ->.
    { destruct k as [|a k]; [reflexivity|]. cbn in Hp.
      destruct (string_dec (String a k) ""); discriminate. }
    destruct t; reflexivity.
  - intros Hin. apply orb_true_iff in Hin. apply orb_true_iff.
    destruct Hin as [Hp|Hin].
    + left. now apply (prefix_append k (String c s) t).
    + right. now apply IH.
Qed.

Lemma includes_append_l (p s k : string) :
  includes s k = true -> includes (p ++ s) k = true.
Proof.
  intros Hin. induction p as [|c p IH]; cbn [includes append]; [exact Hin|].
  rewrite IH. apply orb_true_r.
Qed.

Lemma someIncluded_extend (before text after : string) (keywords : list string) :
  someIncluded text keywords = true ->
  someIncluded (before ++ text ++ after) keywords = true.
Proof.
  unfold someIncluded. rewrite !existsb_exists.
  intros (k & Hk & Hin). exists k. split; [exact Hk|].
  now apply includes_append_l, includes_append_r.
Qed.

End Classifier.

(** X9. Whatever the text and the client, the analysis of a text suggests
    13, 8, 1 or 3 story points, one of the priorities Critical, High, Low
    and Medium, one of the types Epic, Story, Bug, Improvement and Task, no
    component, and labels that are a selection without repetition of the
    seven label names, in the order frontend, backend, infrastructure,
    security, performance, documentation, testing. *)
Theorem analyzeIssueText_ranges
        (client : JiraClient) (text projectKey : string) :
  exists r,
    analyzeIssueText client text projectKey = Ok r
    /\ In (estimatedStoryPoints r) [13; 8; 1; 3]
    /\ In (suggestedPriority r) ["Critical"; "High"; "Low"; "Medium"]
    /\ In (suggestedType r) ["Epic"; "Story"; "Bug"; "Improvement"; "Task"]
    /\ suggestedComponents r = []
    /\ NoDup (suggestedLabels r)
    /\ exists keep,
         suggestedLabels r
         = filter keep
             ["frontend"; "backend"; "infrastructure"; "security";
              "performance"; "documentation"; "testing"].
Proof.
  destruct (analyzeIssueText_total client text projectKey) as [r Hrun].
  destruct (analyzeIssueText_inferred client text projectKey r Hrun)
    as (Ht & Hp & Hl & Hs).
  exists r. split; [exact Hrun|].
  rewrite Ht, Hp, Hl, Hs, suggestLabelsOf_filter.
  set (low := toLowerCase text).
  split.
  { unfold estimateStoryPointsOf.
    destruct (someIncluded low hugeIndicators); [cbn; tauto|].
    destruct (someIncluded low complexIndicators); [cbn; tauto|].
    destruct (someIncluded low simpleIndicators); cbn; tauto. }
  split.
  { unfold suggestPriorityOf.
    destruct (someIncluded low urgentKeywords); [cbn; tauto|].
    destruct (someIncluded low highKeywords); [cbn; tauto|].
    destruct (someIncluded low lowKeywords); cbn; tauto. }
  split.
  { unfold suggestTypeOf.
    destruct (someIncluded low epicKeywords); [cbn; tauto|].
    destruct (someIncluded low storyKeywords); [cbn; tauto|].
    destruct (someIncluded low bugKeywords); [cbn; tauto|].
    destruct (someIncluded low featureKeywords); [cbn; tauto|].
    destruct (someIncluded low improvementKeywords); cbn; tauto. }
  split.
  { revert Hrun. unfold analyzeIssueText.
    destruct (tryCatch _ _); cbn [bind]; [|discriminate].
    now intros [= <-]. }
  split.
  { apply NoDup_map_filter. cbn.
    repeat (constructor; [cbn; intuition discriminate|]). constructor. }
  exists (fun name =>
            existsb (fun entry =>
                       (fst entry =? name)
                       && someIncluded low (snd entry)) labelPatterns).
  unfold labelPatterns. cbn [filter map fst snd existsb].
  repeat match goal with
         | |- context [someIncluded low ?ks] =>
             destruct (someIncluded low ks)
         end; reflexivity.
Qed.

Lemma analyzeIssueText_inferredFields
      (client : JiraClient) (text projectKey : string)
      (r : SmartIssueAnalysis) :
  analyzeIssueText client text projectKey = Ok r ->
  inferredFields r
  = (suggestTypeOf (toLowerCase text), suggestPriorityOf (toLowerCase text),
     suggestLabelsOf (toLowerCase text),
     estimateStoryPointsOf (toLowerCase text)).
Proof.
  intros Hrun.
  destruct (analyzeIssueText_inferred client text projectKey r Hrun)
    as (Ht & Hp & Hl & Hs).
  unfold inferredFields. now rewrite Ht, Hp, Hl, Hs.
Qed.

(** X10. The classification does not depend on letter case: two texts that
    agree once lower-cased get the same suggested type, priority, labels and
    story points, whatever the clients and projects; in particular a text
    and its lower-cased form do. *)
Theorem analyzeIssueText_case_insensitive
        (client client' : JiraClient) (text text' projectKey projectKey' : string) :
  (toLowerCase text = toLowerCase text' ->
   exists r r',
     analyzeIssueText client text projectKey = Ok r
     /\ analyzeIssueText client' text' projectKey' = Ok r'
     /\ inferredFields r = inferredFields r')
  /\ exists r r',
       analyzeIssueText client text projectKey = Ok r
       /\ analyzeIssueText client' (toLowerCase text) projectKey' = Ok r'
       /\ inferredFields r = inferredFields r'.
Proof.
  assert (Hgen : forall t t',
    toLowerCase t = toLowerCase t' ->
    exists r r',
      analyzeIssueText client t projectKey = Ok r
      /\ analyzeIssueText client' t' projectKey' = Ok r'
      /\ inferredFields r = inferredFields r').
  { intros t t' Hsame.
    destruct (analyzeIssueText_total client t projectKey) as [r Hr].
    destruct (analyzeIssueText_total client' t' projectKey') as [r' Hr'].
    exists r, r'. split; [exact Hr|]. split; [exact Hr'|].
    rewrite (analyzeIssueText_inferredFields _ _ _ _ Hr),
      (analyzeIssueText_inferredFields _ _ _ _ Hr'), Hsame.
    reflexivity. }
  split; [apply Hgen|].
  apply Hgen. symmetry. apply toLowerCase_idempotent.
Qed.

Lemma analyzeIssueText_case_insensitive_witness :
  toLowerCase "URGENT bug in login" = toLowerCase "urgent Bug in Login"
  /\ exists r r',
       analyzeIssueText (fixedClient offline offline offline)
                        "URGENT bug in login" "NX" = Ok r
       /\ analyzeIssueText (fixedClient offline offline (Ok sampleSprint))
                           "urgent Bug in Login" "OPS" = Ok r'
       /\ inferredFields r = inferredFields r'
       /\ inferredFields r = ("Bug", "Critical", [], 3).
Proof.
  split; [reflexivity|].
  destruct (proj1 (analyzeIssueText_case_insensitive
                     (fixedClient offline offline offline)
                     (fixedClient offline offline (Ok sampleSprint))
                     "URGENT bug in login" "urgent Bug in Login" "NX" "OPS")
                  eq_refl)
    as (r & r' & Hr & Hr' & Hsame).
  exists r, r'. split; [exact Hr|]. split; [exact Hr'|].
  split; [exact Hsame|]. injection Hr as <-. reflexivity.
Defined.

(** X11. Adding text in front of or behind a text never takes a suggestion
    of the highest rank away: every label suggested for the text is
    suggested for the longer text, an Epic stays an Epic, a Critical
    priority stays Critical and 13 story points stay 13. *)
Theorem analyzeIssueText_extension
        (client : JiraClient) (before text after projectKey : string) :
  exists r r',
    analyzeIssueText client text projectKey = Ok r
    /\ analyzeIssueText client (before ++ text ++ after) projectKey = Ok r'
    /\ incl (suggestedLabels r) (suggestedLabels r')
    /\ (suggestedType r = "Epic" -> suggestedType r' = "Epic")
    /\ (suggestedPriority r = "Critical" -> suggestedPriority r' = "Critical")
    /\ (estimatedStoryPoints r = 13 -> estimatedStoryPoints r' = 13).
Proof.
  destruct (analyzeIssueText_total client text projectKey) as [r Hr].
  destruct (analyzeIssueText_total client (before ++ text ++ after)
                                   projectKey) as [r' Hr'].
  exists r, r'. split; [exact Hr|]. split; [exact Hr'|].
  destruct (analyzeIssueText_inferred _ _ _ _ Hr) as (Ht & Hp & Hl & Hs).
  destruct (analyzeIssueText_inferred _ _ _ _ Hr') as (Ht' & Hp' & Hl' & Hs').
  rewrite Ht, Hp, Hl, Hs, Ht', Hp', Hl', Hs', !toLowerCase_append.
  set (low := toLowerCase text).
  set (pre := toLowerCase before). set (post := toLowerCase after).
  pose proof (someIncluded_extend pre low post) as Hext.
  split; [|split; [|split]].
  - rewrite !suggestLabelsOf_filter. intros name Hin.
    apply in_map_iff in Hin. destruct Hin as (entry & <- & Hin).
    apply filter_In in Hin. destruct Hin as [Hentry Hmatch].
    apply in_map, filter_In. split; [exact Hentry|]. now apply Hext.
  - unfold suggestTypeOf.
    destruct (someIncluded low epicKeywords) eqn:He.
    + now rewrite (Hext _ He).
    + destruct (someIncluded low storyKeywords); [discriminate|].
      destruct (someIncluded low bugKeywords); [discriminate|].
      destruct (someIncluded low featureKeywords); [discriminate|].
      destruct (someIncluded low improvementKeywords); discriminate.
  - unfold suggestPriorityOf.
    destruct (someIncluded low urgentKeywords) eqn:He.
    + now rewrite (Hext _ He).
    + destruct (someIncluded low highKeywords); [discriminate|].
      destruct (someIncluded low lowKeywords); discriminate.
  - unfold estimateStoryPointsOf.
    destruct (someIncluded low hugeIndicators) eqn:He.
    + now rewrite (Hext _ He).
    + destruct (someIncluded low complexIndicators); [discriminate|].
      destruct (someIncluded low simpleIndicators); discriminate.
Qed.

Lemma analyzeIssueText_extension_witness :
  exists r r',
    analyzeIssueText (fixedClient offline offline offline)
                     "Urgent epic: full migration of the API" "NX" = Ok r
    /\ analyzeIssueText (fixedClient offline offline offline)
                        ("Minor typo. "
                           ++ "Urgent epic: full migration of the API"
                           ++ " Low priority!") "NX" = Ok r'
    /\ suggestedType r = "Epic" /\ suggestedType r' = "Epic"
    /\ suggestedPriority r = "Critical" /\ suggestedPriority r' = "Critical"
    /\ estimatedStoryPoints r = 13 /\ estimatedStoryPoints r' = 13
    /\ incl (suggestedLabels r) (suggestedLabels r').
Proof.
  destruct (analyzeIssueText_extension
              (fixedClient offline offline offline)
              "Minor typo. " "Urgent epic: full migration of the API"
              " Low priority!" "NX")
    as (r & r' & Hr & Hr' & Hlabels & Hepic & Hcritical & Hpoints).
  exists r, r'. split; [exact Hr|]. split; [exact Hr'|].
  assert (Htype : suggestedType r = "Epic").
  { injection Hr as <-. reflexivity. }
  assert (Hprio : suggestedPriority r = "Critical").
  { injection Hr as <-. reflexivity. }
  assert (Hp : estimatedStoryPoints r = 13).
  { injection Hr as <-. reflexivity. }
  split; [exact Htype|]. split; [exact (Hepic Htype)|].
  split; [exact Hprio|]. split; [exact (Hcritical Hprio)|].
  split; [exact Hp|]. split; [exact (Hpoints Hp)|]. exact Hlabels.
Defined.

(** ** Search terms *)

Section SplitWhiteSpace.

Lemma list_ascii_of_string_append (s t : string) :
  list_ascii_of_string (s ++ t)
  = (list_ascii_of_string s ++ list_ascii_of_string t)%list.
Proof. induction s as [|c s IH]; cbn; [reflexivity|now rewrite IH]. Qed.

Lemma splitWhiteSpaceFrom_nonempty (cur : string) (afterSpace : bool)
      (s : string) :
  splitWhiteSpaceFrom cur afterSpace s <> [].
Proof.
  revert cur afterSpace.
  induction s as [|c s IH]; intros cur afterSpace; cbn [splitWhiteSpaceFrom].
  - discriminate.
  - destruct (isWhiteSpace c); [destruct afterSpace|]; try apply IH.
    discriminate.
Qed.

Lemma join_cons (sep x : string) (l : list string) :
  l <> [] -> join sep (x :: l) = x ++ sep ++ join sep l.
Proof. destruct l; [congruence|reflexivity]. Qed.

(** No piece holds white space. *)
Lemma splitWhiteSpaceFrom_plain (s : string) :
  forall (cur : string) (afterSpace : bool),
    noWhiteSpace cur ->
    Forall noWhiteSpace (splitWhiteSpaceFrom cur afterSpace s).
Proof.
  unfold noWhiteSpace.
  induction s as [|c s IH]; intros cur afterSpace Hcur;
    cbn [splitWhiteSpaceFrom].
  - repeat constructor. exact Hcur.
  - destruct (isWhiteSpace c) eqn:Hc.
    + destruct afterSpace; [now apply IH|].
      constructor; [exact Hcur|]. now apply IH.
    + apply IH. rewrite list_ascii_of_string_append, forallb_app, Hcur.
      cbn. now rewrite Hc.
Qed.

(** The pieces put together are the text without its white space. *)
Lemma splitWhiteSpaceFrom_join (s : string) :
  forall (cur : string) (afterSpace : bool),
    list_ascii_of_string (join "" (splitWhiteSpaceFrom cur afterSpace s))
    = (list_ascii_of_string cur
       ++ filter (fun c => negb (isWhiteSpace c)) (list_ascii_of_string s))%list.
Proof.
  induction s as [|c s IH]; intros cur afterSpace;
    cbn [splitWhiteSpaceFrom list_ascii_of_string filter].
  - cbn. now rewrite app_nil_r.
  - destruct (isWhiteSpace c) eqn:Hc; cbn [negb].
    + destruct afterSpace; [apply IH|].
      rewrite join_cons by apply splitWhiteSpaceFrom_nonempty.
      rewrite !list_ascii_of_string_append, IH. reflexivity.
    + rewrite IH, list_ascii_of_string_append, <- app_assoc. reflexivity.
Qed.

Lemma firstn_In {A : Type} (n : nat) (l : list A) (x : A) :
  In x (firstn n l) -> In x l.
Proof.
  revert l. induction n as [|n IH]; intros [|y l]; cbn; try tauto.
  intros [->|Hin]; [now left|right; now apply IH].
Qed.

Lemma join_empty (sep : string) (l : list string) :
  Forall (fun w => 0 < String.length w) l ->
  join sep l = "" -> l = [].
Proof.
  intros Hl Hjoin. destruct l as [|x l]; [reflexivity|].
  inversion Hl as [|? ? Hx _]; subst.
  apply (f_equal String.length) in Hjoin.
  destruct l as [|y l]; cbn [join] in Hjoin.
  - cbn in Hjoin. lia.
  - rewrite length_append in Hjoin. cbn in Hjoin. lia.
Qed.

End SplitWhiteSpace.

(** X12. The query for similar issues is built from at most three words,
    each longer than 4 characters and free of white space, taken in order
    from the pieces of the text between runs of white space; these pieces
    put together are the text without its white space.  When the text has no
    such word no search is made: the analysis is the same for every client
    and lists no similar issue. *)
Theorem analyzeIssueText_search_terms (text projectKey : string) :
  let words :=
    firstn 3 (filter (fun w => (4 <? String.length w)%nat)
                     (splitWhiteSpace text)) in
  searchTermsOf text = join " OR " words
  /\ List.length words <= 3
  /\ Forall (fun w => 4 < String.length w /\ noWhiteSpace w) words
  /\ list_ascii_of_string (join "" (splitWhiteSpace text))
     = filter (fun c => negb (isWhiteSpace c)) (list_ascii_of_string text)
  /\ (searchTermsOf text = "" <-> words = [])
  /\ (words = [] ->
      forall client client' : JiraClient,
        analyzeIssueText client text projectKey
        = analyzeIssueText client' text projectKey
        /\ exists r,
             analyzeIssueText client text projectKey = Ok r
             /\ similarIssues r = []).
Proof.
  cbv zeta.
  set (words := firstn 3 (filter (fun w => (4 <? String.length w)%nat)
                                 (splitWhiteSpace text))).
  assert (Hwords : Forall (fun w => 4 < String.length w /\ noWhiteSpace w)
                          words).
  { apply Forall_forall. intros w Hw.
    apply firstn_In, filter_In in Hw. destruct Hw as [Hpiece Hlong].
    split; [now apply Nat.ltb_lt|].
    pose proof (splitWhiteSpaceFrom_plain text "" false eq_refl) as Hplain.
    rewrite Forall_forall in Hplain. now apply Hplain. }
  assert (Hempty : searchTermsOf text = "" <-> words = []).
  { split.
    - apply join_empty. eapply Forall_impl; [|exact Hwords].
      intros w [Hw _]. lia.
    - unfold searchTermsOf. fold words. now intros ->. }
  split; [reflexivity|]. split; [apply firstn_le_length|].
  split; [exact Hwords|].
  split; [exact (splitWhiteSpaceFrom_join text "" false)|].
  split; [exact Hempty|].
  intros Hnone client client'. apply Hempty in Hnone.
  assert (Hquiet : forall c,
    searchSimilarIssues c text projectKey = Ok []).
  { intros c. unfold searchSimilarIssues. now rewrite Hnone. }
  unfold analyzeIssueText. rewrite !Hquiet. cbn [tryCatch bind].
  split; [reflexivity|]. eexists. split; reflexivity.
Qed.

Lemma analyzeIssueText_search_terms_witness :
  firstn 3 (filter (fun w => (4 <? String.length w)%nat)
                   (splitWhiteSpace "fix it now")) = []
  /\ searchTermsOf "fix it now" = ""
  /\ analyzeIssueText (fixedClient offline offline (Ok sampleSprint))
                      "fix it now" "NX"
     = analyzeIssueText (fixedClient offline offline offline)
                        "fix it now" "NX"
  /\ searchTermsOf "  Please   rotate the staging  secrets today "
     = "Please OR rotate OR staging".
Proof.
  pose proof (analyzeIssueText_search_terms "fix it now" "NX")
    as (_ & _ & _ & _ & Hempty & Hquiet).
  split; [reflexivity|]. split; [apply Hempty; reflexivity|].
  split; [|reflexivity].
  apply (Hquiet eq_refl).
Defined.

(** ** Release notes: contributors and entries *)

Section Contributors.

Lemma arrayIncludes_In (arr : list string) (x : string) :
  arrayIncludes arr x = true <-> In x arr.
Proof.
  unfold arrayIncludes. rewrite existsb_exists. split.
  - intros (y & Hy & Heq). apply String.eqb_eq in Heq. now subst.
  - intros Hin. exists x. split; [exact Hin|apply String.eqb_refl].
Qed.

(** Adding to the set keeps it free of repetition and adds the name. *)
Lemma setAdd_spec (s : list string) (x : string) :
  NoDup s ->
  NoDup (setAdd s x) /\ forall y, In y (setAdd s x) <-> y = x \/ In y s.
Proof.
  intros Hs. unfold setAdd.
  destruct (arrayIncludes s x) eqn:Hin.
  - apply arrayIncludes_In in Hin. split; [exact Hs|].
    intros y. split; [tauto|]. intros [->|H]; assumption.
  - assert (Hout : ~ In x s).
    { intros H. apply arrayIncludes_In in H. congruence. }
    unfold push. split.
    + apply NoDup_app; [exact Hs|repeat constructor; intros []|].
      intros y Hy [<-|[]]. contradiction.
    + intros y. rewrite in_app_iff. cbn [In]. intuition.
Qed.

Lemma releaseLoopBody_contributors (st : Categories * list string)
      (issue : JiraIssue) :
  NoDup (snd st) ->
  NoDup (snd (releaseLoopBody st issue))
  /\ forall name,
       In name (snd (releaseLoopBody st issue))
       <-> In name (snd st) \/ contributesTo name issue.
Proof.
  destruct st as [c names]. cbn [snd]. intros Hnames.
  unfold releaseLoopBody, contributesTo. cbn [snd].
  destruct (assignee (fields issue)) as [a|];
    destruct (reporter (fields issue)) as [r|].
  - destruct (setAdd_spec names (displayName a) Hnames) as [H1 Hin1].
    destruct (setAdd_spec _ (displayName r) H1) as [H2 Hin2].
    split; [exact H2|]. intros name. rewrite Hin2, Hin1. split.
    + intros [->|[->|H]]; [right; right|right; left|left]; eauto.
    + intros [H|[(a' & [= <-] & <-)|(r' & [= <-] & <-)]]; tauto.
  - destruct (setAdd_spec names (displayName a) Hnames) as [H1 Hin1].
    split; [exact H1|]. intros name. rewrite Hin1. split.
    + intros [->|H]; [right; left|left]; eauto.
    + intros [H|[(a' & [= <-] & <-)|(r' & [=] & _)]]; tauto.
  - destruct (setAdd_spec names (displayName r) Hnames) as [H1 Hin1].
    split; [exact H1|]. intros name. rewrite Hin1. split.
    + intros [->|H]; [right; right|left]; eauto.
    + intros [H|[(a' & [=] & _)|(r' & [= <-] & <-)]]; tauto.
  - split; [exact Hnames|]. intros name. split; [tauto|].
    intros [H|[(a' & [=] & _)|(r' & [=] & _)]]. exact H.
Qed.

Lemma releaseLoop_contributors (issues : list JiraIssue) :
  forall st : Categories * list string,
    NoDup (snd st) ->
    NoDup (snd (fold_left releaseLoopBody issues st))
    /\ forall name,
         In name (snd (fold_left releaseLoopBody issues st))
         <-> In name (snd st)
             \/ exists issue, In issue issues /\ contributesTo name issue.
Proof.
  induction issues as [|issue issues IH]; intros st Hst; cbn [fold_left].
  - split; [exact Hst|]. intros name. split; [tauto|].
    intros [H|(issue & [] & _)]. exact H.
  - destruct (releaseLoopBody_contributors st issue Hst) as [Hstep Hin].
    destruct (IH _ Hstep) as [Hdone Hall].
    split; [exact Hdone|]. intros name. rewrite Hall, Hin. split.
    + intros [[H|H]|(i & Hi & Hc)].
      * now left.
      * right. exists issue. split; [now left|exact H].
      * right. exists i. split; [now right|exact Hc].
    + intros [H|(i & [<-|Hi] & Hc)].
      * left. now left.
      * left. now right.
      * right. exists i. split; assumption.
Qed.

End Contributors.

Lemma generateReleaseNotes_fetched
      (clock : Clock) (client : JiraClient) (options : ReleaseOptions)
      (issues : list JiraIssue) :
  searchIssues client (releaseQuery clock options) 200 = Ok issues ->
  generateReleaseNotes clock client options
  = Ok (releaseNotesOf clock options issues).
Proof. intros Hfetch. unfold generateReleaseNotes. now rewrite Hfetch. Qed.

(** X13. The contributors of the release notes are exactly the display
    names of the assignees and reporters of the fetched issues, each name
    once. *)
Theorem generateReleaseNotes_contributors
        (clock : Clock) (client : JiraClient) (options : ReleaseOptions)
        (issues : list JiraIssue) :
  searchIssues client (releaseQuery clock options) 200 = Ok issues ->
  exists notes,
    generateReleaseNotes clock client options = Ok notes
    /\ NoDup (contributors notes)
    /\ forall name,
         In name (contributors notes)
         <-> exists issue, In issue issues /\ contributesTo name issue.
Proof.
  intros Hfetch. eexists.
  split; [apply generateReleaseNotes_fetched, Hfetch|].
  destruct (releaseLoop_contributors issues (emptyCategories, [])
                                     (NoDup_nil _)) as [Hnodup Hin].
  unfold releaseNotesOf, releaseLoop.
  destruct (fold_left releaseLoopBody issues (emptyCategories, []))
    as [c names].
  cbn [contributors snd] in *. split; [exact Hnodup|].
  intros name. rewrite Hin. cbn [In]. tauto.
Qed.

Lemma generateReleaseNotes_contributors_witness :
  searchIssues (fixedClient offline offline (Ok releaseSample))
               (releaseQuery sampleClock releaseOptions) 200
    = Ok releaseSample
  /\ exists notes,
       generateReleaseNotes
         sampleClock (fixedClient offline offline (Ok releaseSample))
         releaseOptions = Ok notes
       /\ contributors notes = ["Asha"; "Ben"]
       /\ NoDup (contributors notes).
Proof.
  split; [reflexivity|].
  destruct (generateReleaseNotes_contributors
              sampleClock (fixedClient offline offline (Ok releaseSample))
              releaseOptions releaseSample eq_refl)
    as (notes & Hrun & Hnodup & _).
  exists notes. split; [exact Hrun|]. split; [|exact Hnodup].
  injection Hrun as <-. reflexivity.
Defined.

(** The categories after the loop are the entries by category. *)
Lemma releaseLoop_categories (issues : list JiraIssue) :
  allEntries (fst (releaseLoop issues))
  = (itemsOf CBreakingChange issues ++ itemsOf CDeprecated issues
       ++ itemsOf CBugFix issues ++ itemsOf CFeature issues
       ++ itemsOf CImprovement issues)%list.
Proof.
  unfold releaseLoop, allEntries.
  destruct (releaseLoop_from issues (emptyCategories, []))
    as (Hb & Hd & Hg & Hf & Hi).
  cbv zeta in *. now rewrite Hb, Hd, Hg, Hf, Hi.
Qed.

Lemma releaseNotesOf_categories
      (clock : Clock) (options : ReleaseOptions) (issues : list JiraIssue) :
  categories (releaseNotesOf clock options issues) = fst (releaseLoop issues)
  /\ statsTotalIssues (releaseNotesOf clock options issues)
     = List.length issues.
Proof.
  unfold releaseNotesOf. destruct (releaseLoop issues). split; reflexivity.
Qed.

(** X14. Every entry of the release notes comes from a fetched issue: it
    carries the issue's key and summary and, when the issue has a
    description, the first 200 characters of it (the whole description when
    it is no longer than that); an issue without description gives an entry
    without one.  The number of entries equals the issue total of the
    statistics, the number of fetched issues. *)
Theorem generateReleaseNotes_entries
        (clock : Clock) (client : JiraClient) (options : ReleaseOptions)
        (issues : list JiraIssue) :
  searchIssues client (releaseQuery clock options) 200 = Ok issues ->
  exists notes,
    generateReleaseNotes clock client options = Ok notes
    /\ Forall
         (fun item =>
            exists issue,
              In issue issues
              /\ itemKey item = key issue
              /\ itemSummary item = summary (fields issue)
              /\ match description (fields issue) with
                 | Some d =>
                     exists d',
                       itemDescription item = Some d'
                       /\ d' = substring 0 200 d
                       /\ String.length d' = Nat.min 200 (String.length d)
                       /\ prefix d' d = true
                       /\ (String.length d <= 200 -> d' = d)
                 | None => itemDescription item = None
                 end)
         (allEntries (categories notes))
    /\ List.length (allEntries (categories notes)) = statsTotalIssues notes
    /\ statsTotalIssues notes = List.length issues.
Proof.
  intros Hfetch. eexists.
  split; [apply generateReleaseNotes_fetched, Hfetch|].
  destruct (releaseNotesOf_categories clock options issues) as [-> ->].
  rewrite releaseLoop_categories.
  split.
  - apply Forall_forall. intros item Hitem.
    assert (Hfrom : exists issue,
               In issue issues /\ item = releaseItemOf issue).
    { unfold itemsOf in Hitem.
      repeat (apply in_app_or in Hitem; destruct Hitem as [Hitem|Hitem]);
        apply in_map_iff in Hitem; destruct Hitem as (issue & <- & Hin);
        apply filter_In in Hin; exists issue; tauto. }
    destruct Hfrom as (issue & Hin & ->). exists issue.
    split; [exact Hin|]. split; [reflexivity|]. split; [reflexivity|].
    unfold releaseItemOf. cbn [itemDescription].
    destruct (description (fields issue)) as [d|]; [|reflexivity].
    exists (substring0 200 d). unfold substring0.
    split; [reflexivity|]. split; [reflexivity|].
    split; [apply length_substring0|].
    split; [apply substring0_prefix|apply substring0_all].
  - split; [|reflexivity].
    rewrite (Permutation_length (itemsOf_partition issues)).
    apply length_map.
Qed.

Lemma generateReleaseNotes_entries_witness :
  searchIssues (fixedClient offline offline (Ok [describedIssue]))
               (releaseQuery sampleClock releaseOptions) 200
    = Ok [describedIssue]
  /\ exists notes,
       generateReleaseNotes
         sampleClock (fixedClient offline offline (Ok [describedIssue]))
         releaseOptions = Ok notes
       /\ map itemKey (features (categories notes)) = ["NX-36"]
       /\ map (fun item =>
                 option_map String.length (itemDescription item))
              (features (categories notes)) = [Some 200]
       /\ List.length (allEntries (categories notes)) = 1.
Proof.
  split; [reflexivity|].
  destruct (generateReleaseNotes_entries
              sampleClock (fixedClient offline offline (Ok [describedIssue]))
              releaseOptions [describedIssue] eq_refl)
    as (notes & Hrun & _ & Hcount & Htotal).
  exists notes. split; [exact Hrun|].
  split; [injection Hrun as <-; reflexivity|].
  split; [injection Hrun as <-; reflexivity|].
  now rewrite Hcount, Htotal.
Defined.

(** ** Workload dashboard: members and counters *)

Section Members.

(** The keys after one iteration of the grouping loop. *)
Lemma groupBody_keys (m : AssigneeMap) (issue : JiraIssue) (name : string) :
  In name (map fst (groupBody m issue))
  <-> In name (map fst m) \/ assignedTo name issue = true.
Proof.
  unfold groupBody, assignedTo.
  destruct (assignee (fields issue)) as [a|].
  - rewrite mapGetPush_keys.
    destruct (mapHas m (displayName a)) eqn:Hhas; cbn [negb].
    + rewrite String.eqb_eq. split; [tauto|].
      intros [H| <-]; [exact H|now apply mapHas_In].
    + rewrite mapSet_absent by exact Hhas.
      rewrite map_app, in_app_iff, String.eqb_eq. cbn. intuition.
  - split; [tauto|]. intros [H|H]; [exact H|discriminate].
Qed.

Lemma groupByAssignee_keys (issues : list JiraIssue) (name : string) :
  In name (map fst (groupByAssignee issues))
  <-> exists issue, In issue issues /\ assignedTo name issue = true.
Proof.
  unfold groupByAssignee.
  assert (Hgen : forall m,
    In name (map fst (fold_left groupBody issues m))
    <-> In name (map fst m)
        \/ exists issue, In issue issues /\ assignedTo name issue = true).
  { induction issues as [|issue issues IH]; intros m; cbn [fold_left].
    - split; [tauto|]. intros [H|(i & [] & _)]. exact H.
    - rewrite IH, groupBody_keys. split.
      + intros [[H|H]|(i & Hi & Ha)].
        * now left.
        * right. exists issue. split; [now left|exact H].
        * right. exists i. split; [now right|exact Ha].
      + intros [H|(i & [<-|Hi] & Ha)].
        * left. now left.
        * left. now right.
        * right. exists i. split; assumption. }
  rewrite Hgen. cbn. split; [intros [[]|H]; exact H|tauto].
Qed.

Variable clock : Clock.




End Members.

(** X15. The team of the dashboard is the set of assignees of the fetched
    issues: the team size is the number of member entries, a name is a
    member exactly when some fetched issue is assigned to it, and every
    member's assigned count is the number of fetched issues assigned to that
    name, which is at least 1. *)
Theorem workloadDashboard_team
        (clock : Clock) (client : JiraClient) (projectKey : option string)
        (sprint : option Z) (issues : list JiraIssue) :
  searchIssues client (workloadQuery projectKey sprint) 200 = Ok issues ->
  exists d,
    generateWorkloadDashboard clock client projectKey sprint = Ok d
    /\ teamSize d = List.length (workloadDistribution d)
    /\ (forall name,
          In name (map teamMember (workloadDistribution d))
          <-> exists issue, In issue issues /\ assignedTo name issue = true)
    /\ Forall (fun w =>
                 assignedIssues (memberMetrics w)
                 = List.length (filter (assignedTo (teamMember w)) issues)
                 /\ 1 <= assignedIssues (memberMetrics w))
              (workloadDistribution d).
Proof.
  intros Hfetch. eexists. split.
  { apply generateWorkloadDashboard_fetched, Hfetch. }
  assert (Hnames :
    map teamMember (workloadDistribution (workloadDashboardOf clock sprint issues))
    = map fst (groupByAssignee issues)).
  { rewrite workloadDashboardOf_distribution, map_map.
    apply map_ext. intros [name memberIssues]. apply memberEntry_name. }
  split; [|split].
  - rewrite workloadDashboardOf_distribution, length_map.
    unfold workloadDashboardOf.
    destruct (memberLoop clock (groupByAssignee issues)). reflexivity.
  - intros name. rewrite Hnames. apply groupByAssignee_keys.
  - destruct (workloadDashboardOf_members clock sprint issues) as [_ Hall].
    cbv zeta in Hall. apply Forall_forall. intros w Hw.
    rewrite Forall_forall in Hall. pose proof (Hall w Hw) as Hentry.
    assert (Hcount : assignedIssues (memberMetrics w)
                     = List.length (filter (assignedTo (teamMember w)) issues)).
    { rewrite Hentry at 1. apply memberEntry_assigned. }
    split; [exact Hcount|]. rewrite Hcount.
    assert (Hmember : In (teamMember w) (map fst (groupByAssignee issues))).
    { rewrite <- Hnames. now apply in_map. }
    apply groupByAssignee_keys in Hmember.
    destruct Hmember as (issue & Hin & Ha).
    assert (Hfiltered : In issue (filter (assignedTo (teamMember w)) issues)).
    { apply filter_In. tauto. }
    destruct (filter (assignedTo (teamMember w)) issues);
      [contradiction|cbn; lia].
Qed.

Lemma workloadDashboard_team_witness :
  searchIssues (fixedClient offline offline (Ok unevenTeam))
               (workloadQuery None None) 200 = Ok unevenTeam
  /\ exists d,
       generateWorkloadDashboard
         sampleClock (fixedClient offline offline (Ok unevenTeam)) None None
       = Ok d
       /\ teamSize d = 2
       /\ map (fun w => (teamMember w, assignedIssues (memberMetrics w)))
              (workloadDistribution d) = [("Asha", 3); ("Ben", 1)].
Proof.
  split; [reflexivity|].
  destruct (workloadDashboard_team
              sampleClock (fixedClient offline offline (Ok unevenTeam))
              None None unevenTeam eq_refl)
    as (d & Hrun & Hsize & _).
  exists d. split; [exact Hrun|].
  assert (Hd : map (fun w => (teamMember w, assignedIssues (memberMetrics w)))
                   (workloadDistribution d) = [("Asha", 3); ("Ben", 1)]).
  { injection Hrun as <-. reflexivity. }
  split; [|exact Hd].
  rewrite Hsize, <- (length_map
                       (fun w => (teamMember w, assignedIssues (memberMetrics w)))),
    Hd.
  reflexivity.
Defined.



(** ** Workload dashboard: bottlenecks *)

Lemma workloadStatusOf_overloaded (n : nat) :
  WorkloadStatus_eqb (workloadStatusOf n) overloaded = (8 <? n)%nat.
Proof.
  unfold workloadStatusOf.
  destruct (Nat.leb_spec n 2) as [H2|H2];
    [|destruct (Nat.leb_spec n 5) as [H5|H5];
      [|destruct (Nat.leb_spec n 8) as [H8|H8]]];
    cbn [WorkloadStatus_eqb]; symmetry.
  - apply Nat.ltb_ge. lia.
  - apply Nat.ltb_ge. lia.
  - apply Nat.ltb_ge. lia.
  - apply Nat.ltb_lt. lia.
Qed.

Lemma filter_none {A : Type} (p : A -> bool) (l : list A) :
  (forall x, In x l -> p x = false) -> filter p l = [].
Proof.
  induction l as [|x l IH]; intros Hp; cbn [filter]; [reflexivity|].
  rewrite (Hp x) by now left. apply IH. intros y Hy. apply Hp. now right.
Qed.

(** X18. The bottlenecks of the dashboard are the lines
    "<member> is overloaded with <n> issues" of exactly the members with
    more than 8 assigned issues, in member order; each of these members has
    the workload status overloaded and "Has <n> assigned issues" as first
    risk factor, and a team without such a member has no bottleneck. *)
Theorem workloadDashboard_bottlenecks
        (clock : Clock) (client : JiraClient) (projectKey : option string)
        (sprint : option Z) (issues : list JiraIssue) :
  searchIssues client (workloadQuery projectKey sprint) 200 = Ok issues ->
  exists d,
    generateWorkloadDashboard clock client projectKey sprint = Ok d
    /\ bottlenecks d
       = map bottleneckLine (filter moreThanEight (workloadDistribution d))
    /\ Forall (fun w =>
                 moreThanEight w = true ->
                 workloadStatus w = overloaded
                 /\ hd_error (riskFactors w)
                    = Some ("Has "
                              ++ natToString (assignedIssues (memberMetrics w))
                              ++ " assigned issues"))
              (workloadDistribution d)
    /\ (bottlenecks d = []
        <-> Forall (fun w => assignedIssues (memberMetrics w) <= 8)
                   (workloadDistribution d)).
Proof.
  intros Hfetch. eexists. split.
  { apply generateWorkloadDashboard_fetched, Hfetch. }
  destruct (workloadDashboardOf_members clock sprint issues) as [_ Hall].
  cbv zeta in Hall.
  set (d := workloadDashboardOf clock sprint issues) in *.
  assert (Hstatus : forall w,
    In w (workloadDistribution d) ->
    WorkloadStatus_eqb (workloadStatus w) overloaded = moreThanEight w).
  { intros w Hw. rewrite Forall_forall in Hall. rewrite (Hall w Hw) at 1.
    rewrite memberEntry_status, workloadStatusOf_overloaded.
    unfold moreThanEight. now rewrite <- (Hall w Hw). }
  assert (Hlines :
    bottlenecks d
    = map bottleneckLine (filter moreThanEight (workloadDistribution d))).
  { rewrite <- (filter_ext_in _ _ _ Hstatus).
    unfold d, workloadDashboardOf.
    destruct (memberLoop clock (groupByAssignee issues))
      as [distribution workloads].
    cbn [bottlenecks workloadDistribution].
    destruct (filter _ distribution); reflexivity. }
  split; [exact Hlines|]. split.
  - apply Forall_forall. intros w Hw Hmore.
    pose proof (Hstatus w Hw) as Heqb. rewrite Hmore in Heqb.
    assert (Hover : workloadStatus w = overloaded)
      by (destruct (workloadStatus w); try discriminate; reflexivity).
    split; [exact Hover|].
    rewrite Forall_forall in Hall. pose proof (Hall w Hw) as Hentry.
    rewrite Hentry in Hover. rewrite Hentry.
    unfold memberEntry in *. cbn [workloadStatus riskFactors memberMetrics] in *.
    rewrite Hover. unfold push.
    destruct (3 <? _)%nat; destruct (0 <? _)%nat; reflexivity.
  - rewrite Hlines. split.
    + intros Hnone. apply Forall_forall. intros w Hw.
      destruct (Nat.ltb_spec 8 (assignedIssues (memberMetrics w)))
        as [Hgt|Hle]; [|exact Hle].
      assert (Hin : In w (filter moreThanEight (workloadDistribution d))).
      { apply filter_In. split; [exact Hw|].
        unfold moreThanEight. now apply Nat.ltb_lt. }
      apply (in_map bottleneckLine) in Hin. rewrite Hnone in Hin.
      contradiction.
    + intros Hsmall.
      rewrite filter_none; [reflexivity|].
      rewrite Forall_forall in Hsmall. intros w Hw.
      unfold moreThanEight. apply Nat.ltb_ge. now apply Hsmall.
Qed.

Lemma workloadDashboard_bottlenecks_witness :
  searchIssues (fixedClient offline offline (Ok nineAndOne))
               (workloadQuery None None) 200 = Ok nineAndOne
  /\ exists d,
       generateWorkloadDashboard
         sampleClock (fixedClient offline offline (Ok nineAndOne)) None None
       = Ok d
       /\ bottlenecks d = ["Asha is overloaded with 9 issues"].
Proof.
  split; [reflexivity|].
  destruct (workloadDashboard_bottlenecks
              sampleClock (fixedClient offline offline (Ok nineAndOne))
              None None nineAndOne eq_refl)
    as (d & Hrun & Hlines & _).
  exists d. split; [exact Hrun|].
  rewrite Hlines. injection Hrun as <-. reflexivity.
Defined.

(** ** Sprint health: the sprint's name *)

Lemma find_unique {A : Type} (idOf : A -> Z) (id : Z) (l : list A) (x : A) :
  NoDup (map idOf l) -> In x l -> idOf x = id ->
  find (fun y => (idOf y =? id)%Z) l = Some x.
Proof.
  induction l as [|y l IH]; intros Hnodup Hin Hid; [contradiction|].
  cbn [find]. cbn [map] in Hnodup. inversion Hnodup as [|? ? Hfresh Hrest]; subst.
  destruct Hin as [->|Hin].
  - now rewrite Z.eqb_refl.
  - destruct (Z.eqb_spec (idOf y) (idOf x)) as [Heq|Hne].
    + exfalso. apply Hfresh. rewrite Heq. now apply in_map.
    + now apply IH.
Qed.

Lemma find_absent {A : Type} (p : A -> bool) (l : list A) :
  (forall x, In x l -> p x = false) -> find p l = None.
Proof.
  induction l as [|y l IH]; intros Hp; cbn [find]; [reflexivity|].
  rewrite (Hp y) by now left. apply IH. intros x Hx. apply Hp. now right.
Qed.

(** X19. For a sprint id that is a safe integer, the sprint analysis
    reports the name the board gives the sprint when a board is named (a
    non-zero id), the lookup succeeds and the board lists the sprint (sprint
    ids being distinct); when no board is named, when the lookup fails, or
    when the board does not list the sprint, the name is "Sprint <id>" with
    the id in decimal digits, and the analysis still returns. *)
Theorem analyzeSprintHealth_name
        (client : JiraClient) (id : Z) (boardId : option Z)
        (issues : list JiraIssue) :
  safeInteger id ->
  getSprintIssues client id = Ok issues ->
  exists m,
    analyzeSprintHealth client id boardId = Ok m
    /\ sprintId m = id
    /\ (forall b sprints s,
          boardId = Some b -> b <> 0%Z ->
          getSprints client b = Ok sprints ->
          NoDup (map sprint_id sprints) ->
          In s sprints -> sprint_id s = id ->
          sprintName m = sprint_name s)
    /\ (boardId = None \/ boardId = Some 0%Z
        \/ (exists b e, boardId = Some b /\ getSprints client b = Err e)
        \/ (exists b sprints,
              boardId = Some b /\ getSprints client b = Ok sprints
              /\ forall s, In s sprints -> sprint_id s <> id) ->
        sprintName m = "Sprint " ++ intToString id).
Proof.
  intros _ Hfetch. unfold analyzeSprintHealth. rewrite Hfetch.
  cbn [bind].
  destruct (resolveSprintName_total client id boardId) as [name Hname].
  rewrite Hname. eexists. split; [reflexivity|].
  cbn [sprintId sprintName sprintHealthOf].
  split; [reflexivity|]. split.
  - intros b sprints s -> Hb Hsprints Hnodup Hin Hid.
    unfold resolveSprintName, truthy in Hname.
    apply Z.eqb_neq in Hb. rewrite Hb in Hname. cbn [negb] in Hname.
    rewrite Hsprints in Hname. cbn [bind tryCatch] in Hname.
    rewrite (find_unique sprint_id id sprints s Hnodup Hin Hid) in Hname.
    cbn in Hname. congruence.
  - assert (Hsynth : forall r : string,
              Ok ("Sprint " ++ intToString id) = Ok r ->
              r = "Sprint " ++ intToString id)
      by (intros r Hr; now injection Hr as <-).
    intros [->|[->|[(b & e & -> & Hfail)|(b & sprints & -> & Hsprints & Hnone)]]];
      unfold resolveSprintName in Hname.
    + now apply Hsynth.
    + now apply Hsynth.
    + destruct (truthy (Some b)); [|now apply Hsynth].
      rewrite Hfail in Hname. now apply Hsynth.
    + destruct (truthy (Some b)); [|now apply Hsynth].
      rewrite Hsprints in Hname. cbn [bind tryCatch] in Hname.
      rewrite find_absent in Hname.
      * now apply Hsynth.
      * intros s Hs. apply Z.eqb_neq. now apply Hnone.
Qed.

Lemma analyzeSprintHealth_name_witness :
  safeInteger 7
  /\ getSprintIssues (fixedClient (Ok sampleSprint) (Ok boardSprints) offline) 7
     = Ok sampleSprint
  /\ (exists m,
        analyzeSprintHealth
          (fixedClient (Ok sampleSprint) (Ok boardSprints) offline) 7
          (Some 3%Z)
        = Ok m
        /\ sprintName m = "Hardening")
  /\ exists m,
       analyzeSprintHealth
         (fixedClient (Ok sampleSprint) offline offline) 7 (Some 3%Z)
       = Ok m
       /\ sprintName m = "Sprint 7".
Proof.
  assert (Hsafe : safeInteger 7) by (unfold safeInteger; lia).
  split; [exact Hsafe|]. split; [reflexivity|]. split.
  - destruct (analyzeSprintHealth_name
                (fixedClient (Ok sampleSprint) (Ok boardSprints) offline)
                7 (Some 3%Z) sampleSprint Hsafe eq_refl)
      as (m & Hrun & _ & Hfound & _).
    exists m. split; [exact Hrun|].
    apply (Hfound 3%Z boardSprints
                  {| sprint_id := 7; sprint_name := "Hardening" |}).
    + reflexivity.
    + discriminate.
    + reflexivity.
    + cbn. repeat constructor; cbn; intuition discriminate.
    + cbn. tauto.
    + reflexivity.
  - destruct (analyzeSprintHealth_name
                (fixedClient (Ok sampleSprint) offline offline)
                7 (Some 3%Z) sampleSprint Hsafe eq_refl)
      as (m & Hrun & _ & _ & Hsynth).
    exists m. split; [exact Hrun|].
    apply Hsynth. right. right. left. exists 3%Z, "offline".
    split; reflexivity.
Defined.

(** ** Sprint health: recommendations *)

Lemma issueRisks_shape (issue : JiraIssue) (r : string) :
  In r (issueRisks issue) ->
  r = "Unassigned issue: " ++ key issue
  \/ r = "No priority set: " ++ key issue.
Proof.
  unfold issueRisks. intros Hr. apply in_app_or in Hr.
  destruct Hr as [Hr|Hr].
  - destruct (_ && _); [|contradiction]. destruct Hr as [<-|[]]. now left.
  - destruct (_ && _); [|contradiction]. destruct Hr as [<-|[]]. now right.
Qed.

Lemma filter_length_pos {A : Type} (p : A -> bool) (l : list A) (x : A) :
  In x l -> p x = true -> (0 <? List.length (filter p l))%nat = true.
Proof.
  intros Hin Hp.
  assert (Hf : In x (filter p l)) by (apply filter_In; tauto).
  destruct (filter p l); [contradiction|reflexivity].
Qed.

(** X20. The recommendations of the sprint analysis: with a blocked issue
    the first one is "Address <n> blocked issue(s) immediately"; the focus
    recommendation is given exactly when the WIP-overload risk is reported;
    an unassigned issue whose status is not "done" brings the recommendation
    to assign owners; a sprint rated excellent always gets a recommendation;
    and there are never more than four. *)
Theorem analyzeSprintHealth_recommendations
        (client : JiraClient) (id : Z) (boardId : option Z)
        (issues : list JiraIssue) :
  getSprintIssues client id = Ok issues ->
  exists m,
    analyzeSprintHealth client id boardId = Ok m
    /\ (0 < blocked (issueBreakdown m) ->
        hd_error (recommendations m)
        = Some ("Address " ++ natToString (blocked (issueBreakdown m))
                  ++ " blocked issue(s) immediately"))
    /\ (In "Focus on completing in-progress work before starting new items"
           (recommendations m)
        <-> In "Too many issues in progress (WIP overload)" (risks m))
    /\ ((exists issue,
           In issue issues
           /\ assignee (fields issue) = None
           /\ statusOf issue <> "done") ->
        In "Assign owners to all remaining issues" (recommendations m))
    /\ (healthStatus m = excellent -> recommendations m <> [])
    /\ List.length (recommendations m) <= 4.
Proof.
  intros Hfetch.
  destruct (analyzeSprintHealth_fetched client id boardId issues Hfetch)
    as [name Hrun].
  eexists. split; [exact Hrun|].
  destruct (sprintLoop_spec issues) as (Htotal & _ & _ & _ & _ & Hr).
  cbv zeta in Htotal.
  cbn [recommendations risks issueBreakdown healthStatus sprintHealthOf].
  rewrite Htotal, Hr.
  set (bd := loop_breakdown (sprintLoop issues)).
  set (rate := computeCompletionRate bd).
  set (wip := wipOverload (inProgress bd) (List.length issues)).
  set (unbalanced := (done bd <? todo bd)%nat && (rate <? 50)%Z).
  set (status := healthStatusOf _).
  set (risks4 := if unbalanced then _ else _).
  set (unowned := (0 <? List.length (filter _ risks4))%nat).
  set (scope := (rate <? 50)%Z && (5 <? todo bd)%nat).
  assert (Hrisks : forall r,
    In r risks4 <->
    In r (flat_map issueRisks issues)
    \/ (wip = true /\ r = "Too many issues in progress (WIP overload)")
    \/ (unbalanced = true /\ r = "More work remaining than completed")).
  { intros r. unfold risks4, push.
    destruct unbalanced; destruct wip; rewrite ?in_app_iff; cbn [In];
      intuition congruence. }
  assert (Hwip :
    In "Too many issues in progress (WIP overload)" risks4 <-> wip = true).
  { rewrite Hrisks. split.
    - intros [Hin|[[Hw _]|[_ Hne]]].
      + apply in_flat_map in Hin. destruct Hin as (issue & _ & Hin).
        apply issueRisks_shape in Hin. destruct Hin as [Hin|Hin];
          cbn in Hin; discriminate.
      + exact Hw.
      + discriminate.
    - intros Hw. right. left. now split. }
  split; [|split; [|split; [|split]]].
  - intros Hblocked. apply Nat.ltb_lt in Hblocked. rewrite Hblocked.
    unfold push.
    destruct wip; destruct unowned; destruct scope; destruct status;
      reflexivity.
  - rewrite Hwip. unfold push.
    destruct (0 <? blocked bd)%nat; destruct wip; destruct unowned;
      destruct scope; destruct status; cbn; intuition discriminate.
  - intros (issue & Hin & Hnone & Hopen).
    assert (Hunowned : unowned = true).
    { unfold unowned.
      apply filter_length_pos with ("Unassigned issue: " ++ key issue).
      - apply Hrisks. left. apply in_flat_map. exists issue.
        split; [exact Hin|]. unfold issueRisks. rewrite Hnone.
        apply String.eqb_neq in Hopen. rewrite Hopen. cbn. now left.
      - reflexivity. }
    rewrite Hunowned. unfold push.
    destruct (0 <? blocked bd)%nat; destruct wip; destruct scope;
      destruct status; cbn; tauto.
  - intros ->. unfold push.
    destruct (0 <? blocked bd)%nat; destruct wip; destruct unowned;
      destruct scope; cbn; discriminate.
  - unfold push.
    destruct (0 <? blocked bd)%nat; destruct wip; destruct unowned;
      destruct scope; destruct status; cbn; lia.
Qed.

Lemma analyzeSprintHealth_recommendations_witness :
  getSprintIssues (fixedClient (Ok sampleSprint) offline offline) 7
  = Ok sampleSprint
  /\ exists m,
       analyzeSprintHealth
         (fixedClient (Ok sampleSprint) offline offline) 7 None = Ok m
       /\ hd_error (recommendations m)
          = Some "Address 1 blocked issue(s) immediately"
       /\ In "Assign owners to all remaining issues" (recommendations m).
Proof.
  split; [reflexivity|].
  destruct (analyzeSprintHealth_recommendations
              (fixedClient (Ok sampleSprint) offline offline) 7 None
              sampleSprint eq_refl)
    as (m & Hrun & Hblocked & _ & Hassign & _).
  exists m. split; [exact Hrun|].
  assert (Hcount : blocked (issueBreakdown m) = 1)
    by (injection Hrun as <-; reflexivity).
  rewrite Hcount in Hblocked.
  split.
  - apply Hblocked. lia.
  - apply Hassign.
    exists (sampleIssue "NX-4" "To Do" None (Some "High") "Task" None).
    split; [cbn; tauto|]. split; [reflexivity|]. cbn. discriminate.
Defined.

(** ** Failures of the primary fetch *)

Lemma bind_Ok_fails_with {A B : Type} (c : result A) (f : A -> B) (e : string) :
  bind c (fun x => Ok (f x)) = Err e <-> c = Err e.
Proof.
  destruct c as [x|e']; cbn [bind]; split; intros H;
    first [discriminate | injection H as ->; reflexivity].
Qed.

(** X21. The analyses have no fallback for their primary fetch: the sprint
    analysis, the workload dashboard, the release notes, the issue worklog
    and the team worklogs fail, with the message of the fetch, exactly when
    the fetch of their issues fails; the failure of the sprint-name lookup
    alone never fails the sprint analysis. *)
Theorem primary_fetch_failure
        (clock : Clock) (client : JiraClient) (tracked : WorklogClient)
        (e : string) :
  (forall id boardId,
      analyzeSprintHealth client id boardId = Err e
      <-> getSprintIssues client id = Err e)
  /\ (forall projectKey sprint,
         generateWorkloadDashboard clock client projectKey sprint = Err e
         <-> searchIssues client (workloadQuery projectKey sprint) 200 = Err e)
  /\ (forall options,
         generateReleaseNotes clock client options = Err e
         <-> searchIssues client (releaseQuery clock options) 200 = Err e)
  /\ (forall key,
         getIssueWorklog tracked key = Err e <-> getIssue tracked key = Err e)
  /\ (forall options,
         getTeamWorklogs tracked options = Err e
         <-> searchTrackedIssues tracked (teamWorklogQuery options) 100
             = Err e).
Proof.
  split; [|split; [|split; [|split]]].
  - intros id boardId. unfold analyzeSprintHealth.
    destruct (getSprintIssues client id) as [issues|e']; cbn [bind].
    + destruct (resolveSprintName_total client id boardId) as [name ->].
      cbn [bind]. split; discriminate.
    + split; intros H; injection H as ->; reflexivity.
  - intros projectKey sprint. apply bind_Ok_fails_with.
  - intros options. apply bind_Ok_fails_with.
  - intros key. unfold getIssueWorklog.
    destruct (getIssue tracked key); cbn [bind]; split; intros H;
      first [discriminate | injection H as ->; reflexivity].
  - intros options. apply bind_Ok_fails_with.
Qed.

Lemma primary_fetch_failure_witness :
  analyzeSprintHealth (fixedClient offline (Ok boardSprints) offline)
                      7 (Some 3%Z)
  = Err "offline"
  /\ generateReleaseNotes sampleClock
       (fixedClient offline (Ok boardSprints) offline) releaseOptions
     = Err "offline".
Proof.
  destruct (primary_fetch_failure
              sampleClock (fixedClient offline (Ok boardSprints) offline)
              (fixedWorklogClient offline offline) "offline")
    as (Hsprint & _ & Hrelease & _).
  split.
  - apply Hsprint. reflexivity.
  - apply Hrelease. reflexivity.
Defined.

(** ** Cross-platform sync *)

Section Sync.

Variable client : JiraClient.
Variable writer : IssueWriter.
Variable projectKey : string.

(** The payload built from the analysis is the one inferred from the text. *)
Lemma pullRequestPayload_inferred
      (pr : GitHubPullRequest) (analysis : SmartIssueAnalysis) :
  analyzeIssueText client (bodyOr (pr_body pr) (pr_title pr)) projectKey
  = Ok analysis ->
  pullRequestPayload projectKey pr analysis = pullRequestIssue projectKey pr.
Proof.
  intros Hrun.
  destruct (analyzeIssueText_inferred _ _ _ _ Hrun) as (Ht & _ & Hl & _).
  unfold pullRequestPayload, pullRequestIssue. now rewrite Ht, Hl.
Qed.

Lemma keyFor_accepted (payload : CreateIssuePayload) (k : string) :
  createIssue writer payload = Ok k -> keyFor writer payload = k.
Proof. unfold keyFor. now intros ->. Qed.

(** The loop over the pull requests when Jira accepts every issue. *)
Lemma createFromPullRequests_accepted (prs : list GitHubPullRequest) :
  (forall pr, In pr prs -> unlinked pr = true ->
              ~ refuses writer (pullRequestIssue projectKey pr)) ->
  forall created,
    createFromPullRequests client writer projectKey prs created
    = Ok (created
            ++ map (pullRequestEntry writer projectKey)
                   (filter unlinked prs))%list.
Proof.
  induction prs as [|pr prs IH]; intros Hall created;
    cbn [createFromPullRequests filter map].
  - now rewrite app_nil_r.
  - assert (Hrest : forall p, In p prs -> unlinked p = true ->
                              ~ refuses writer (pullRequestIssue projectKey p))
      by (intros p Hp; apply Hall; now right).
    unfold unlinked at 1.
    destruct (hasJiraKey (pr_title pr)) eqn:Hkey; cbn [negb].
    + now apply IH.
    + destruct (analyzeIssueText_total
                  client (bodyOr (pr_body pr) (pr_title pr)) projectKey)
        as [analysis Hrun].
      rewrite Hrun. cbn [bind].
      rewrite (pullRequestPayload_inferred pr analysis Hrun).
      destruct (createIssue writer (pullRequestIssue projectKey pr))
        as [k|e] eqn:Hcreate.
      * cbn [bind]. rewrite (IH Hrest). unfold push.
        rewrite <- app_assoc. cbn [app map]. unfold pullRequestEntry.
        now rewrite (keyFor_accepted _ _ Hcreate).
      * exfalso. apply (Hall pr); [now left| |now exists e].
        unfold unlinked. now rewrite Hkey.
Qed.

(** The loop ends with an error when Jira refuses one of the issues. *)
Lemma createFromPullRequests_refused (prs : list GitHubPullRequest) :
  (exists pr, In pr prs /\ unlinked pr = true
              /\ refuses writer (pullRequestIssue projectKey pr)) ->
  forall created,
    exists e,
      createFromPullRequests client writer projectKey prs created = Err e.
Proof.
  induction prs as [|pr prs IH]; intros (p & Hin & Hopen & Hrefused) created.
  - contradiction.
  - cbn [createFromPullRequests].
    destruct (hasJiraKey (pr_title pr)) eqn:Hkey.
    + destruct Hin as [->|Hin].
      * unfold unlinked in Hopen. rewrite Hkey in Hopen. discriminate.
      * apply IH. now exists p.
    + destruct (analyzeIssueText_total
                  client (bodyOr (pr_body pr) (pr_title pr)) projectKey)
        as [analysis Hrun].
      rewrite Hrun. cbn [bind].
      rewrite (pullRequestPayload_inferred pr analysis Hrun).
      destruct (createIssue writer (pullRequestIssue projectKey pr))
        as [k|e] eqn:Hcreate; cbn [bind]; [|now exists e].
      destruct Hin as [->|Hin].
      * destruct Hrefused as [e He]. congruence.
      * apply IH. now exists p.
Qed.

Lemma createFromCommits_accepted (commits : list GitHubCommit) :
  (forall commit, In commit commits -> synced commit = true ->
                  ~ refuses writer (commitPayload projectKey commit)) ->
  forall created,
    createFromCommits writer projectKey commits created
    = Ok (created
            ++ map (commitEntry writer projectKey) (filter synced commits))%list.
Proof.
  induction commits as [|commit commits IH]; intros Hall created;
    cbn [createFromCommits filter map].
  - now rewrite app_nil_r.
  - assert (Hrest : forall c, In c commits -> synced c = true ->
                              ~ refuses writer (commitPayload projectKey c))
      by (intros c Hc; apply Hall; now right).
    unfold synced at 1, skipsCommit.
    destruct (hasJiraKey (commit_message commit)) eqn:Hkey; cbn [orb negb].
    + now apply IH.
    + destruct (prefix "Merge" (commit_message commit)) eqn:Hmerge;
        cbn [negb].
      * now apply IH.
      * destruct (createIssue writer (commitPayload projectKey commit))
          as [k|e] eqn:Hcreate.
        -- cbn [bind]. rewrite (IH Hrest). unfold push.
           rewrite <- app_assoc. cbn [app map]. unfold commitEntry.
           now rewrite (keyFor_accepted _ _ Hcreate).
        -- exfalso. apply (Hall commit); [now left| |now exists e].
           unfold synced, skipsCommit. now rewrite Hkey, Hmerge.
Qed.

Lemma createFromCommits_refused (commits : list GitHubCommit) :
  (exists commit, In commit commits /\ synced commit = true
                  /\ refuses writer (commitPayload projectKey commit)) ->
  forall created,
    exists e, createFromCommits writer projectKey commits created = Err e.
Proof.
  induction commits as [|commit commits IH];
    intros (c & Hin & Hopen & Hrefused) created.
  - contradiction.
  - cbn [createFromCommits].
    assert (Hskip : skipsCommit commit = true -> In c commits).
    { intros Hs. destruct Hin as [->|Hin]; [|exact Hin].
      unfold synced in Hopen. rewrite Hs in Hopen. discriminate. }
    unfold skipsCommit in Hskip.
    destruct (hasJiraKey (commit_message commit)) eqn:Hkey.
    + apply IH. exists c. auto.
    + destruct (prefix "Merge" (commit_message commit)) eqn:Hmerge.
      * apply IH. exists c. auto.
      * destruct (createIssue writer (commitPayload projectKey commit))
          as [k|e] eqn:Hcreate; cbn [bind]; [|now exists e].
        destruct Hin as [->|Hin].
        -- destruct Hrefused as [e He]. congruence.
        -- apply IH. now exists c.
Qed.

End Sync.

(** X22. When Jira accepts every issue, the sync reports one entry for each
    open pull request whose title names no Jira key, in order ("PR #<n>",
    the new key, the title), followed by one entry for each commit that
    neither names a Jira key nor starts with "Merge" (the first seven
    characters of the hash, the new key, the title); the issue filed for a
    pull request has the type and the labels inferred from its body, or
    from its title when the body is absent or empty.  A source that is not
    selected contributes nothing. *)
Theorem createIssuesFromGitHub_created
        (client : JiraClient) (writer : IssueWriter) (github : GitHubClient)
        (owner repo projectKey : string) (options : GitHubSyncOptions)
        (prs : list GitHubPullRequest) (commits : list GitHubCommit) :
  (fromPRs options = true ->
   getPullRequests github owner repo "open" = Ok prs) ->
  (fromCommits options = true ->
   getCommits github owner repo (syncBranch options) (syncSince options) 50
   = Ok commits) ->
  (forall pr, In pr prs -> unlinked pr = true ->
              ~ refuses writer (pullRequestIssue projectKey pr)) ->
  (forall commit, In commit commits -> synced commit = true ->
                  ~ refuses writer (commitPayload projectKey commit)) ->
  createIssuesFromGitHub client writer (Some github) owner repo projectKey
                         options
  = Ok ((if fromPRs options
         then map (pullRequestEntry writer projectKey) (filter unlinked prs)
         else [])
          ++ (if fromCommits options
              then map (commitEntry writer projectKey) (filter synced commits)
              else []))%list.
Proof.
  intros Hprs Hcommits Hwriter1 Hwriter2. unfold createIssuesFromGitHub.
  destruct (fromPRs options).
  - rewrite (Hprs eq_refl). cbn [bind].
    rewrite (createFromPullRequests_accepted _ _ _ _ Hwriter1). cbn [bind app].
    destruct (fromCommits options).
    + rewrite (Hcommits eq_refl). cbn [bind].
      now rewrite (createFromCommits_accepted _ _ _ Hwriter2).
    + now rewrite app_nil_r.
  - cbn [bind app]. destruct (fromCommits options).
    + rewrite (Hcommits eq_refl). cbn [bind].
      now rewrite (createFromCommits_accepted _ _ _ Hwriter2).
    + reflexivity.
Qed.

Lemma createIssuesFromGitHub_created_witness :
  createIssuesFromGitHub
    (fixedClient offline offline offline) (acceptingWriter "NX-90")
    (Some (fixedGitHub (Ok samplePullRequests) (Ok sampleCommits)))
    "acme" "shop" "NX" syncEverything
  = Ok [{| createdSource := "PR #12"; jiraKey := "NX-90";
           createdTitle := "Fix login crash" |};
        {| createdSource := "0123456"; jiraKey := "NX-90";
           createdTitle := "Tidy the build scripts" |}].
Proof.
  rewrite (createIssuesFromGitHub_created
             (fixedClient offline offline offline) (acceptingWriter "NX-90")
             (fixedGitHub (Ok samplePullRequests) (Ok sampleCommits))
             "acme" "shop" "NX" syncEverything
             samplePullRequests sampleCommits).
  - reflexivity.
  - reflexivity.
  - reflexivity.
  - intros pr _ _ [e He]. discriminate He.
  - intros commit _ _ [e He]. discriminate He.
Defined.

(** X23. The sync has no fallback: without a GitHub client it fails with
    "GitHub client not configured" whatever else is given; with one, a
    failing fetch of a selected source fails it with the same message, and
    it fails as soon as Jira refuses the issue of one pull request or of one
    commit it would file, reporting none of the entries made before. *)
Theorem createIssuesFromGitHub_failure
        (client : JiraClient) (writer : IssueWriter)
        (owner repo projectKey : string) (options : GitHubSyncOptions) :
  createIssuesFromGitHub client writer None owner repo projectKey options
  = Err "GitHub client not configured"
  /\ forall github,
       let run := createIssuesFromGitHub client writer (Some github)
                                         owner repo projectKey options in
       (forall e,
           fromPRs options = true ->
           getPullRequests github owner repo "open" = Err e ->
           run = Err e)
       /\ (forall prs,
              fromPRs options = true ->
              getPullRequests github owner repo "open" = Ok prs ->
              (exists pr, In pr prs /\ unlinked pr = true
                          /\ refuses writer (pullRequestIssue projectKey pr)) ->
              exists e, run = Err e)
       /\ (forall commits,
              fromCommits options = true ->
              getCommits github owner repo (syncBranch options)
                         (syncSince options) 50 = Ok commits ->
              (exists commit,
                  In commit commits /\ synced commit = true
                  /\ refuses writer (commitPayload projectKey commit)) ->
              exists e, run = Err e).
Proof.
  split; [reflexivity|]. intros github run. unfold run.
  unfold createIssuesFromGitHub. split; [|split].
  - intros e -> ->. reflexivity.
  - intros prs -> -> Hrefused. cbn [bind].
    destruct (createFromPullRequests_refused client writer projectKey prs
                                             Hrefused [])
      as [e ->].
    now exists e.
  - intros commits Hselected Hfetch Hrefused. rewrite Hselected, Hfetch.
    match goal with
    | |- exists e, bind ?c _ = Err e => destruct c as [created1|e]
    end; cbn [bind]; [|now exists e].
    apply createFromCommits_refused, Hrefused.
Qed.

Lemma createIssuesFromGitHub_failure_witness :
  createIssuesFromGitHub
    (fixedClient offline offline offline) (refusingWriter "read only")
    None "acme" "shop" "NX" syncEverything
  = Err "GitHub client not configured"
  /\ exists e,
       createIssuesFromGitHub
         (fixedClient offline offline offline) (refusingWriter "read only")
         (Some (fixedGitHub (Ok samplePullRequests) (Ok sampleCommits)))
         "acme" "shop" "NX" syncEverything
       = Err e.
Proof.
  destruct (createIssuesFromGitHub_failure
              (fixedClient offline offline offline)
              (refusingWriter "read only") "acme" "shop" "NX" syncEverything)
    as [Hnone Hsome].
  split; [exact Hnone|].
  destruct (Hsome (fixedGitHub (Ok samplePullRequests) (Ok sampleCommits)))
    as (_ & Hrefused & _).
  apply (Hrefused samplePullRequests); [reflexivity|reflexivity|].
  exists {| pr_number := 12; pr_title := "Fix login crash";
            pr_body := Some "The login page has a crash bug";
            pr_html_url := "https://github.example/pull/12" |}.
  split; [cbn; tauto|]. split; [reflexivity|].
  exists "read only". reflexivity.
Defined.

(** ** Cross-platform sync: titles and Jira keys *)

Lemma prefix_trans (a b c : string) :
  prefix a b = true -> prefix b c = true -> prefix a c = true.
Proof.
  revert b c. induction a as [|x a IH]; intros [|y b] [|z c]; cbn;
    try reflexivity; try discriminate.
  destruct (ascii_dec x y) as [->|]; [|discriminate].
  destruct (ascii_dec y z) as [->|]; [|discriminate].
  apply IH.
Qed.

Lemma firstLineOf_prefix (s : string) : prefix (firstLineOf s) s = true.
Proof.
  induction s as [|c s IH]; cbn [firstLineOf]; [reflexivity|].
  destruct (N_of_ascii c =? 10)%N; [reflexivity|].
  cbn [prefix]. destruct (ascii_dec c c); [exact IH|congruence].
Qed.

Lemma firstLineOf_singleLine (s : string) : singleLine (firstLineOf s).
Proof.
  unfold singleLine. induction s as [|c s IH]; cbn [firstLineOf].
  - constructor.
  - destruct (N.eqb_spec (N_of_ascii c) 10); [constructor|].
    cbn [list_ascii_of_string]. now constructor.
Qed.

Lemma firstLineOf_whole (s : string) : singleLine s -> firstLineOf s = s.
Proof.
  unfold singleLine. induction s as [|c s IH]; cbn [firstLineOf];
    intros Hs; [reflexivity|].
  cbn [list_ascii_of_string] in Hs. inversion Hs as [|? ? Hc Hrest]; subst.
  apply N.eqb_neq in Hc. rewrite Hc. now rewrite IH.
Qed.

Lemma substring0_singleLine (n : nat) (s : string) :
  singleLine s -> singleLine (substring 0 n s).
Proof.
  unfold singleLine. revert s.
  induction n as [|n IH]; intros [|c s] Hs; cbn; try constructor.
  - cbn [list_ascii_of_string] in Hs. now inversion Hs.
  - apply IH. cbn [list_ascii_of_string] in Hs. now inversion Hs.
Qed.

(** X24. The title the sync gives the issue of a commit is at most 100
    characters long, holds no line break and is the beginning of the commit
    message; for a message of one line and at most 100 characters it is the
    whole message.  The summary sent to Jira is that title after
    "[GitHub Commit] ". *)
Theorem commitSummaryOf_bounded (projectKey : string) (commit : GitHubCommit) :
  String.length (commitSummaryOf commit) <= 100
  /\ singleLine (commitSummaryOf commit)
  /\ prefix (commitSummaryOf commit) (commit_message commit) = true
  /\ (singleLine (commit_message commit) ->
      String.length (commit_message commit) <= 100 ->
      commitSummaryOf commit = commit_message commit)
  /\ payloadSummary (commitPayload projectKey commit)
     = "[GitHub Commit] " ++ commitSummaryOf commit
  /\ String.length (payloadSummary (commitPayload projectKey commit)) <= 116.
Proof.
  unfold commitSummaryOf.
  assert (Hlen : String.length
                   (substring 0 100 (firstLineOf (commit_message commit)))
                 <= 100)
    by (rewrite length_substring0; lia).
  split; [exact Hlen|]. split; [|split; [|split; [|split]]].
  - apply substring0_singleLine, firstLineOf_singleLine.
  - eapply prefix_trans; [apply substring0_prefix|apply firstLineOf_prefix].
  - intros Hline Hshort. rewrite (firstLineOf_whole _ Hline).
    now apply substring0_all.
  - reflexivity.
  - cbn [payloadSummary commitPayload]. unfold commitSummaryOf.
    rewrite length_append. cbn [String.length]. lia.
Qed.

Lemma commitSummaryOf_bounded_witness :
  commitSummaryOf
    {| commit_sha := "0123456789abcdef";
       commit_message := "Tidy the build scripts";
       commit_html_url := "https://github.example/commit/0123456" |}
  = "Tidy the build scripts".
Proof.
  destruct (commitSummaryOf_bounded
              "NX"
              {| commit_sha := "0123456789abcdef";
                 commit_message := "Tidy the build scripts";
                 commit_html_url := "https://github.example/commit/0123456" |})
    as (_ & _ & _ & Hwhole & _).
  apply Hwhole.
  - unfold singleLine. cbn. repeat constructor; discriminate.
  - cbn. lia.
Defined.

Lemma hasJiraKey_later (before s : string) :
  hasJiraKey s = true -> hasJiraKey (before ++ s) = true.
Proof.
  intros Hs. induction before as [|c before IH]; [exact Hs|].
  cbn [append hasJiraKey]. rewrite IH. apply orb_true_r.
Qed.

Lemma isHyphen_spec (c : ascii) : isHyphen c = true <-> c = "-"%char.
Proof.
  unfold isHyphen. rewrite N.eqb_eq. split.
  - intros Hc. rewrite <- (ascii_N_embedding c), Hc. reflexivity.
  - intros ->. reflexivity.
Qed.

(** X25. The test for a Jira key in a title or a message holds exactly when
    the text contains one or more capital letters directly followed by a
    hyphen and one or more digits. *)
Theorem hasJiraKey_pattern (s : string) :
  hasJiraKey s = true <-> holdsJiraKey s.
Proof.
  unfold holdsJiraKey. split.
  - induction s as [|a r IH]; cbn [hasJiraKey]; [discriminate|].
    intros Hs. apply orb_true_iff in Hs. destruct Hs as [Hhere|Hlater].
    + apply andb_true_iff in Hhere. destruct Hhere as [Ha Hr].
      destruct r as [|b [|c rest]]; try discriminate.
      apply andb_true_iff in Hr. destruct Hr as [Hb Hc].
      apply isHyphen_spec in Hb. subst b.
      exists "", (String a ""), (String c ""), rest.
      split; [reflexivity|]. split; [discriminate|]. split; [discriminate|].
      split; cbn [list_ascii_of_string]; repeat constructor; assumption.
    + destruct (IH Hlater)
        as (before & letters & digits & rest & -> & Hl & Hd & Hup & Hdig).
      exists (String a before), letters, digits, rest.
      repeat split; assumption.
  - intros (before & letters & digits & rest & -> & Hl & Hd & Hup & Hdig).
    apply hasJiraKey_later. clear before.
    destruct digits as [|d digits]; [congruence|].
    cbn [list_ascii_of_string] in Hdig.
    inversion Hdig as [|? ? Hdigit _]; subst.
    induction letters as [|c letters IH]; [congruence|].
    cbn [list_ascii_of_string] in Hup.
    inversion Hup as [|? ? Hc Hrest]; subst.
    destruct letters as [|c' letters].
    + cbn. rewrite Hc, Hdigit. reflexivity.
    + change (String c (String c' letters) ++ "-" ++ String d digits ++ rest)
        with (String c ((String c' letters) ++ "-" ++ String d digits ++ rest)).
      cbn [hasJiraKey]. rewrite IH; [apply orb_true_r|discriminate|exact Hrest].
Qed.

Lemma hasJiraKey_pattern_witness :
  hasJiraKey "NX-7 rename the settings module" = true
  /\ ~ holdsJiraKey "Fix login crash".
Proof.
  split.
  - apply hasJiraKey_pattern.
    exists "", "NX", "7", " rename the settings module".
    split; [reflexivity|]. split; [discriminate|]. split; [discriminate|].
    split; cbn; repeat constructor.
  - intros Hholds. apply hasJiraKey_pattern in Hholds. discriminate Hholds.
Defined.

(** ** Publishing release notes *)

(** X26. The version label of the published page is "version-" followed
    by the version with every full stop replaced by a hyphen: the replaced
    version holds no full stop, is as long as the version, and replacing
    again changes nothing. *)
Theorem releasePageLabels_version (notes : ReleaseNotes) :
  releasePageLabels notes
  = ["release-notes"; "version-" ++ replaceDots (version notes)]
  /\ noFullStop (replaceDots (version notes))
  /\ String.length (replaceDots (version notes))
     = String.length (version notes)
  /\ replaceDots (replaceDots (version notes)) = replaceDots (version notes).
Proof.
  split; [reflexivity|]. unfold noFullStop.
  generalize (version notes) as v. intros v.
  assert (Hnone : Forall (fun c => N_of_ascii c <> 46%N)
                         (list_ascii_of_string (replaceDots v))).
  { induction v as [|c v IH]; cbn [replaceDots list_ascii_of_string];
      constructor; [|exact IH].
    destruct (N.eqb_spec (N_of_ascii c) 46) as [Hdot|Hother];
      [discriminate|exact Hother]. }
  split; [exact Hnone|]. split.
  - clear Hnone.
    induction v as [|c v IH]; cbn [replaceDots String.length];
      [reflexivity|now rewrite IH].
  - revert Hnone. generalize (replaceDots v) as w.
    induction w as [|c w IH]; cbn [replaceDots list_ascii_of_string];
      intros Hw; [reflexivity|].
    inversion Hw as [|? ? Hc Hrest]; subst.
    apply N.eqb_neq in Hc. rewrite Hc. now rewrite IH.
Qed.
